(** * MYLES fitness platform: the marketplace state machine

    A shallow embedding of the server side of the platform (the schema of
    [shared/schema.ts], the storage classes [DatabaseStorage] and
    [TrainerStorage], and the Express routes of [registerRoutes]) together
    with the properties of the approval, claiming, subscription, search and
    booking rules.

    Conventions of the embedding:
    - a table is the list of its rows in storage order; a [serial] primary
      key is drawn from a per-table sequence kept in the database state;
    - a storage method that can throw returns an [option] next to the new
      database ([None] is the rejected promise); a route returns the new
      database and the HTTP response it sends;
    - [new Date()] is an explicit argument [now];
    - the payment provider and the database server are not part of the
      repository: what a route or a storage method asks of them is an
      explicit argument ([Stripe], [Postgres]);
    - [sendEmail] catches its own errors and returns a boolean which no
      route reads, so notification e-mails leave no trace in the model;
    - columns that are only ever copied into e-mails or shown by the client
      (descriptions, social links, coordinates, pictures) are left out of
      the records. *)

From Stdlib Require Import String Ascii List ZArith QArith Qround Bool Lia.
Import ListNotations.

Close Scope Q_scope.
Open Scope string_scope.
Open Scope list_scope.
Open Scope Z_scope.

(** ** JSON request bodies and column rules *)

(** A property of a JSON body: missing ([undefined]), [null], or a value. *)
Inductive field (A : Type) : Type :=
| Absent
| Null
| Val (a : A).
Arguments Absent {A}.
Arguments Null {A}.
Arguments Val {A} a.

(** What drizzle-zod and the column definition make of a body property.
    [None] on the left is a [ZodError]; the right-hand option is the SQL
    value, [None] being NULL. *)

(** [.notNull()] without default: the property is required. *)
Definition required {A} (f : field A) : option A :=
  match f with Val a => Some a | _ => None end.

(** [.notNull().default(d)]: optional, not nullable. *)
Definition required_default {A} (d : A) (f : field A) : option A :=
  match f with Absent => Some d | Null => None | Val a => Some a end.

(** nullable column without default: optional and nullable. *)
Definition nullable {A} (f : field A) : option A :=
  match f with Val a => Some a | _ => None end.

(** nullable column with [.default(d)]: a missing property takes the
    default, an explicit [null] is stored as NULL. *)
Definition nullable_default {A} (d : A) (f : field A) : option A :=
  match f with Absent => Some d | Null => None | Val a => Some a end.

(** JavaScript truthiness of the values the routes test. *)
Definition truthy_bool (b : option bool) : bool :=
  match b with Some true => true | _ => false end.

Definition truthy_string (s : option string) : bool :=
  match s with Some s => negb (s =? "")%string | None => false end.

(** A value of a parsed JSON body. *)
Unset Elimination Schemes.
Inductive json : Type :=
| JNull
| JBool (b : bool)
| JNumber (q : Q)
| JString (s : string)
| JArray (l : list json)
| JObject (l : list (string * json)).
Set Elimination Schemes.

(** What a validator is handed for a property: a value parsed from the JSON
    of the request, or an object that only code running on the server can
    build, of which the schemas tell the [Date] apart (its time in
    milliseconds). A property that is not there is [None]. *)
Inductive value : Type :=
| Parsed (j : json)
| DateObject (ms : Z).

(** [z.string()], of a [.notNull()] text column. *)
Definition z_string (v : option value) : option string :=
  match v with
  | Some (Parsed (JString s)) => Some s
  | _ => None
  end.

(** [z.string().optional()], of a [.notNull()] text column with a default. *)
Definition z_string_optional (v : option value) : option (option string) :=
  match v with
  | None => Some None
  | Some (Parsed (JString s)) => Some (Some s)
  | _ => None
  end.

(** [z.string().nullable().optional()], of a nullable text column. *)
Definition z_string_nullish (v : option value) : option (field string) :=
  match v with
  | None => Some Absent
  | Some (Parsed JNull) => Some Null
  | Some (Parsed (JString s)) => Some (Val s)
  | _ => None
  end.

(** The number of a [.notNull()] [integer] column. A number with a
    fractional part gets no further than the write: the schema refuses it
    where it asks for an integer, and the column refuses it otherwise. *)
Definition z_integer (v : option value) : option Z :=
  match v with
  | Some (Parsed (JNumber q)) =>
      if Qeq_bool q (inject_Z (Qfloor q)) then Some (Qfloor q) else None
  | _ => None
  end.

(** [z.date()], of a [.notNull()] [timestamp] column: a [Date] object. *)
Definition z_date (v : option value) : option Z :=
  match v with
  | Some (DateObject ms) => Some ms
  | _ => None
  end.

(** The response a route sends: [res.status(n).json(body)] with an entity,
    or with a [{ message }] object. *)
Inductive Response (A : Type) : Type :=
| Json (status : nat) (body : A)
| Message (status : nat) (message : string).
Arguments Json {A} status body.
Arguments Message {A} status message.

Definition status_of {A} (r : Response A) : nat :=
  match r with Json n _ => n | Message n _ => n end.

(** ** Text matching: LIKE and ILIKE *)

Module Like.

(** ASCII case folding; the database folds by its locale, which agrees with
    this on the ASCII letters postcodes and session names are made of. *)
Definition to_lower (c : ascii) : ascii :=
  let n := nat_of_ascii c in
  if (Nat.leb 65 n && Nat.leb n 90)%bool then ascii_of_nat (n + 32) else c.

Definition lower (s : list ascii) : list ascii := map to_lower s.

Inductive tok : Type :=
| TAny              (* % : any run of characters *)
| TOne              (* _ : any one character *)
| TLit (c : ascii). (* a character standing for itself *)

Definition is_meta (c : ascii) : bool :=
  (Ascii.eqb c "%" || Ascii.eqb c "_" || Ascii.eqb c "\")%bool%char.

(** Reading a LIKE pattern: backslash is the escape character and takes the
    next character literally. A pattern that ends in a lone backslash makes
    the database raise an error; [ends_in_escape] recognises those, and the
    patterns the storage layer builds never are (they end in an added [%]),
    so [tokens] reads the lone backslash as itself. *)
Fixpoint tokens (p : list ascii) : list tok :=
  match p with
  | [] => []
  | c :: p' =>
      if Ascii.eqb c "\"%char then
        match p' with
        | [] => [TLit c]
        | d :: p'' => TLit d :: tokens p''
        end
      else if Ascii.eqb c "%"%char then TAny :: tokens p'
      else if Ascii.eqb c "_"%char then TOne :: tokens p'
      else TLit c :: tokens p'
  end.

Fixpoint ends_in_escape (p : list ascii) : bool :=
  match p with
  | [] => false
  | c :: p' =>
      if Ascii.eqb c "\"%char then
        match p' with
        | [] => true
        | _ :: p'' => ends_in_escape p''
        end
      else ends_in_escape p'
  end.

Fixpoint like_match (p : list tok) (s : list ascii) {struct p} : bool :=
  match p with
  | [] => match s with [] => true | _ :: _ => false end
  | TAny :: p' =>
      (fix any (s : list ascii) : bool :=
         (like_match p' s ||
          match s with [] => false | _ :: s' => any s' end)%bool) s
  | TOne :: p' =>
      match s with [] => false | _ :: s' => like_match p' s' end
  | TLit c :: p' =>
      match s with
      | [] => false
      | d :: s' => (Ascii.eqb c d && like_match p' s')%bool
      end
  end.

(** [column LIKE pattern] *)
Definition like (s pattern : string) : bool :=
  like_match (tokens (list_ascii_of_string pattern)) (list_ascii_of_string s).

(** [column ILIKE pattern]: both sides are folded, then matched. *)
Definition ilike (s pattern : string) : bool :=
  like_match (tokens (lower (list_ascii_of_string pattern)))
             (lower (list_ascii_of_string s)).

(** The template literal [`%${x}%`]. *)
Definition wrap (x : string) : string := ("%" ++ x ++ "%")%string.

(** Substring containment, the reading of the filters the specification
    gives; it is compared with [ilike] below. *)
Fixpoint prefix (p s : list ascii) : bool :=
  match p, s with
  | [], _ => true
  | _ :: _, [] => false
  | c :: p', d :: s' => (Ascii.eqb c d && prefix p' s')%bool
  end.

Fixpoint contains (p s : list ascii) : bool :=
  (prefix p s || match s with [] => false | _ :: s' => contains p s' end)%bool.

Definition contains_ci (p s : string) : bool :=
  contains (lower (list_ascii_of_string p)) (lower (list_ascii_of_string s)).

Definition no_meta (p : string) : bool :=
  forallb (fun c => negb (is_meta c)) (list_ascii_of_string p).

End Like.

(** ** The [decimal(10, 2)] columns *)

(** A stored [decimal(10,2)] is a whole number of hundredths. A value
    written to such a column is rounded to two places, half away from zero,
    and rejected when it needs more than eight digits before the point. *)
Definition numeric := Z.

Definition numeric_to_Q (p : numeric) : Q := (p # 100)%Q.

Definition round_half_away (q : Q) : Z :=
  if Qle_bool 0 q then Qfloor (q + (1 # 2))%Q
  else - Qfloor (- q + (1 # 2))%Q.

Definition to_numeric_10_2 (q : Q) : option numeric :=
  let p := round_half_away (q * 100)%Q in
  if Z.abs p <? 10 ^ 10 then Some p else None.

(** A [decimal] column that is written from a string leaves the reading of
    the text to the database server, which is not part of the repository:
    [numeric_in] is the number the server reads from the text, [None] where
    it reads none. *)
Record Postgres : Type := mkPostgres {
  numeric_in : string -> option Q
}.




(** ** The schema ([shared/schema.ts]) *)

(** Timestamps are milliseconds since the epoch. Nullable columns are
    options; the boolean flags are nullable columns with a default. *)

Module User.
Record t : Type := mk {
  id : string;
  email : option string;
  role : string;                       (* user, business, admin *)
  stripeCustomerId : option string;
  updatedAt : option Z
}.
Definition with_stripeCustomerId (u : t) (c : string) (now : Z) : t :=
  mk (id u) (email u) (role u) (Some c) (Some now).
Definition with_updatedAt (u : t) (now : Z) : t :=
  mk (id u) (email u) (role u) (stripeCustomerId u) (Some now).
End User.

Module Business.
Record t : Type := mk {
  id : Z;
  userId : option string;              (* nullable for manually added businesses *)
  name : string;
  address : string;
  postcode : string;
  approved : option bool;
  claimed : option bool;
  manuallyAdded : option bool;
  subscriptionTier : option string;    (* free, basic, premium *)
  bookingEnabled : option bool;        (* requires paid subscription *)
  subscriptionExpiry : option Z;
  stripeSubscriptionId : option string;
  createdAt : option Z;
  updatedAt : option Z
}.
Definition with_approved (b : t) (a : bool) (now : Z) : t :=
  mk (id b) (userId b) (name b) (address b) (postcode b) (Some a) (claimed b)
     (manuallyAdded b) (subscriptionTier b) (bookingEnabled b)
     (subscriptionExpiry b) (stripeSubscriptionId b) (createdAt b) (Some now).
Definition with_subscription (b : t) (tier : string) (enabled : bool)
    (expiry : option Z) (sub : option string) (now : Z) : t :=
  mk (id b) (userId b) (name b) (address b) (postcode b) (approved b)
     (claimed b) (manuallyAdded b) (Some tier) (Some enabled) expiry sub
     (createdAt b) (Some now).
End Business.

Module SessionType.
Record t : Type := mk { id : Z; name : string }.
End SessionType.

Module Slot.
Record t : Type := mk { dayOfWeek : Z; startTime : string; endTime : string }.
End Slot.

Module FitnessSession.
Record t : Type := mk {
  id : Z;
  businessId : Z;
  sessionTypeId : Z;
  title : string;
  difficulty : list string;            (* jsonb array of level names *)
  ageGroups : list string;             (* jsonb array of age ranges *)
  gender : string;                     (* mixed, female_only, male_only *)
  price : numeric;
  duration : Z;
  maxParticipants : Z;
  schedule : list Slot.t;
  approved : option bool;
  createdAt : option Z;
  updatedAt : option Z
}.
Definition with_approved (s : t) (a : bool) (now : Z) : t :=
  mk (id s) (businessId s) (sessionTypeId s) (title s) (difficulty s)
     (ageGroups s) (gender s) (price s) (duration s) (maxParticipants s)
     (schedule s) (Some a) (createdAt s) (Some now).
End FitnessSession.

Module Booking.
Record t : Type := mk {
  id : Z;
  userId : string;
  sessionId : Z;
  sessionDate : Z;
  status : string;                     (* confirmed, cancelled, completed *)
  paymentIntentId : option string;
  totalAmount : numeric;
  specialRequirements : option string;
  createdAt : option Z;
  updatedAt : option Z
}.
Definition with_status (b : t) (s : string) (now : Z) : t :=
  mk (id b) (userId b) (sessionId b) (sessionDate b) s (paymentIntentId b)
     (totalAmount b) (specialRequirements b) (createdAt b) (Some now).
End Booking.

Module BusinessClaim.
Record t : Type := mk {
  id : Z;
  businessId : Z;
  userId : string;
  claimMessage : option string;
  verificationDocuments : option (list string);
  status : option string;              (* pending, approved, rejected *)
  adminNotes : option string;
  approvedAt : option Z;
  createdAt : option Z;
  updatedAt : option Z
}.
Definition with_status (c : t) (s : string) (now : Z) : t :=
  mk (id c) (businessId c) (userId c) (claimMessage c)
     (verificationDocuments c) (Some s) (adminNotes c) (approvedAt c)
     (createdAt c) (Some now).
End BusinessClaim.

Module PersonalTrainer.
Record t : Type := mk {
  id : Z;
  userId : string;
  firstName : string;
  lastName : string;
  bio : option string;
  specialties : list string;           (* jsonb array *)
  hourlyRate : option numeric;
  location : option string;
  bookingEnabled : option bool;
  approved : option bool
}.
(** The [updatedAt] column of a trainer is written but never read; it is
    one of the columns the record leaves out. *)
Definition with_approved (p : t) (a : bool) : t :=
  mk (id p) (userId p) (firstName p) (lastName p) (bio p) (specialties p)
     (hourlyRate p) (location p) (bookingEnabled p) (Some a).
End PersonalTrainer.

(** The insert schemas of drizzle-zod. None of them omits the status
    columns, so a body may carry them. *)

Module InsertBusiness.
(** What [insertBusinessSchema.parse] is given. *)
Record body : Type := mkBody {
  b_userId : field string;
  b_name : field string;
  b_address : field string;
  b_postcode : field string;
  b_approved : field bool;
  b_claimed : field bool;
  b_manuallyAdded : field bool;
  b_subscriptionTier : field string;
  b_bookingEnabled : field bool;
  b_subscriptionExpiry : field Z;
  b_stripeSubscriptionId : field string
}.
(** What it returns: the [InsertBusiness] type. *)
Record t : Type := mk {
  userId : field string;
  name : string;
  address : string;
  postcode : string;
  approved : field bool;
  claimed : field bool;
  manuallyAdded : field bool;
  subscriptionTier : field string;
  bookingEnabled : field bool;
  subscriptionExpiry : field Z;
  stripeSubscriptionId : field string
}.
(** The spread [{ ...req.body, userId }]. *)
Definition spread_userId (b : body) (uid : string) : body :=
  mkBody (Val uid) (b_name b) (b_address b) (b_postcode b) (b_approved b)
         (b_claimed b) (b_manuallyAdded b) (b_subscriptionTier b)
         (b_bookingEnabled b) (b_subscriptionExpiry b)
         (b_stripeSubscriptionId b).
End InsertBusiness.

Definition insertBusinessSchema_parse (b : InsertBusiness.body)
  : option InsertBusiness.t :=
  match required (InsertBusiness.b_name b),
        required (InsertBusiness.b_address b),
        required (InsertBusiness.b_postcode b) with
  | Some n, Some a, Some p =>
      Some (InsertBusiness.mk
              (InsertBusiness.b_userId b) n a p
              (InsertBusiness.b_approved b) (InsertBusiness.b_claimed b)
              (InsertBusiness.b_manuallyAdded b)
              (InsertBusiness.b_subscriptionTier b)
              (InsertBusiness.b_bookingEnabled b)
              (InsertBusiness.b_subscriptionExpiry b)
              (InsertBusiness.b_stripeSubscriptionId b))
  | _, _, _ => None
  end.

Module InsertFitnessSession.
Record body : Type := mkBody {
  b_businessId : field Z;
  b_sessionTypeId : field Z;
  b_title : field string;
  b_difficulty : field (list string);
  b_ageGroups : field (list string);
  b_gender : field string;
  b_price : field Q;                   (* z.number().min(0) *)
  b_duration : field Z;
  b_maxParticipants : field Z;
  b_schedule : field (list Slot.t);
  b_approved : field bool
}.
Record t : Type := mk {
  businessId : Z;
  sessionTypeId : Z;
  title : string;
  difficulty : list string;
  ageGroups : list string;
  gender : option string;              (* undefined takes the default *)
  price : Q;
  duration : Z;
  maxParticipants : Z;
  schedule : list Slot.t;
  approved : field bool
}.
End InsertFitnessSession.

Definition insertFitnessSessionSchema_parse (b : InsertFitnessSession.body)
  : option InsertFitnessSession.t :=
  match required (InsertFitnessSession.b_businessId b),
        required (InsertFitnessSession.b_sessionTypeId b),
        required (InsertFitnessSession.b_title b),
        required (InsertFitnessSession.b_difficulty b),
        required (InsertFitnessSession.b_ageGroups b),
        required (InsertFitnessSession.b_price b),
        required (InsertFitnessSession.b_duration b),
        required (InsertFitnessSession.b_maxParticipants b),
        required (InsertFitnessSession.b_schedule b) with
  | Some bid, Some tid, Some ti, Some di, Some ag, Some pr, Some du, Some mp,
    Some sc =>
      match InsertFitnessSession.b_gender b with
      | Null => None
      | g =>
          if Qle_bool 0 pr then
            Some (InsertFitnessSession.mk bid tid ti di ag (nullable g) pr du
                    mp sc (InsertFitnessSession.b_approved b))
          else None
      end
  | _, _, _, _, _, _, _, _, _ => None
  end.

Module InsertBooking.
(** The body of the request, as the JSON parser leaves it. *)
Record body : Type := mkBody {
  b_userId : option json;
  b_sessionId : option json;
  b_sessionDate : option json;
  b_status : option json;
  b_paymentIntentId : option json;
  b_totalAmount : option json;
  b_specialRequirements : option json
}.
(** The object handed to the schema. *)
Record input : Type := mkInput {
  i_userId : option value;
  i_sessionId : option value;
  i_sessionDate : option value;
  i_status : option value;
  i_paymentIntentId : option value;
  i_totalAmount : option value;
  i_specialRequirements : option value
}.
(** The [InsertBooking] type. *)
Record t : Type := mk {
  userId : string;
  sessionId : Z;
  sessionDate : Z;
  status : option string;              (* undefined takes the default *)
  paymentIntentId : field string;
  totalAmount : string;                (* a decimal column is a string *)
  specialRequirements : field string
}.
(** [{ ...req.body, userId }] *)
Definition spread_userId (b : body) (uid : string) : input :=
  mkInput (Some (Parsed (JString uid)))
          (option_map Parsed (b_sessionId b))
          (option_map Parsed (b_sessionDate b))
          (option_map Parsed (b_status b))
          (option_map Parsed (b_paymentIntentId b))
          (option_map Parsed (b_totalAmount b))
          (option_map Parsed (b_specialRequirements b)).
End InsertBooking.

(** [insertBookingSchema] is [createInsertSchema(bookings)] with no
    property overridden: [sessionDate] is validated as a [Date] object and
    [totalAmount] as a string. *)
Definition insertBookingSchema_parse (i : InsertBooking.input)
  : option InsertBooking.t :=
  match z_string (InsertBooking.i_userId i),
        z_integer (InsertBooking.i_sessionId i),
        z_date (InsertBooking.i_sessionDate i),
        z_string_optional (InsertBooking.i_status i),
        z_string_nullish (InsertBooking.i_paymentIntentId i),
        z_string (InsertBooking.i_totalAmount i),
        z_string_nullish (InsertBooking.i_specialRequirements i) with
  | Some u, Some s, Some d, Some st, Some p, Some a, Some r =>
      Some (InsertBooking.mk u s d st p a r)
  | _, _, _, _, _, _, _ => None
  end.

(** The object the claim route hands to [createBusinessClaim]. *)
Module InsertBusinessClaim.
Record t : Type := mk {
  businessId : Z;
  userId : string;
  claimMessage : field string;
  verificationDocuments : list string;
  status : string
}.
End InsertBusinessClaim.

(** The [UpsertUser] type of [insertUserSchema]. *)
Module UpsertUser.
Record t : Type := mk {
  id : string;
  email : field string;
  role : option string;                (* undefined takes the default *)
  stripeCustomerId : field string
}.
End UpsertUser.

Module InsertPersonalTrainer.
Record body : Type := mkBody {
  b_userId : field string;
  b_firstName : field string;
  b_lastName : field string;
  b_bio : field string;
  b_specialties : field (list string);
  b_hourlyRate : field Q;              (* z.number().min(0) *)
  b_location : field string;
  b_bookingEnabled : field bool;
  b_approved : field bool
}.
Record t : Type := mk {
  userId : string;
  firstName : string;
  lastName : string;
  bio : field string;
  specialties : list string;
  hourlyRate : Q;
  location : field string;
  bookingEnabled : field bool;
  approved : field bool
}.
(** The spread [{ ...trainerData, userId }]. *)
Definition spread_userId (d : t) (uid : string) : t :=
  mk uid (firstName d) (lastName d) (bio d) (specialties d) (hourlyRate d)
     (location d) (bookingEnabled d) (approved d).
End InsertPersonalTrainer.

Definition insertPersonalTrainerSchema_parse (b : InsertPersonalTrainer.body)
  : option InsertPersonalTrainer.t :=
  match required (InsertPersonalTrainer.b_userId b),
        required (InsertPersonalTrainer.b_firstName b),
        required (InsertPersonalTrainer.b_lastName b),
        required (InsertPersonalTrainer.b_specialties b),
        required (InsertPersonalTrainer.b_hourlyRate b) with
  | Some u, Some fn, Some ln, Some sp, Some hr =>
      if Qle_bool 0 hr then
        Some (InsertPersonalTrainer.mk u fn ln
                (InsertPersonalTrainer.b_bio b) sp hr
                (InsertPersonalTrainer.b_location b)
                (InsertPersonalTrainer.b_bookingEnabled b)
                (InsertPersonalTrainer.b_approved b))
      else None
  | _, _, _, _, _ => None
  end.

(** ** The database *)

Record Db : Type := mkDb {
  users : list User.t;
  businesses : list Business.t;
  sessionTypes : list SessionType.t;
  fitnessSessions : list FitnessSession.t;
  bookings : list Booking.t;
  businessClaims : list BusinessClaim.t;
  personalTrainers : list PersonalTrainer.t;
  businesses_id_seq : Z;
  fitness_sessions_id_seq : Z;
  bookings_id_seq : Z;
  business_claims_id_seq : Z
}.

Definition empty_db : Db := mkDb [] [] [] [] [] [] [] 1 1 1 1.

Definition set_users (db : Db) (us : list User.t) : Db :=
  mkDb us (businesses db) (sessionTypes db) (fitnessSessions db) (bookings db)
       (businessClaims db) (personalTrainers db) (businesses_id_seq db)
       (fitness_sessions_id_seq db) (bookings_id_seq db)
       (business_claims_id_seq db).

Definition set_businesses (db : Db) (bs : list Business.t) (seq : Z) : Db :=
  mkDb (users db) bs (sessionTypes db) (fitnessSessions db) (bookings db)
       (businessClaims db) (personalTrainers db) seq
       (fitness_sessions_id_seq db) (bookings_id_seq db)
       (business_claims_id_seq db).

Definition set_fitnessSessions (db : Db) (ss : list FitnessSession.t)
    (seq : Z) : Db :=
  mkDb (users db) (businesses db) (sessionTypes db) ss (bookings db)
       (businessClaims db) (personalTrainers db) (businesses_id_seq db) seq
       (bookings_id_seq db) (business_claims_id_seq db).

Definition set_bookings (db : Db) (ks : list Booking.t) (seq : Z) : Db :=
  mkDb (users db) (businesses db) (sessionTypes db) (fitnessSessions db) ks
       (businessClaims db) (personalTrainers db) (businesses_id_seq db)
       (fitness_sessions_id_seq db) seq (business_claims_id_seq db).

Definition set_businessClaims (db : Db) (cs : list BusinessClaim.t)
    (seq : Z) : Db :=
  mkDb (users db) (businesses db) (sessionTypes db) (fitnessSessions db)
       (bookings db) cs (personalTrainers db) (businesses_id_seq db)
       (fitness_sessions_id_seq db) (bookings_id_seq db) seq.

Definition set_personalTrainers (db : Db) (ts : list PersonalTrainer.t) : Db :=
  mkDb (users db) (businesses db) (sessionTypes db) (fitnessSessions db)
       (bookings db) (businessClaims db) ts (businesses_id_seq db)
       (fitness_sessions_id_seq db) (bookings_id_seq db)
       (business_claims_id_seq db).

(** The database together with the sequence of the [personal_trainers]
    table, for the operations that insert a trainer. *)
Record TrainerDb : Type := mkTrainerDb {
  base : Db;
  personal_trainers_id_seq : Z
}.

(** Foreign keys ([.references(...)]): the referenced row must exist. *)
Definition has_user (db : Db) (uid : string) : bool :=
  existsb (fun u => (User.id u =? uid)%string) (users db).

Definition has_business (db : Db) (id : Z) : bool :=
  existsb (fun b => Business.id b =? id) (businesses db).

Definition has_sessionType (db : Db) (id : Z) : bool :=
  existsb (fun t => SessionType.id t =? id) (sessionTypes db).

Definition has_fitnessSession (db : Db) (id : Z) : bool :=
  existsb (fun s => FitnessSession.id s =? id) (fitnessSessions db).

(** Rows joined in by [leftJoin]: the joined side may be missing, and as it
    is looked up by its primary key it adds at most one row. *)
Definition BusinessWithUser : Type := Business.t * option User.t.

Module FitnessSessionWithDetails.
Record t : Type := mk {
  session : FitnessSession.t;
  business : option BusinessWithUser;
  sessionType : option SessionType.t
}.
End FitnessSessionWithDetails.

Module BookingWithDetails.
(** [session], [session_business], [session_business_user] and
    [session_sessionType] are the nested [session], [session.business],
    [session.business.user] and [session.sessionType]. *)
Record t : Type := mk {
  booking : Booking.t;
  user : option User.t;
  session : option FitnessSession.t;
  session_business : option Business.t;
  session_business_user : option User.t;
  session_sessionType : option SessionType.t
}.
End BookingWithDetails.

Module BusinessClaimWithDetails.
Record t : Type := mk {
  claim : BusinessClaim.t;
  business : option Business.t;
  user : option User.t
}.
End BusinessClaimWithDetails.

Module Stats.
Record t : Type := mk {
  totalUsers : nat;
  totalBusinesses : nat;
  totalSessions : nat;
  pendingBusinesses : nat;
  pendingSessions : nat
}.
End Stats.

Definition PersonalTrainerWithUser : Type := PersonalTrainer.t * option User.t.

(** ** [DatabaseStorage] *)

Module storage.

Definition getUser (db : Db) (id : string) : option User.t :=
  find (fun u => (User.id u =? id)%string) (users db).

Definition join_user (db : Db) (b : Business.t) : BusinessWithUser :=
  (b, match Business.userId b with
      | Some uid => getUser db uid
      | None => None
      end).

(** An insert draws its id from the sequence before the row is checked, so
    a rejected insert consumes an id and stores nothing. *)
Definition createBusiness (now : Z) (db : Db) (business : InsertBusiness.t)
  : Db * option Business.t :=
  let id := businesses_id_seq db in
  let uid := nullable (InsertBusiness.userId business) in
  let row :=
    Business.mk id uid
      (InsertBusiness.name business)
      (InsertBusiness.address business)
      (InsertBusiness.postcode business)
      (nullable_default false (InsertBusiness.approved business))
      (nullable_default false (InsertBusiness.claimed business))
      (nullable_default false (InsertBusiness.manuallyAdded business))
      (nullable_default "free" (InsertBusiness.subscriptionTier business))
      (nullable_default false (InsertBusiness.bookingEnabled business))
      (nullable (InsertBusiness.subscriptionExpiry business))
      (nullable (InsertBusiness.stripeSubscriptionId business))
      (Some now) (Some now) in
  if match uid with Some u => has_user db u | None => true end
  then (set_businesses db (businesses db ++ [row]) (id + 1), Some row)
  else (set_businesses db (businesses db) (id + 1), None).

Definition getBusinessesByUserId (db : Db) (userId : string)
  : list BusinessWithUser :=
  map (join_user db)
      (filter (fun b => match Business.userId b with
                        | Some u => (u =? userId)%string
                        | None => false
                        end)
              (businesses db)).

Definition getBusinessById (db : Db) (id : Z) : option BusinessWithUser :=
  option_map (join_user db)
             (find (fun b => Business.id b =? id) (businesses db)).

(** [UPDATE ... WHERE id = ? RETURNING *]; the result is [undefined] when no
    row has the id. *)
Definition updateBusinessApproval (now : Z) (db : Db) (id : Z)
    (approved : bool) : Db * option Business.t :=
  let bs := map (fun b => if Business.id b =? id
                          then Business.with_approved b approved now
                          else b) (businesses db) in
  (set_businesses db bs (businesses_id_seq db),
   find (fun b => Business.id b =? id) bs).

Definition updateBusinessSubscription (now : Z) (db : Db) (id : Z)
    (subscriptionTier : string) (bookingEnabled : bool)
    (subscriptionExpiry : option Z) (stripeSubscriptionId : option string)
  : Db * option Business.t :=
  let bs := map (fun b => if Business.id b =? id
                          then Business.with_subscription b subscriptionTier
                                 bookingEnabled subscriptionExpiry
                                 stripeSubscriptionId now
                          else b) (businesses db) in
  (set_businesses db bs (businesses_id_seq db),
   find (fun b => Business.id b =? id) bs).

Definition updateUserStripeCustomerId (now : Z) (db : Db) (userId : string)
    (customerId : string) : Db :=
  set_users db
    (map (fun u => if (User.id u =? userId)%string
                   then User.with_stripeCustomerId u customerId now
                   else u) (users db)).

Definition createFitnessSession (now : Z) (db : Db)
    (session : InsertFitnessSession.t) : Db * option FitnessSession.t :=
  let id := fitness_sessions_id_seq db in
  let failed := (set_fitnessSessions db (fitnessSessions db) (id + 1), None) in
  match to_numeric_10_2 (InsertFitnessSession.price session) with
  | None => failed
  | Some price =>
      let row :=
        FitnessSession.mk id
          (InsertFitnessSession.businessId session)
          (InsertFitnessSession.sessionTypeId session)
          (InsertFitnessSession.title session)
          (InsertFitnessSession.difficulty session)
          (InsertFitnessSession.ageGroups session)
          (match InsertFitnessSession.gender session with
           | Some g => g
           | None => "mixed"
           end)
          price
          (InsertFitnessSession.duration session)
          (InsertFitnessSession.maxParticipants session)
          (InsertFitnessSession.schedule session)
          (nullable_default false (InsertFitnessSession.approved session))
          (Some now) (Some now) in
      if (has_business db (InsertFitnessSession.businessId session)
          && has_sessionType db (InsertFitnessSession.sessionTypeId session))%bool
      then (set_fitnessSessions db (fitnessSessions db ++ [row]) (id + 1),
            Some row)
      else failed
  end.

Definition join_session (db : Db) (s : FitnessSession.t)
  : FitnessSessionWithDetails.t :=
  FitnessSessionWithDetails.mk s
    (getBusinessById db (FitnessSession.businessId s))
    (find (fun t => SessionType.id t =? FitnessSession.sessionTypeId s)
          (sessionTypes db)).

(** A filter that is [undefined] is [None]; the price bounds are finite
    numbers. *)
Module filters.
Record t : Type := mk {
  postcode : option string;
  sessionType : option string;
  ageGroup : option string;
  difficulty : option string;
  maxPrice : option Q;
  minPrice : option Q
}.
End filters.

(** One SQL condition on a joined row; a condition that evaluates to NULL
    selects nothing, like one that is false. *)
Definition condition : Type := FitnessSessionWithDetails.t -> bool.

Definition approved_is_true : condition :=
  fun r => match FitnessSession.approved (FitnessSessionWithDetails.session r) with
           | Some true => true
           | _ => false
           end.

Definition postcode_ilike (p : string) : condition :=
  fun r => match FitnessSessionWithDetails.business r with
           | Some (b, _) => Like.ilike (Business.postcode b) (Like.wrap p)
           | None => false
           end.

Definition sessionType_ilike (t : string) : condition :=
  fun r => match FitnessSessionWithDetails.sessionType r with
           | Some st => Like.ilike (SessionType.name st) (Like.wrap t)
           | None => false
           end.

(** [column::jsonb ? text] on an array of strings. *)
Definition jsonb_exists (arr : list string) (x : string) : bool :=
  existsb (fun y => (y =? x)%string) arr.

Definition ageGroups_has (a : string) : condition :=
  fun r => jsonb_exists
             (FitnessSession.ageGroups (FitnessSessionWithDetails.session r)) a.

Definition difficulty_has (d : string) : condition :=
  fun r => jsonb_exists
             (FitnessSession.difficulty (FitnessSessionWithDetails.session r)) d.

Definition price_le (m : Q) : condition :=
  fun r => Qle_bool
             (numeric_to_Q (FitnessSession.price (FitnessSessionWithDetails.session r)))
             m.

Definition price_ge (m : Q) : condition :=
  fun r => Qle_bool m
             (numeric_to_Q (FitnessSession.price (FitnessSessionWithDetails.session r))).

(** [if (filters.x) conditions.push(...)]: a string filter counts when it is
    present and not empty. *)
Definition push_if_string (f : option string) (c : string -> condition)
  : list condition :=
  match f with
  | Some s => if (s =? "")%string then [] else [c s]
  | None => []
  end.

(** [if (filters.x !== undefined) conditions.push(...)] *)
Definition push_if_defined (f : option Q) (c : Q -> condition)
  : list condition :=
  match f with Some q => [c q] | None => [] end.

Definition conditions (f : filters.t) : list condition :=
  [approved_is_true]
  ++ push_if_string (filters.postcode f) postcode_ilike
  ++ push_if_string (filters.sessionType f) sessionType_ilike
  ++ push_if_string (filters.ageGroup f) ageGroups_has
  ++ push_if_string (filters.difficulty f) difficulty_has
  ++ push_if_defined (filters.maxPrice f) price_le
  ++ push_if_defined (filters.minPrice f) price_ge.

(** [and(...conditions)] *)
Definition and_ (cs : list condition) : condition :=
  fun r => forallb (fun c => c r) cs.

Definition searchFitnessSessions (db : Db) (f : filters.t)
  : list FitnessSessionWithDetails.t :=
  filter (and_ (conditions f)) (map (join_session db) (fitnessSessions db)).

Definition createBooking (pg : Postgres) (now : Z) (db : Db)
    (booking : InsertBooking.t) : Db * option Booking.t :=
  let id := bookings_id_seq db in
  let failed := (set_bookings db (bookings db) (id + 1), None) in
  match match numeric_in pg (InsertBooking.totalAmount booking) with
        | Some q => to_numeric_10_2 q
        | None => None
        end with
  | None => failed
  | Some total =>
      let row :=
        Booking.mk id
          (InsertBooking.userId booking)
          (InsertBooking.sessionId booking)
          (InsertBooking.sessionDate booking)
          (match InsertBooking.status booking with
           | Some s => s
           | None => "confirmed"
           end)
          (nullable (InsertBooking.paymentIntentId booking))
          total
          (nullable (InsertBooking.specialRequirements booking))
          (Some now) (Some now) in
      if (has_user db (InsertBooking.userId booking)
          && has_fitnessSession db (InsertBooking.sessionId booking))%bool
      then (set_bookings db (bookings db ++ [row]) (id + 1), Some row)
      else failed
  end.

Definition updateBookingStatus (now : Z) (db : Db) (id : Z) (status : string)
  : Db * option Booking.t :=
  let ks := map (fun k => if Booking.id k =? id
                          then Booking.with_status k status now
                          else k) (bookings db) in
  (set_bookings db ks (bookings_id_seq db),
   find (fun k => Booking.id k =? id) ks).

Definition getUnclaimedBusinesses (db : Db) : list BusinessWithUser :=
  map (join_user db)
      (filter (fun b =>
                 (match Business.claimed b with Some false => true | _ => false end
                  && match Business.manuallyAdded b with Some true => true | _ => false end)%bool)
              (businesses db)).

Definition createBusinessClaim (now : Z) (db : Db)
    (claim : InsertBusinessClaim.t) : Db * option BusinessClaim.t :=
  let id := business_claims_id_seq db in
  let row :=
    BusinessClaim.mk id
      (InsertBusinessClaim.businessId claim)
      (InsertBusinessClaim.userId claim)
      (nullable (InsertBusinessClaim.claimMessage claim))
      (Some (InsertBusinessClaim.verificationDocuments claim))
      (Some (InsertBusinessClaim.status claim))
      None None (Some now) (Some now) in
  if (has_business db (InsertBusinessClaim.businessId claim)
      && has_user db (InsertBusinessClaim.userId claim))%bool
  then (set_businessClaims db (businessClaims db ++ [row]) (id + 1), Some row)
  else (set_businessClaims db (businessClaims db) (id + 1), None).

Definition updateBusinessClaimStatus (now : Z) (db : Db) (id : Z)
    (status : string) : Db * option BusinessClaim.t :=
  let cs := map (fun c => if BusinessClaim.id c =? id
                          then BusinessClaim.with_status c status now
                          else c) (businessClaims db) in
  (set_businessClaims db cs (business_claims_id_seq db),
   find (fun c => BusinessClaim.id c =? id) cs).

(** [email] is [.unique()]: another row with the same non-null e-mail
    rejects the write. *)
Definition email_taken (db : Db) (id : string) (e : option string) : bool :=
  match e with
  | Some e =>
      existsb (fun u => (negb (User.id u =? id)%string
                         && match User.email u with
                            | Some e' => (e' =? e)%string
                            | None => false
                            end)%bool) (users db)
  | None => false
  end.

(** The [set] of the upsert, [{ ...userData, updatedAt: new Date() }],
    applied to an existing row: properties that are undefined keep the
    column. *)
Definition upsert_set (now : Z) (userData : UpsertUser.t) (u : User.t)
  : User.t :=
  User.mk (User.id u)
    (match UpsertUser.email userData with
     | Absent => User.email u
     | Null => None
     | Val e => Some e
     end)
    (match UpsertUser.role userData with
     | Some r => r
     | None => User.role u
     end)
    (match UpsertUser.stripeCustomerId userData with
     | Absent => User.stripeCustomerId u
     | Null => None
     | Val c => Some c
     end)
    (Some now).

(** [INSERT ... ON CONFLICT (id) DO UPDATE SET ... RETURNING *] *)
Definition upsertUser (now : Z) (db : Db) (userData : UpsertUser.t)
  : Db * option User.t :=
  let id := UpsertUser.id userData in
  match getUser db id with
  | None =>
      let row :=
        User.mk id (nullable (UpsertUser.email userData))
          (match UpsertUser.role userData with
           | Some r => r
           | None => "user"
           end)
          (nullable (UpsertUser.stripeCustomerId userData))
          (Some now) in
      if email_taken db id (User.email row) then (db, None)
      else (set_users db (users db ++ [row]), Some row)
  | Some old =>
      let us := map (fun u => if (User.id u =? id)%string
                              then upsert_set now userData u else u)
                    (users db) in
      if email_taken db id (User.email (upsert_set now userData old))
      then (db, None)
      else (set_users db us,
            find (fun u => (User.id u =? id)%string) us)
  end.

Definition getPendingBusinesses (db : Db) : list BusinessWithUser :=
  map (join_user db)
      (filter (fun b => match Business.approved b with
                        | Some false => true
                        | _ => false
                        end) (businesses db)).

Definition getFitnessSessionsByBusinessId (db : Db) (businessId : Z)
  : list FitnessSessionWithDetails.t :=
  map (join_session db)
      (filter (fun s => FitnessSession.businessId s =? businessId)
              (fitnessSessions db)).

Definition updateFitnessSessionApproval (now : Z) (db : Db) (id : Z)
    (approved : bool) : Db * option FitnessSession.t :=
  let ss := map (fun s => if FitnessSession.id s =? id
                          then FitnessSession.with_approved s approved now
                          else s) (fitnessSessions db) in
  (set_fitnessSessions db ss (fitness_sessions_id_seq db),
   find (fun s => FitnessSession.id s =? id) ss).

Definition getPendingFitnessSessions (db : Db)
  : list FitnessSessionWithDetails.t :=
  map (join_session db)
      (filter (fun s => match FitnessSession.approved s with
                        | Some false => true
                        | _ => false
                        end) (fitnessSessions db)).

(** The joins of the booking queries. The user joined to the booking is
    also the one placed under [session.business.user]. *)
Definition join_booking (db : Db) (k : Booking.t) : BookingWithDetails.t :=
  let user := getUser db (Booking.userId k) in
  let session := find (fun s => FitnessSession.id s =? Booking.sessionId k)
                      (fitnessSessions db) in
  let business :=
    match session with
    | Some s => find (fun b => Business.id b =? FitnessSession.businessId s)
                     (businesses db)
    | None => None
    end in
  let sessionType :=
    match session with
    | Some s => find (fun t => SessionType.id t =? FitnessSession.sessionTypeId s)
                     (sessionTypes db)
    | None => None
    end in
  BookingWithDetails.mk k user session business user sessionType.

Definition getBookingsByUserId (db : Db) (userId : string)
  : list BookingWithDetails.t :=
  map (join_booking db)
      (filter (fun k => (Booking.userId k =? userId)%string) (bookings db)).

Definition join_claim (db : Db) (c : BusinessClaim.t)
  : BusinessClaimWithDetails.t :=
  BusinessClaimWithDetails.mk c
    (find (fun b => Business.id b =? BusinessClaim.businessId c)
          (businesses db))
    (getUser db (BusinessClaim.userId c)).

Definition getPendingBusinessClaims (db : Db)
  : list BusinessClaimWithDetails.t :=
  map (join_claim db)
      (filter (fun c => match BusinessClaim.status c with
                        | Some s => (s =? "pending")%string
                        | None => false
                        end) (businessClaims db)).

Definition getStats (db : Db) : Stats.t :=
  Stats.mk
    (length (users db))
    (length (businesses db))
    (length (fitnessSessions db))
    (length (filter (fun b => match Business.approved b with
                              | Some false => true
                              | _ => false
                              end) (businesses db)))
    (length (filter (fun s => match FitnessSession.approved s with
                              | Some false => true
                              | _ => false
                              end) (fitnessSessions db))).

End storage.

(** ** [TrainerStorage] *)

Module trainerStorage.

Module filters.
Record t : Type := mk {
  search : option string;
  specialty : option string;
  location : option string;
  maxRate : option Q;
  approved : option bool
}.
End filters.

Definition condition : Type := PersonalTrainerWithUser -> bool.

Definition join_user (db : Db) (t : PersonalTrainer.t)
  : PersonalTrainerWithUser :=
  (t, storage.getUser db (PersonalTrainer.userId t)).

Definition approved_is_true : condition :=
  fun r => match PersonalTrainer.approved (fst r) with
           | Some true => true
           | _ => false
           end.

Definition name_or_bio_ilike (s : string) : condition :=
  fun r =>
    (Like.ilike (PersonalTrainer.firstName (fst r)) (Like.wrap s)
     || Like.ilike (PersonalTrainer.lastName (fst r)) (Like.wrap s)
     || match PersonalTrainer.bio (fst r) with
        | Some b => Like.ilike b (Like.wrap s)
        | None => false
        end)%bool.

(** [specialties @> '["x"]'] on an array of strings. *)
Definition specialties_contain (x : string) : condition :=
  fun r => existsb (fun y => (y =? x)%string)
                   (PersonalTrainer.specialties (fst r)).

Definition location_like (l : string) : condition :=
  fun r => match PersonalTrainer.location (fst r) with
           | Some loc => Like.like loc (Like.wrap l)
           | None => false
           end.

Definition rate_le (m : Q) : condition :=
  fun r => match PersonalTrainer.hourlyRate (fst r) with
           | Some h => Qle_bool (numeric_to_Q h) m
           | None => false
           end.

Definition push_if_string (f : option string) (c : string -> condition)
  : list condition :=
  match f with
  | Some s => if (s =? "")%string then [] else [c s]
  | None => []
  end.

Definition conditions (f : filters.t) : list condition :=
  (* if (filters.approved !== false) *)
  match filters.approved f with
  | Some false => []
  | _ => [approved_is_true]
  end
  ++ push_if_string (filters.search f) name_or_bio_ilike
  ++ push_if_string (filters.specialty f) specialties_contain
  ++ push_if_string (filters.location f) location_like
  (* if (filters.maxRate): zero is not a bound *)
  ++ match filters.maxRate f with
     | Some q => if Qeq_bool q 0 then [] else [rate_le q]
     | None => []
     end.

Definition searchPersonalTrainers (db : Db) (f : filters.t)
  : list PersonalTrainerWithUser :=
  let query := map (join_user db) (personalTrainers db) in
  let conditions := conditions f in
  if (0 <? length conditions)%nat
  then filter (fun r => forallb (fun c => c r) conditions) query
  else query.

Definition getPendingPersonalTrainers (db : Db)
  : list PersonalTrainerWithUser :=
  searchPersonalTrainers db (filters.mk None None None None (Some false)).

Definition createPersonalTrainer (tdb : TrainerDb)
    (trainer : InsertPersonalTrainer.t) : TrainerDb * option PersonalTrainer.t :=
  let db := base tdb in
  let id := personal_trainers_id_seq tdb in
  match to_numeric_10_2 (InsertPersonalTrainer.hourlyRate trainer) with
  | None => (mkTrainerDb db (id + 1), None)
  | Some rate =>
      let row :=
        PersonalTrainer.mk id
          (InsertPersonalTrainer.userId trainer)
          (InsertPersonalTrainer.firstName trainer)
          (InsertPersonalTrainer.lastName trainer)
          (nullable (InsertPersonalTrainer.bio trainer))
          (InsertPersonalTrainer.specialties trainer)
          (Some rate)
          (nullable (InsertPersonalTrainer.location trainer))
          (nullable_default false (InsertPersonalTrainer.bookingEnabled trainer))
          (nullable_default false (InsertPersonalTrainer.approved trainer)) in
      if has_user db (InsertPersonalTrainer.userId trainer)
      then (mkTrainerDb
              (set_personalTrainers db (personalTrainers db ++ [row]))
              (id + 1),
            Some row)
      else (mkTrainerDb db (id + 1), None)
  end.

Definition getPersonalTrainerById (db : Db) (id : Z)
  : option PersonalTrainerWithUser :=
  option_map (join_user db)
             (find (fun t => PersonalTrainer.id t =? id) (personalTrainers db)).

Definition updatePersonalTrainerApproval (db : Db) (id : Z) (approved : bool)
  : Db * option PersonalTrainer.t :=
  let ts := map (fun t => if PersonalTrainer.id t =? id
                          then PersonalTrainer.with_approved t approved
                          else t) (personalTrainers db) in
  (set_personalTrainers db ts,
   find (fun t => PersonalTrainer.id t =? id) ts).

End trainerStorage.

(** ** The routes ([registerRoutes]) *)

(** Every handler runs behind [isAuthenticated]; [userId] is
    [req.user.claims.sub]. An exception inside a handler is caught and
    answered with status 500; what was written before it stays written. *)

(** The payment provider and the environment are outside the program: a
    call to the provider either throws ([None]) or returns. *)
Record Stripe : Type := mkStripe {
  customers_create : string -> option string;
  subscriptions_create : string -> string -> option (string * Z)
    (* customer, price |-> subscription id, current_period_end *)
}.

Record Env : Type := mkEnv {
  STRIPE_BASIC_PRICE_ID : option string;
  STRIPE_PREMIUM_PRICE_ID : option string
}.

(** [process.env.X || ''] *)
Definition env_or_empty (v : option string) : string :=
  match v with Some s => s | None => "" end.

(** POST /api/businesses *)
Definition post_api_businesses (now : Z) (db : Db) (userId : string)
    (body : InsertBusiness.body) : Db * Response Business.t :=
  match storage.getUser db userId with
  | None => (db, Message 404 "User not found")
  | Some _ =>
      match insertBusinessSchema_parse
              (InsertBusiness.spread_userId body userId) with
      | None => (db, Message 500 "Failed to create business")
      | Some businessData =>
          match storage.createBusiness now db businessData with
          | (db', Some business) => (db', Json 201 business)
          | (db', None) => (db', Message 500 "Failed to create business")
          end
      end
  end.

(** POST /api/businesses/:id/claim *)
Definition post_api_businesses_claim (now : Z) (db : Db) (userId : string)
    (businessId : Z) (claimMessage : field string)
    (verificationDocuments : field (list string))
  : Db * Response BusinessClaim.t :=
  match storage.getBusinessById db businessId with
  | None => (db, Message 404 "Business not found")
  | Some (business, _) =>
      if (truthy_bool (Business.claimed business)
          || truthy_string (Business.userId business))%bool
      then (db, Message 400 "Business is already claimed")
      else
        match storage.createBusinessClaim now db
                (InsertBusinessClaim.mk businessId userId claimMessage
                   (* verificationDocuments || [] *)
                   (match verificationDocuments with
                    | Val docs => docs
                    | _ => []
                    end)
                   "pending") with
        | (db', Some claim) => (db', Json 201 claim)
        | (db', None) => (db', Message 500 "Failed to create business claim")
        end
  end.

Inductive UpgradeBody : Type :=
| Downgraded (business : option Business.t)
| Upgraded (business : option Business.t) (subscriptionId : string).

(** POST /api/businesses/:id/upgrade *)
Definition post_api_businesses_upgrade (env : Env) (stripe : Stripe)
    (now : Z) (db : Db) (userId : string) (businessId : Z)
    (subscriptionTier : string) : Db * Response UpgradeBody :=
  let failed := Message 500 "Failed to upgrade subscription" in
  match storage.getBusinessById db businessId with
  | None => (db, Message 403 "Not authorized to upgrade this business")
  | Some (_, None) => (db, failed)       (* business.user is null *)
  | Some (_, Some owner) =>
      if negb (User.id owner =? userId)%string
      then (db, Message 403 "Not authorized to upgrade this business")
      else if (subscriptionTier =? "free")%string then
        let (db', updated) :=
          storage.updateBusinessSubscription now db businessId "free" false
            None None in
        (db', Json 200 (Downgraded updated))
      else
        match (if (subscriptionTier =? "basic")%string
               then Some (env_or_empty (STRIPE_BASIC_PRICE_ID env))
               else if (subscriptionTier =? "premium")%string
               then Some (env_or_empty (STRIPE_PREMIUM_PRICE_ID env))
               else None) with
        | None => (db, Message 400 "Invalid subscription tier")
        | Some priceId =>
            if (priceId =? "")%string
            then (db, Message 500 "Subscription pricing not configured")
            else
              let user := storage.getUser db userId in
              let known :=
                match user with
                | Some u => User.stripeCustomerId u
                | None => None
                end in
              let created :=
                match customers_create stripe userId with
                | Some c =>
                    Some (storage.updateUserStripeCustomerId now db userId c, c)
                | None => None
                end in
              (* if (!customerId) *)
              let customer :=
                match known with
                | Some c => if (c =? "")%string then created else Some (db, c)
                | None => created
                end in
              match customer with
              | None => (db, failed)
              | Some (db1, customerId) =>
                  match subscriptions_create stripe customerId priceId with
                  | None => (db1, failed)
                  | Some (subscriptionId, current_period_end) =>
                      let (db2, updated) :=
                        storage.updateBusinessSubscription now db1 businessId
                          subscriptionTier true
                          (Some (current_period_end * 1000))
                          (Some subscriptionId) in
                      (db2, Json 200 (Upgraded updated subscriptionId))
                  end
              end
        end
  end.

(** POST /api/sessions *)
Definition post_api_sessions (now : Z) (db : Db) (userId : string)
    (body : InsertFitnessSession.body) : Db * Response FitnessSession.t :=
  let businesses := storage.getBusinessesByUserId db userId in
  if (length businesses =? 0)%nat
  then (db, Message 403 "No approved business found")
  else
    match insertFitnessSessionSchema_parse body with
    | None => (db, Message 500 "Failed to create session")
    | Some sessionData =>
        match storage.createFitnessSession now db sessionData with
        | (db', Some session) => (db', Json 201 session)
        | (db', None) => (db', Message 500 "Failed to create session")
        end
    end.

(** POST /api/bookings. [req.body] is what the JSON parser made of the
    request; the e-mail that follows the insert leaves no trace. *)
Definition post_api_bookings (pg : Postgres) (now : Z) (db : Db)
    (userId : string) (body : InsertBooking.body) : Db * Response Booking.t :=
  match insertBookingSchema_parse (InsertBooking.spread_userId body userId) with
  | None => (db, Message 500 "Failed to create booking")
  | Some bookingData =>
      match storage.createBooking pg now db bookingData with
      | (db', Some booking) => (db', Json 201 booking)
      | (db', None) => (db', Message 500 "Failed to create booking")
      end
  end.

(** PUT /api/admin/businesses/:id/approve. The e-mail to the owner reads
    [businessDetails.user.email]; for a business without owner that throws
    after the update has been written. *)
Definition put_api_admin_businesses_approve (now : Z) (db : Db)
    (userId : string) (businessId : Z) (approved : bool)
  : Db * Response (option Business.t) :=
  match storage.getUser db userId with
  | Some user =>
      if (User.role user =? "admin")%string then
        let (db', business) :=
          storage.updateBusinessApproval now db businessId approved in
        match storage.getBusinessById db' businessId with
        | Some (_, None) =>
            (db', Message 500 "Failed to update business approval")
        | _ => (db', Json 200 business)
        end
      else (db, Message 403 "Admin access required")
  | None => (db, Message 403 "Admin access required")
  end.

(** The test [user?.role !== 'admin'] that opens every admin route. *)
Definition not_admin (db : Db) (userId : string) : bool :=
  match storage.getUser db userId with
  | Some user => negb (User.role user =? "admin")%string
  | None => true
  end.

(** GET /api/sessions/business/:businessId *)
Definition get_api_sessions_business (db : Db) (userId : string)
    (businessId : Z) : Response (list FitnessSessionWithDetails.t) :=
  let businesses := storage.getBusinessesByUserId db userId in
  let ownsBusiness :=
    existsb (fun b => Business.id (fst b) =? businessId) businesses in
  if negb ownsBusiness then Message 403 "Access denied"
  else Json 200 (storage.getFitnessSessionsByBusinessId db businessId).

(** GET /api/admin/stats *)
Definition get_api_admin_stats (db : Db) (userId : string)
  : Response Stats.t :=
  if not_admin db userId then Message 403 "Admin access required"
  else Json 200 (storage.getStats db).

(** GET /api/admin/businesses/pending *)
Definition get_api_admin_businesses_pending (db : Db) (userId : string)
  : Response (list BusinessWithUser) :=
  if not_admin db userId then Message 403 "Admin access required"
  else Json 200 (storage.getPendingBusinesses db).

(** GET /api/admin/sessions/pending *)
Definition get_api_admin_sessions_pending (db : Db) (userId : string)
  : Response (list FitnessSessionWithDetails.t) :=
  if not_admin db userId then Message 403 "Admin access required"
  else Json 200 (storage.getPendingFitnessSessions db).

(** PUT /api/admin/sessions/:id/approve *)
Definition put_api_admin_sessions_approve (now : Z) (db : Db)
    (userId : string) (sessionId : Z) (approved : bool)
  : Db * Response (option FitnessSession.t) :=
  if not_admin db userId then (db, Message 403 "Admin access required")
  else
    let (db', session) :=
      storage.updateFitnessSessionApproval now db sessionId approved in
    (db', Json 200 session).

(** POST /api/personal-trainers. The body is validated before the caller
    is put in, so it has to carry a [userId] of its own, which the spread
    then replaces. *)
Definition post_api_personal_trainers (tdb : TrainerDb) (userId : string)
    (body : InsertPersonalTrainer.body)
  : TrainerDb * Response PersonalTrainer.t :=
  match insertPersonalTrainerSchema_parse body with
  | None => (tdb, Message 500 "Failed to create trainer profile")
  | Some trainerData =>
      match trainerStorage.createPersonalTrainer tdb
              (InsertPersonalTrainer.spread_userId trainerData userId) with
      | (tdb', Some trainer) => (tdb', Json 201 trainer)
      | (tdb', None) => (tdb', Message 500 "Failed to create trainer profile")
      end
  end.

(** GET /api/personal-trainers/search. [maxRate] is the number
    [parseFloat] reads from the query, none when the parameter is missing
    or does not read as a number; the route never sets [approved]. *)
Definition get_api_personal_trainers_search (db : Db)
    (search specialty location : option string) (maxRate : option Q)
  : Response (list PersonalTrainerWithUser) :=
  Json 200 (trainerStorage.searchPersonalTrainers db
              (trainerStorage.filters.mk search specialty location maxRate
                 None)).

(** The four-byte [integer] of the database. *)
Definition int4 (n : Z) : bool := ((- 2 ^ 31 <=? n) && (n <? 2 ^ 31))%bool.

(** GET /api/personal-trainers/:id. [trainerId] is the number
    [parseInt(req.params.id)] returns, [None] being [NaN]. The number is
    compared with an [integer] column: for [NaN] and for a number beyond
    four bytes the query throws, which the route answers with status 500.
    (The path that ends in [search] is answered by the route registered
    before this one.) *)
Definition get_api_personal_trainers_id (db : Db) (trainerId : option Z)
  : Response PersonalTrainerWithUser :=
  match trainerId with
  | Some id =>
      if int4 id then
        match trainerStorage.getPersonalTrainerById db id with
        | None => Message 404 "Trainer not found"
        | Some trainer => Json 200 trainer
        end
      else Message 500 "Failed to fetch trainer"
  | None => Message 500 "Failed to fetch trainer"
  end.

(** GET /api/admin/trainers/pending *)
Definition get_api_admin_trainers_pending (db : Db) (userId : string)
  : Response (list PersonalTrainerWithUser) :=
  if not_admin db userId then Message 403 "Admin access required"
  else Json 200 (trainerStorage.getPendingPersonalTrainers db).

(** PUT /api/admin/trainers/:id/approve *)
Definition put_api_admin_trainers_approve (db : Db) (userId : string)
    (trainerId : Z) (approved : bool)
  : Db * Response (option PersonalTrainer.t) :=
  if not_admin db userId then (db, Message 403 "Admin access required")
  else
    let (db', trainer) :=
      trainerStorage.updatePersonalTrainerApproval db trainerId approved in
    (db', Json 200 trainer).

(** ** The forms of the client *)

Module client.

(** [EnhancedSessionForm]: the check boxes of the difficulty levels. The
    first argument is the state [selectedDifficulties]; the result is the
    new state, also written to the form. *)
Definition handleDifficultyChange (selectedDifficulties : list string)
    (difficulty : string) (checked : bool) : list string :=
  if (difficulty =? "all_levels")%string then
    if checked then ["all_levels"] else []
  else if checked then
    filter (fun d => negb (d =? "all_levels")%string) selectedDifficulties
    ++ [difficulty]
  else
    filter (fun d => negb (d =? difficulty)%string) selectedDifficulties.

Definition handleAgeGroupChange (selectedAgeGroups : list string)
    (ageGroup : string) (checked : bool) : list string :=
  if (ageGroup =? "all_ages")%string then
    if checked then ["all_ages"] else []
  else if checked then
    filter (fun a => negb (a =? "all_ages")%string) selectedAgeGroups
    ++ [ageGroup]
  else
    filter (fun a => negb (a =? ageGroup)%string) selectedAgeGroups.

(** The business form: [handleArrayToggle] on the current values of one of
    the array fields. *)
Definition handleArrayToggle (currentValues : list string) (value : string)
  : list string :=
  if existsb (fun v => (v =? value)%string) currentValues
  then filter (fun v => negb (v =? value)%string) currentValues
  else currentValues ++ [value].

(** The trainer form: [toggleSpecialty] (and, letter for letter,
    [toggleCertification], [toggleTime] and [toggleSessionType]). *)
Definition toggleSpecialty (selectedSpecialties : list string)
    (specialty : string) : list string :=
  if existsb (fun s => (s =? specialty)%string) selectedSpecialties
  then filter (fun s => negb (s =? specialty)%string) selectedSpecialties
  else selectedSpecialties ++ [specialty].

(** A run of clicks on the difficulty check boxes, from the initial state
    of the form. *)
Definition difficulty_clicks (clicks : list (string * bool)) : list string :=
  fold_left (fun sel c => handleDifficultyChange sel (fst c) (snd c)) clicks
            ["beginner"].

Definition ageGroup_clicks (clicks : list (string * bool)) : list string :=
  fold_left (fun sel c => handleAgeGroupChange sel (fst c) (snd c)) clicks
            ["18-25"].

(** A run of toggles on an array field that starts empty. *)
Definition array_toggles (values : list string) : list string :=
  fold_left handleArrayToggle values [].

End client.

(** A selection in which the catch-all value, when present, stands alone. *)
Definition alone_if_present (sentinel : string) (l : list string) : Prop :=
  In sentinel l -> l = [sentinel].

(** ** The business life cycle as a transition system *)

(** The states the business table can reach through registration, the
    admin approval switch and the subscription route, from any database
    that has no business yet. Registration bodies that themselves set
    [bookingEnabled: true] are left out: the insert schema would store the
    flag as sent. *)
Inductive reachable : Db -> Prop :=
| reach_init (db : Db) :
    businesses db = [] -> reachable db
| reach_register (now : Z) (db : Db) (userId : string)
    (body : InsertBusiness.body) :
    reachable db ->
    InsertBusiness.b_bookingEnabled body <> Val true ->
    reachable (fst (post_api_businesses now db userId body))
| reach_approve (now : Z) (db : Db) (userId : string) (businessId : Z)
    (approved : bool) :
    reachable db ->
    reachable (fst (put_api_admin_businesses_approve now db userId businessId
                      approved))
| reach_upgrade (env : Env) (stripe : Stripe) (now : Z) (db : Db)
    (userId : string) (businessId : Z) (subscriptionTier : string) :
    reachable db ->
    reachable (fst (post_api_businesses_upgrade env stripe now db userId
                      businessId subscriptionTier)).

Definition paid_tier (t : option string) : Prop :=
  t = Some "basic" \/ t = Some "premium".

(** The flag and the tier go together on every business of a database. *)
Definition enabled_only_when_paid (db : Db) : Prop :=
  forall b, In b (businesses db) ->
            Business.bookingEnabled b = Some true ->
            paid_tier (Business.subscriptionTier b).

(** A registration body that carries none of the status columns. *)
Definition no_status_fields (b : InsertBusiness.body) : Prop :=
  InsertBusiness.b_approved b = Absent
  /\ InsertBusiness.b_claimed b = Absent
  /\ InsertBusiness.b_manuallyAdded b = Absent
  /\ InsertBusiness.b_subscriptionTier b = Absent
  /\ InsertBusiness.b_bookingEnabled b = Absent.

(** A search filter free of the LIKE pattern characters. *)
Definition plain_filter (f : option string) : bool :=
  match f with Some p => Like.no_meta p | None => true end.

(** ** A sample database *)

Module Sample.

Definition owner : User.t := User.mk "owner" (Some "owner@example.com") "business" None None.
Definition alice : User.t := User.mk "alice" (Some "alice@example.com") "user" None None.
Definition admin : User.t := User.mk "admin" (Some "admin@example.com") "admin" None None.

(** A business as registration leaves it: owned, not approved, free tier. *)
Definition studio : Business.t :=
  Business.mk 1 (Some "owner") "FitLife Studio" "45 High Street" "SW1A 1AA"
    (Some false) (Some false) (Some false) (Some "free") (Some false)
    None None (Some 0) (Some 0).

(** A business without owner that was not flagged as manually added. *)
Definition gym : Business.t :=
  Business.mk 2 None "Iron Temple Gym" "123 Brick Lane" "E1 6SB"
    (Some true) (Some false) (Some false) (Some "free") (Some false)
    None None (Some 0) (Some 0).

Definition yoga : SessionType.t := SessionType.mk 1 "Yoga".

(** A session of [studio] that no admin has approved, priced 20.00. *)
Definition hatha : FitnessSession.t :=
  FitnessSession.mk 1 1 1 "Morning Hatha Yoga" ["beginner"] ["26-35"] "mixed"
    2000 60 12 [Slot.mk 1 "09:00" "10:00"] (Some false) (Some 0) (Some 0).

(** An approved session of [studio]. *)
Definition vinyasa : FitnessSession.t :=
  FitnessSession.mk 2 1 1 "Vinyasa Flow" ["intermediate"] ["all_ages"] "mixed"
    1500 45 10 [Slot.mk 3 "18:00" "18:45"] (Some true) (Some 0) (Some 0).

Definition cancelled_booking : Booking.t :=
  Booking.mk 1 "alice" 2 1000 "cancelled" None 1650 None (Some 0) (Some 0).

(** A business an admin added by hand for its owner to claim. *)
Definition pool : Business.t :=
  Business.mk 3 None "Aqua Sports Centre" "78 Park Road" "NW1 4SH"
    (Some true) (Some false) (Some true) (Some "free") (Some false)
    None None (Some 0) (Some 0).

Definition pending_claim : BusinessClaim.t :=
  BusinessClaim.mk 1 3 "alice" (Some "I run this pool") (Some [])
    (Some "pending") None None (Some 0) (Some 0).

Definition approved_trainer : PersonalTrainer.t :=
  PersonalTrainer.mk 1 "alice" "Alice" "Moore" None ["boxing"] (Some 4000)
    (Some "London") (Some true) (Some true).

Definition waiting_trainer : PersonalTrainer.t :=
  PersonalTrainer.mk 2 "owner" "Sarah" "Johnson" None ["yoga"] None None
    (Some false) (Some false).

Definition db : Db :=
  mkDb [owner; alice; admin] [studio; gym; pool] [yoga] [hatha; vinyasa]
       [cancelled_booking] [pending_claim]
       [approved_trainer; waiting_trainer] 4 3 2 2.

(** Only users, nothing else yet. *)
Definition fresh : Db := set_users empty_db [owner; alice; admin].

Definition registration : InsertBusiness.body :=
  InsertBusiness.mkBody Absent (Val "FitLife Studio") (Val "45 High Street")
    (Val "SW1A 1AA") Absent Absent Absent Absent Absent Absent Absent.

(** The same registration with the status columns filled in by the caller. *)
Definition pushy_registration : InsertBusiness.body :=
  InsertBusiness.mkBody Absent (Val "FitLife Studio") (Val "45 High Street")
    (Val "SW1A 1AA") (Val true) Absent Absent (Val "premium") (Val true)
    Absent Absent.

Definition env : Env := mkEnv (Some "price_basic") (Some "price_premium").

Definition stripe : Stripe :=
  mkStripe (fun _ => Some "cus_1") (fun _ _ => Some ("sub_1", 1700000000)).

(** Register, then upgrade to the basic plan without having been approved. *)
Definition registered : Db :=
  fst (post_api_businesses 10 fresh "owner" registration).

Definition upgraded_unapproved : Db :=
  fst (post_api_businesses_upgrade env stripe 20 registered "owner" 1 "basic").

(** [studio] after [upgraded_unapproved]: booking enabled, still unapproved. *)
Definition upgraded_studio : Business.t :=
  Business.mk 1 (Some "owner") "FitLife Studio" "45 High Street" "SW1A 1AA"
    (Some false) (Some false) (Some false) (Some "basic") (Some true)
    (Some 1700000000000) (Some "sub_1") (Some 10) (Some 20).

(** Register, get approved, upgrade, then lose the approval. *)
Definition approved_then_upgraded : Db :=
  fst (post_api_businesses_upgrade env stripe 30
         (fst (put_api_admin_businesses_approve 20 registered "admin" 1 true))
         "owner" 1 "premium").

Definition approval_revoked : Db :=
  fst (put_api_admin_businesses_approve 40 approved_then_upgraded "admin" 1
         false).

Definition new_session : InsertFitnessSession.body :=
  InsertFitnessSession.mkBody (Val 1) (Val 1) (Val "Lunchtime Pilates")
    (Val ["all_levels"]) (Val ["all_ages"]) Absent (Val (12 # 1)%Q) (Val 45)
    (Val 8) (Val [Slot.mk 2 "12:00" "12:45"]) Absent.

(** The same session, placed on a business of somebody else. *)
Definition foreign_session : InsertFitnessSession.body :=
  InsertFitnessSession.mkBody (Val 2) (Val 1) (Val "Lunchtime Pilates")
    (Val ["all_levels"]) (Val ["all_ages"]) Absent (Val (12 # 1)%Q) (Val 45)
    (Val 8) (Val [Slot.mk 2 "12:00" "12:45"]) Absent.






(** The row of the session [new_session] creates at time 50. *)
Definition pilates (businessId : Z) : FitnessSession.t :=
  FitnessSession.mk 3 businessId 1 "Lunchtime Pilates" ["all_levels"]
    ["all_ages"] "mixed" 1200 45 8 [Slot.mk 2 "12:00" "12:45"] (Some false)
    (Some 50) (Some 50).

(** The claim alice files on [gym] at time 50. *)
Definition claim_on_gym : BusinessClaim.t :=
  BusinessClaim.mk 2 2 "alice" (Some "It is mine") (Some []) (Some "pending")
    None None (Some 50) (Some 50).

Definition by_postcode (p : string) : storage.filters.t :=
  storage.filters.mk (Some p) None None None None None.


(** The admin logs in again; the identity provider sends no role. *)
Definition admin_login : UpsertUser.t :=
  UpsertUser.mk "admin" (Val "admin@example.com") None Absent.

Definition admin_after_login : User.t :=
  User.mk "admin" (Some "admin@example.com") "admin" None (Some 70).

(** [studio] as the sample registration stores it at time 10. *)
Definition registered_studio : Business.t :=
  Business.mk 1 (Some "owner") "FitLife Studio" "45 High Street" "SW1A 1AA"
    (Some false) (Some false) (Some false) (Some "free") (Some false)
    None None (Some 10) (Some 10).

(** A payment provider that issues customers but refuses subscriptions. *)
Definition refusing_stripe : Stripe :=
  mkStripe (fun _ => Some "cus_1") (fun _ _ => None).

Definition trainer_search : trainerStorage.filters.t :=
  trainerStorage.filters.mk (Some "ali") None (Some "Lond") None None.

End Sample.


(** The search without any filter. *)
Definition no_filters : storage.filters.t :=
  storage.filters.mk None None None None None None.

(** * Properties *)

(** ** Patterns and substrings *)

Section LikeFacts.
Import Like.

Lemma to_lower_not_meta c : is_meta c = false -> is_meta (to_lower c) = false.
Proof.
  destruct c as [[] [] [] [] [] [] [] []]; vm_compute; congruence.
Qed.

Lemma list_ascii_of_string_app (a b : string) :
  list_ascii_of_string (a ++ b)%string
  = list_ascii_of_string a ++ list_ascii_of_string b.
Proof.
  induction a as [|c a IH]; simpl; [reflexivity | now rewrite IH].
Qed.

Lemma lower_wrap (p : string) :
  lower (list_ascii_of_string (wrap p))
  = "%"%char :: lower (list_ascii_of_string p) ++ ["%"%char].
Proof.
  unfold wrap, lower. simpl. rewrite list_ascii_of_string_app, map_app.
  reflexivity.
Qed.

Lemma tokens_literal (f g : list ascii) :
  forallb (fun c => negb (is_meta c)) f = true ->
  tokens (f ++ g) = map TLit f ++ tokens g.
Proof.
  induction f as [|c f IH]; simpl; [reflexivity |].
  intros H. apply andb_true_iff in H. destruct H as [Hc Hf].
  unfold is_meta in Hc. rewrite !negb_orb in Hc.
  apply andb_true_iff in Hc. destruct Hc as [Hc H3].
  apply andb_true_iff in Hc. destruct Hc as [H1 H2].
  apply negb_true_iff in H1, H2, H3. rewrite H1, H2, H3.
  now rewrite IH.
Qed.

Lemma like_match_any (q : list tok) (s : list ascii) :
  like_match (TAny :: q) s
  = (like_match q s
     || match s with [] => false | _ :: s' => like_match (TAny :: q) s' end)%bool.
Proof. destruct s; reflexivity. Qed.

Lemma like_match_any_nil (s : list ascii) : like_match [TAny] s = true.
Proof.
  induction s as [|c s IH]; [reflexivity |].
  rewrite like_match_any, IH. apply orb_true_r.
Qed.

Lemma like_match_literal_prefix (f s : list ascii) :
  like_match (map TLit f ++ [TAny]) s = prefix f s.
Proof.
  revert s. induction f as [|c f IH]; intros s.
  - simpl map. simpl app. rewrite like_match_any_nil. now destruct s.
  - destruct s as [|d s]; [reflexivity |]. simpl. now rewrite IH.
Qed.

Lemma like_match_contains (f s : list ascii) :
  like_match (TAny :: map TLit f ++ [TAny]) s = contains f s.
Proof.
  induction s as [|d s IH].
  - rewrite like_match_any, like_match_literal_prefix. reflexivity.
  - rewrite like_match_any, like_match_literal_prefix, IH. reflexivity.
Qed.

Lemma prefix_spec (p s : list ascii) :
  prefix p s = true <-> exists b, s = p ++ b.
Proof.
  revert s. induction p as [|c p IH]; intros s; simpl.
  - split; [intros _; now exists s | reflexivity].
  - destruct s as [|d s].
    + split; [discriminate | intros [b Hb]; discriminate].
    + rewrite andb_true_iff, Ascii.eqb_eq, IH. split.
      * intros [-> [b ->]]. now exists b.
      * intros [b Hb]. injection Hb as -> ->. split; [reflexivity | now exists b].
Qed.

Lemma contains_spec (p s : list ascii) :
  contains p s = true <-> exists a b, s = a ++ p ++ b.
Proof.
  induction s as [|d s IH]; simpl.
  - rewrite orb_false_r, prefix_spec. split.
    + intros [b Hb]. now exists [], b.
    + intros [a [b Hb]]. destruct a; [now exists b |discriminate].
  - rewrite orb_true_iff, prefix_spec, IH. split.
    + intros [[b Hb] | [a [b Hb]]].
      * now exists [], b.
      * exists (d :: a), b. simpl. now rewrite Hb.
    + intros [a [b Hb]]. destruct a as [|e a].
      * left. now exists b.
      * right. injection Hb as _ Hb. now exists a, b.
Qed.

Lemma ends_in_escape_percent (l : list ascii) :
  ends_in_escape (l ++ ["%"%char]) = false
  /\ forall c, ends_in_escape (c :: l ++ ["%"%char]) = false.
Proof.
  induction l as [|a l [IH1 IH2]].
  - split; [reflexivity |]. intros c. simpl. now destruct (Ascii.eqb c "\").
  - split; [apply IH2 |]. intros c. simpl app.
    change (ends_in_escape (c :: a :: l ++ ["%"%char]))
      with (if Ascii.eqb c "\" then ends_in_escape (l ++ ["%"%char])
            else ends_in_escape (a :: l ++ ["%"%char])).
    destruct (Ascii.eqb c "\"); [apply IH1 | apply IH2].
Qed.

(** The patterns the storage layer builds never end in a lone escape. *)
Lemma wrap_never_ends_in_escape (p : string) :
  ends_in_escape (lower (list_ascii_of_string (wrap p))) = false
  /\ ends_in_escape (list_ascii_of_string (wrap p)) = false.
Proof.
  split.
  - rewrite lower_wrap. apply ends_in_escape_percent.
  - unfold wrap. simpl. rewrite list_ascii_of_string_app. simpl.
    apply ends_in_escape_percent.
Qed.

(** For a filter without pattern characters, [ILIKE '%filter%'] is
    case-insensitive substring containment. *)
Lemma ilike_wrap_contains (s p : string) :
  no_meta p = true -> ilike s (wrap p) = contains_ci p s.
Proof.
  intros H. unfold ilike, contains_ci. rewrite lower_wrap.
  assert (Hl : forallb (fun c => negb (is_meta c))
                 (lower (list_ascii_of_string p)) = true).
  { unfold no_meta in H. unfold lower.
    induction (list_ascii_of_string p) as [|c l IH]; [reflexivity |].
    simpl in *. apply andb_true_iff in H. destruct H as [Hc Hl].
    apply negb_true_iff in Hc. rewrite (to_lower_not_meta _ Hc). simpl.
    now apply IH. }
  change ("%"%char :: lower (list_ascii_of_string p) ++ ["%"%char])
    with (["%"%char] ++ lower (list_ascii_of_string p) ++ ["%"%char]).
  simpl app at 1.
  change (tokens ("%"%char :: lower (list_ascii_of_string p) ++ ["%"%char]))
    with (TAny :: tokens (lower (list_ascii_of_string p) ++ ["%"%char])).
  rewrite (tokens_literal _ _ Hl). simpl tokens.
  apply like_match_contains.
Qed.

End LikeFacts.

(** ** Session search *)

Section Search.
Import storage.

Lemma forallb_app_true {A} (p : A -> bool) (l1 l2 : list A) :
  forallb p (l1 ++ l2) = true <-> forallb p l1 = true /\ forallb p l2 = true.
Proof. rewrite forallb_app. apply andb_true_iff. Qed.

Lemma push_if_string_true (f : option string) (c : string -> condition)
    (r : FitnessSessionWithDetails.t) :
  forallb (fun k => k r) (push_if_string f c) = true
  <-> (forall s, f = Some s -> s <> "" -> c s r = true).
Proof.
  unfold push_if_string. destruct f as [s|].
  - destruct (String.eqb_spec s "") as [E|E]; simpl.
    + split; [intros _ s' [= <-] H; contradiction | reflexivity].
    + rewrite andb_true_r. split.
      * now intros H s' [= <-] _.
      * intros H. now apply H.
  - simpl. split; [discriminate | reflexivity].
Qed.

Lemma push_if_defined_true (f : option Q) (c : Q -> condition)
    (r : FitnessSessionWithDetails.t) :
  forallb (fun k => k r) (push_if_defined f c) = true
  <-> (forall q, f = Some q -> c q r = true).
Proof.
  unfold push_if_defined. destruct f as [q|]; simpl.
  - rewrite andb_true_r. split; [now intros H q' [= <-] | intros H; now apply H].
  - split; [discriminate | reflexivity].
Qed.

Lemma jsonb_exists_In (arr : list string) (x : string) :
  jsonb_exists arr x = true <-> In x arr.
Proof.
  unfold jsonb_exists. rewrite existsb_exists. split.
  - intros [y [Hy E]]. apply String.eqb_eq in E. now subst.
  - intros H. exists x. split; [assumption | apply String.eqb_refl].
Qed.

(** What the query selects, condition by condition. *)
Lemma searchFitnessSessions_selects (db : Db) (f : filters.t)
    (r : FitnessSessionWithDetails.t) :
  In r (searchFitnessSessions db f) <->
  In r (map (join_session db) (fitnessSessions db))
  /\ FitnessSession.approved (FitnessSessionWithDetails.session r) = Some true
  /\ (forall p, filters.postcode f = Some p -> p <> "" ->
        postcode_ilike p r = true)
  /\ (forall t, filters.sessionType f = Some t -> t <> "" ->
        sessionType_ilike t r = true)
  /\ (forall a, filters.ageGroup f = Some a -> a <> "" ->
        In a (FitnessSession.ageGroups (FitnessSessionWithDetails.session r)))
  /\ (forall d, filters.difficulty f = Some d -> d <> "" ->
        In d (FitnessSession.difficulty (FitnessSessionWithDetails.session r)))
  /\ (forall m, filters.maxPrice f = Some m ->
        (numeric_to_Q (FitnessSession.price (FitnessSessionWithDetails.session r)) <= m)%Q)
  /\ (forall m, filters.minPrice f = Some m ->
        (m <= numeric_to_Q (FitnessSession.price (FitnessSessionWithDetails.session r)))%Q).
Proof.
  unfold searchFitnessSessions, and_, conditions.
  rewrite filter_In.
  rewrite !forallb_app_true, !push_if_string_true, !push_if_defined_true.
  assert (Ha : forallb (fun c : condition => c r) [approved_is_true] = true
               <-> FitnessSession.approved (FitnessSessionWithDetails.session r)
                   = Some true).
  { simpl. rewrite andb_true_r. unfold approved_is_true.
    destruct (FitnessSession.approved _) as [[]|]; split; congruence. }
  rewrite Ha.
  assert (Hag : forall x, ageGroups_has x r = true
                 <-> In x (FitnessSession.ageGroups (FitnessSessionWithDetails.session r)))
    by (intros x; apply jsonb_exists_In).
  assert (Hdi : forall x, difficulty_has x r = true
                 <-> In x (FitnessSession.difficulty (FitnessSessionWithDetails.session r)))
    by (intros x; apply jsonb_exists_In).
  assert (Hle : forall m, price_le m r = true
                 <-> (numeric_to_Q (FitnessSession.price (FitnessSessionWithDetails.session r)) <= m)%Q)
    by (intros m; apply Qle_bool_iff).
  assert (Hge : forall m, price_ge m r = true
                 <-> (m <= numeric_to_Q (FitnessSession.price (FitnessSessionWithDetails.session r)))%Q)
    by (intros m; apply Qle_bool_iff).
  split.
  - intros (Hin & H0 & H1 & H2 & H3 & H4 & H5 & H6).
    repeat split; try assumption.
    + intros a E N. now apply Hag, H3.
    + intros d E N. now apply Hdi, H4.
    + intros m E. now apply Hle, H5.
    + intros m E. now apply Hge, H6.
  - intros (Hin & H0 & H1 & H2 & H3 & H4 & H5 & H6).
    repeat split; try assumption.
    + intros a E N. now apply Hag, H3.
    + intros d E N. now apply Hdi, H4.
    + intros m E. now apply Hle, H5.
    + intros m E. now apply Hge, H6.
Qed.

End Search.

Section SearchClaims.
Import storage.

(** C4 (as amended). Every session [searchFitnessSessions] returns is
    approved, whatever the filters. When the postcode and session-type
    filters contain none of the pattern characters [%], [_] and [\], a
    joined row is returned exactly when it is approved and satisfies all
    the supplied filters together: postcode and session type by
    case-insensitive substring, age group and difficulty by membership in
    the stored arrays, and the price within the inclusive bounds. A filter
    that is missing or empty selects nothing away. *)
Theorem searchFitnessSessions_approved_and_filtered (db : Db) (f : filters.t)
    (r : FitnessSessionWithDetails.t) :
  (In r (searchFitnessSessions db f) ->
   FitnessSession.approved (FitnessSessionWithDetails.session r) = Some true)
  /\
  (plain_filter (filters.postcode f) = true ->
   plain_filter (filters.sessionType f) = true ->
   (In r (searchFitnessSessions db f) <->
    In r (map (join_session db) (fitnessSessions db))
    /\ FitnessSession.approved (FitnessSessionWithDetails.session r) = Some true
    /\ (forall p, filters.postcode f = Some p -> p <> "" ->
          exists b u, FitnessSessionWithDetails.business r = Some (b, u)
                      /\ Like.contains_ci p (Business.postcode b) = true)
    /\ (forall t, filters.sessionType f = Some t -> t <> "" ->
          exists st, FitnessSessionWithDetails.sessionType r = Some st
                     /\ Like.contains_ci t (SessionType.name st) = true)
    /\ (forall a, filters.ageGroup f = Some a -> a <> "" ->
          In a (FitnessSession.ageGroups (FitnessSessionWithDetails.session r)))
    /\ (forall d, filters.difficulty f = Some d -> d <> "" ->
          In d (FitnessSession.difficulty (FitnessSessionWithDetails.session r)))
    /\ (forall m, filters.maxPrice f = Some m ->
          (numeric_to_Q (FitnessSession.price (FitnessSessionWithDetails.session r)) <= m)%Q)
    /\ (forall m, filters.minPrice f = Some m ->
          (m <= numeric_to_Q (FitnessSession.price (FitnessSessionWithDetails.session r)))%Q))).
Proof.
  split.
  - intros H. now apply searchFitnessSessions_selects in H.
  - intros Hp Ht. rewrite searchFitnessSessions_selects.
    assert (P : (forall p, filters.postcode f = Some p -> p <> "" ->
                   postcode_ilike p r = true)
                <-> (forall p, filters.postcode f = Some p -> p <> "" ->
                       exists b u, FitnessSessionWithDetails.business r = Some (b, u)
                                   /\ Like.contains_ci p (Business.postcode b) = true)).
    { split; intros H p E N; specialize (H p E N);
        rewrite E in Hp; simpl in Hp; unfold postcode_ilike in *.
      - destruct (FitnessSessionWithDetails.business r) as [[b u]|];
          [|discriminate].
        exists b, u. split; [reflexivity |].
        now rewrite <- (ilike_wrap_contains _ _ Hp).
      - destruct H as (b & u & -> & H).
        now rewrite (ilike_wrap_contains _ _ Hp). }
    assert (T : (forall t, filters.sessionType f = Some t -> t <> "" ->
                   sessionType_ilike t r = true)
                <-> (forall t, filters.sessionType f = Some t -> t <> "" ->
                       exists st, FitnessSessionWithDetails.sessionType r = Some st
                                  /\ Like.contains_ci t (SessionType.name st) = true)).
    { split; intros H t E N; specialize (H t E N);
        rewrite E in Ht; simpl in Ht; unfold sessionType_ilike in *.
      - destruct (FitnessSessionWithDetails.sessionType r) as [st|];
          [|discriminate].
        exists st. split; [reflexivity |].
        now rewrite <- (ilike_wrap_contains _ _ Ht).
      - destruct H as (st & -> & H).
        now rewrite (ilike_wrap_contains _ _ Ht). }
    rewrite P, T. reflexivity.
Qed.

(** C4, witness: the sample database searched for postcode [sw1a]. *)
Lemma searchFitnessSessions_approved_and_filtered_witness :
  let f := Sample.by_postcode "sw1a" in
  let r := join_session Sample.db Sample.vinyasa in
  plain_filter (filters.postcode f) = true
  /\ plain_filter (filters.sessionType f) = true
  /\ In r (searchFitnessSessions Sample.db f)
  /\ FitnessSession.approved (FitnessSessionWithDetails.session r) = Some true.
Proof.
  intros f r.
  assert (Hp : plain_filter (filters.postcode f) = true) by reflexivity.
  assert (Ht : plain_filter (filters.sessionType f) = true) by reflexivity.
  assert (Hin : In r (searchFitnessSessions Sample.db f))
    by (vm_compute; left; reflexivity).
  split; [exact Hp | split; [exact Ht | split; [exact Hin |]]].
  exact (proj1 (proj2 (proj1
           (proj2 (searchFitnessSessions_approved_and_filtered Sample.db f r)
                  Hp Ht) Hin))).
Defined.

(** C4, counterexample: the filter [S_1] is no substring of the postcode
    [SW1A 1AA] in any letter case, yet the search returns the session: the
    underscore of the filter reaches the query as a wildcard. *)
Lemma searchFitnessSessions_underscore_is_wildcard :
  searchFitnessSessions Sample.db (Sample.by_postcode "S_1")
  = [join_session Sample.db Sample.vinyasa]
  /\ Like.contains_ci "S_1" (Business.postcode Sample.studio) = false.
Proof. split; vm_compute; reflexivity. Qed.

End SearchClaims.

(** ** The pending-trainer queue *)

(** C10. [getPendingPersonalTrainers] returns every trainer in storage,
    approved or not, in storage order: with [approved: false] the search
    pushes no condition on the approved flag, and no other filter is set. *)
Theorem getPendingPersonalTrainers_returns_every_trainer (db : Db) :
  map fst (trainerStorage.getPendingPersonalTrainers db) = personalTrainers db
  /\ trainerStorage.conditions
       (trainerStorage.filters.mk None None None None (Some false)) = [].
Proof.
  split; [|reflexivity].
  unfold trainerStorage.getPendingPersonalTrainers,
    trainerStorage.searchPersonalTrainers.
  simpl. rewrite map_map. simpl. apply map_id.
Qed.

(** In the sample database the approved trainer is listed as pending. *)
Example approved_trainer_listed_as_pending :
  In (Sample.approved_trainer, Some Sample.alice)
     (trainerStorage.getPendingPersonalTrainers Sample.db)
  /\ PersonalTrainer.approved Sample.approved_trainer = Some true.
Proof. split; [vm_compute; left; reflexivity | reflexivity]. Qed.

(** ** Approval and subscription of a business *)

Section BusinessLifeCycle.

Lemma post_api_businesses_table (now : Z) (db : Db) (userId : string)
    (body : InsertBusiness.body) :
  businesses (fst (post_api_businesses now db userId body)) = businesses db
  \/ exists b,
       businesses (fst (post_api_businesses now db userId body))
       = businesses db ++ [b]
       /\ snd (post_api_businesses now db userId body) = Json 201 b
       /\ Business.userId b = Some userId
       /\ Business.approved b
          = nullable_default false (InsertBusiness.b_approved body)
       /\ Business.claimed b
          = nullable_default false (InsertBusiness.b_claimed body)
       /\ Business.manuallyAdded b
          = nullable_default false (InsertBusiness.b_manuallyAdded body)
       /\ Business.subscriptionTier b
          = nullable_default "free" (InsertBusiness.b_subscriptionTier body)
       /\ Business.bookingEnabled b
          = nullable_default false (InsertBusiness.b_bookingEnabled body).
Proof.
  unfold post_api_businesses.
  destruct (storage.getUser db userId); [|now left].
  unfold insertBusinessSchema_parse, InsertBusiness.spread_userId. simpl.
  destruct (required (InsertBusiness.b_name body)); [|now left].
  destruct (required (InsertBusiness.b_address body)); [|now left].
  destruct (required (InsertBusiness.b_postcode body)); [|now left].
  unfold storage.createBusiness. simpl.
  destruct (has_user db userId); simpl; [|now left].
  right. eexists. repeat split.
Qed.

(** The approval switch writes [approved] and [updatedAt], nothing else. *)
Lemma put_api_admin_businesses_approve_table (now : Z) (db : Db)
    (userId : string) (businessId : Z) (approved : bool) :
  businesses (fst (put_api_admin_businesses_approve now db userId businessId
                     approved)) = businesses db
  \/ businesses (fst (put_api_admin_businesses_approve now db userId businessId
                        approved))
     = map (fun b => if Business.id b =? businessId
                     then Business.with_approved b approved now else b)
           (businesses db).
Proof.
  unfold put_api_admin_businesses_approve.
  destruct (storage.getUser db userId) as [u|]; [|now left].
  destruct (User.role u =? "admin")%string; [|now left].
  unfold storage.updateBusinessApproval.
  match goal with
  | |- context [storage.getBusinessById ?d ?i] =>
      destruct (storage.getBusinessById d i) as [[? [?|]]|]
  end; now right.
Qed.

(** The subscription route either leaves the business table alone, or
    rewrites the subscription columns of the addressed business: to the free
    tier with booking disabled, or to a paid tier with booking enabled. *)
Lemma post_api_businesses_upgrade_table (env : Env) (stripe : Stripe)
    (now : Z) (db : Db) (userId : string) (businessId : Z) (tier : string) :
  let db' := fst (post_api_businesses_upgrade env stripe now db userId
                    businessId tier) in
  businesses db' = businesses db
  \/ (exists e s,
        businesses db'
        = map (fun b => if Business.id b =? businessId
                        then Business.with_subscription b "free" false e s now
                        else b) (businesses db))
  \/ (exists e s,
        paid_tier (Some tier)
        /\ businesses db'
           = map (fun b => if Business.id b =? businessId
                           then Business.with_subscription b tier true e s now
                           else b) (businesses db)).
Proof.
  unfold post_api_businesses_upgrade. simpl.
  destruct (storage.getBusinessById db businessId) as [[b [owner|]]|];
    [|now left|now left].
  destruct (User.id owner =? userId)%string; simpl; [|now left].
  destruct (tier =? "free")%string eqn:Efree.
  { right; left. simpl. now exists None, None. }
  assert (Hpaid : forall priceId,
            (if (tier =? "basic")%string
             then Some (env_or_empty (STRIPE_BASIC_PRICE_ID env))
             else if (tier =? "premium")%string
                  then Some (env_or_empty (STRIPE_PREMIUM_PRICE_ID env))
                  else None) = Some priceId -> paid_tier (Some tier)).
  { intros priceId. destruct (String.eqb_spec tier "basic") as [->|_].
    - intros _. now left.
    - destruct (String.eqb_spec tier "premium") as [->|_]; [|discriminate].
      intros _. now right. }
  destruct (if (tier =? "basic")%string then _ else _) as [priceId|];
    [|now left].
  specialize (Hpaid priceId eq_refl).
  destruct (priceId =? "")%string; [now left|].
  assert (Hcreate :
    forall customer : option (Db * string),
      customer = None
      \/ (exists d c, customer = Some (d, c) /\ businesses d = businesses db) ->
      let db' := fst (match customer with
                      | None => (db, Message 500 "Failed to upgrade subscription")
                      | Some (db1, customerId) =>
                          match subscriptions_create stripe customerId priceId with
                          | None => (db1, Message 500 "Failed to upgrade subscription")
                          | Some (subscriptionId, current_period_end) =>
                              let (db2, updated) :=
                                storage.updateBusinessSubscription now db1
                                  businessId tier true
                                  (Some (current_period_end * 1000))
                                  (Some subscriptionId) in
                              (db2, Json 200 (Upgraded updated subscriptionId))
                          end
                      end) in
      businesses db' = businesses db
      \/ (exists e s,
            businesses db'
            = map (fun b => if Business.id b =? businessId
                            then Business.with_subscription b "free" false e s now
                            else b) (businesses db))
      \/ (exists e s,
            paid_tier (Some tier)
            /\ businesses db'
               = map (fun b => if Business.id b =? businessId
                               then Business.with_subscription b tier true e s now
                               else b) (businesses db))).
  { intros customer [-> | (d & c & -> & Hd)]; [now left |].
    destruct (subscriptions_create stripe c priceId) as [[sid pend]|];
      [|now left].
    right; right. simpl. rewrite Hd.
    now exists (Some (pend * 1000)), (Some sid). }
  apply Hcreate.
  assert (Hnew : match customers_create stripe userId with
                 | Some c =>
                     Some (storage.updateUserStripeCustomerId now db userId c, c)
                 | None => None
                 end = None
                 \/ exists d c,
                      match customers_create stripe userId with
                      | Some c =>
                          Some (storage.updateUserStripeCustomerId now db userId c, c)
                      | None => None
                      end = Some (d, c) /\ businesses d = businesses db).
  { destruct (customers_create stripe userId) as [c|]; [|now left].
    right. now eexists _, c. }
  destruct (match storage.getUser db userId with
            | Some u => User.stripeCustomerId u
            | None => None
            end) as [c|]; [|exact Hnew].
  destruct (c =? "")%string; [exact Hnew |].
  right. now exists db, c.
Qed.

Lemma free_is_not_paid : ~ paid_tier (Some "free").
Proof. intros [H|H]; discriminate. Qed.

(** C3 (as amended). In every state reachable through registration (with
    bodies that do not themselves enable booking), the admin approval
    switch and the subscription route, a business with [bookingEnabled]
    true is on the basic or the premium tier, hence not on the free one.
    Nothing is said of [approved]: neither route relates it to the flag. *)
Theorem bookingEnabled_implies_paid_tier (db : Db) (b : Business.t) :
  reachable db ->
  In b (businesses db) ->
  Business.bookingEnabled b = Some true ->
  paid_tier (Business.subscriptionTier b)
  /\ Business.subscriptionTier b <> Some "free".
Proof.
  intros Hr Hin Hen.
  cut (paid_tier (Business.subscriptionTier b)).
  { intros H. split; [assumption |]. intros E. rewrite E in H.
    now apply free_is_not_paid. }
  revert b Hin Hen. change (enabled_only_when_paid db).
  induction Hr as [db H0 | now db uid body _ IH Hbody
                  | now db uid bid a _ IH | env stripe now db uid bid tier _ IH].
  - intros b Hin. rewrite H0 in Hin. contradiction.
  - intros b Hin Hen.
    destruct (post_api_businesses_table now db uid body) as [E|(x & E & _ & _ & _ & _ & _ & _ & Hx)];
      rewrite E in Hin; [now apply IH |].
    apply in_app_or in Hin. destruct Hin as [Hin|[<-|[]]]; [now apply IH |].
    rewrite Hx in Hen. destruct (InsertBusiness.b_bookingEnabled body) as [| |[]];
      simpl in Hen; try discriminate. now contradiction Hbody.
  - intros b Hin Hen.
    destruct (put_api_admin_businesses_approve_table now db uid bid a) as [E|E];
      rewrite E in Hin; [now apply IH |].
    apply in_map_iff in Hin. destruct Hin as (x & <- & Hx).
    destruct (Business.id x =? bid); [|now apply IH].
    apply (IH x Hx Hen).
  - intros b Hin Hen.
    destruct (post_api_businesses_upgrade_table env stripe now db uid bid tier)
      as [E|[(e & s & E)|(e & s & Hp & E)]];
      rewrite E in Hin; [now apply IH | |];
      apply in_map_iff in Hin; destruct Hin as (x & <- & Hx);
      (destruct (Business.id x =? bid); [|now apply IH]).
    + simpl in Hen. discriminate.
    + simpl. exact Hp.
Qed.

(** C3, witness: the sample business after its upgrade to the basic plan. *)
Lemma bookingEnabled_implies_paid_tier_witness :
  reachable Sample.upgraded_unapproved
  /\ In Sample.upgraded_studio (businesses Sample.upgraded_unapproved)
  /\ Business.bookingEnabled Sample.upgraded_studio = Some true
  /\ paid_tier (Business.subscriptionTier Sample.upgraded_studio)
  /\ Business.subscriptionTier Sample.upgraded_studio <> Some "free".
Proof.
  assert (Hr : reachable Sample.upgraded_unapproved).
  { unfold Sample.upgraded_unapproved. apply reach_upgrade.
    unfold Sample.registered. apply reach_register.
    - apply reach_init. reflexivity.
    - discriminate. }
  assert (Hin : In Sample.upgraded_studio (businesses Sample.upgraded_unapproved))
    by (vm_compute; left; reflexivity).
  assert (Hen : Business.bookingEnabled Sample.upgraded_studio = Some true)
    by reflexivity.
  split; [exact Hr | split; [exact Hin | split; [exact Hen |]]].
  exact (bookingEnabled_implies_paid_tier _ _ Hr Hin Hen).
Defined.

(** C3, counterexample: booking is enabled on a business that is not
    approved, in two reachable states. In the first an owner registers and
    upgrades to the basic plan before any approval; in the second an
    approved business upgrades and the admin then revokes the approval. *)
Lemma bookingEnabled_without_approval :
  (reachable Sample.upgraded_unapproved
   /\ map (fun b => (Business.approved b, Business.bookingEnabled b))
          (businesses Sample.upgraded_unapproved) = [(Some false, Some true)])
  /\
  (reachable Sample.approval_revoked
   /\ map (fun b => (Business.approved b, Business.bookingEnabled b))
          (businesses Sample.approved_then_upgraded) = [(Some true, Some true)]
   /\ map (fun b => (Business.approved b, Business.bookingEnabled b))
          (businesses Sample.approval_revoked) = [(Some false, Some true)]).
Proof.
  assert (Hreg : reachable Sample.registered).
  { unfold Sample.registered. apply reach_register.
    - apply reach_init. reflexivity.
    - discriminate. }
  split; split.
  - unfold Sample.upgraded_unapproved. now apply reach_upgrade.
  - vm_compute. reflexivity.
  - unfold Sample.approval_revoked. apply reach_approve.
    unfold Sample.approved_then_upgraded. apply reach_upgrade.
    now apply reach_approve.
  - split; vm_compute; reflexivity.
Qed.

(** ** Registration of a business *)

Lemma has_user_getUser (db : Db) (uid : string) (u : User.t) :
  storage.getUser db uid = Some u -> has_user db uid = true.
Proof.
  unfold storage.getUser, has_user. intros H.
  apply find_some in H. apply existsb_exists. now exists u.
Qed.

(** A registration that passes validation stores the status columns as
    the body carries them, a missing one as the column default. *)
Lemma post_api_businesses_created (now : Z) (db : Db) (userId : string)
    (body : InsertBusiness.body) (u : User.t) :
  storage.getUser db userId = Some u ->
  insertBusinessSchema_parse (InsertBusiness.spread_userId body userId) <> None ->
  exists b,
    post_api_businesses now db userId body
    = (set_businesses db (businesses db ++ [b]) (businesses_id_seq db + 1),
       Json 201 b)
    /\ Business.userId b = Some userId
    /\ Business.approved b
       = nullable_default false (InsertBusiness.b_approved body)
    /\ Business.claimed b
       = nullable_default false (InsertBusiness.b_claimed body)
    /\ Business.manuallyAdded b
       = nullable_default false (InsertBusiness.b_manuallyAdded body)
    /\ Business.subscriptionTier b
       = nullable_default "free" (InsertBusiness.b_subscriptionTier body)
    /\ Business.bookingEnabled b
       = nullable_default false (InsertBusiness.b_bookingEnabled body).
Proof.
  intros Hu Hparse. unfold post_api_businesses. rewrite Hu.
  destruct (insertBusinessSchema_parse _) as [data|] eqn:E; [|contradiction].
  unfold insertBusinessSchema_parse, InsertBusiness.spread_userId in E.
  simpl in E.
  destruct (required (InsertBusiness.b_name body)); [|discriminate].
  destruct (required (InsertBusiness.b_address body)); [|discriminate].
  destruct (required (InsertBusiness.b_postcode body)); [|discriminate].
  injection E as <-.
  unfold storage.createBusiness. simpl.
  rewrite (has_user_getUser _ _ _ Hu).
  eexists. repeat split.
Qed.

(** C5 (as amended). A registration by an existing user whose body passes
    validation and carries none of the status columns creates a business
    with the column defaults: [approved], [claimed], [manuallyAdded] and
    [bookingEnabled] false and the free tier; it is owned by the caller, and
    [getBusinessesByUserId] of the owner, called right after, returns it
    (with [approved] false). *)
Theorem registration_takes_column_defaults (now : Z) (db : Db)
    (userId : string) (body : InsertBusiness.body) :
  no_status_fields body ->
  storage.getUser db userId <> None ->
  insertBusinessSchema_parse (InsertBusiness.spread_userId body userId) <> None ->
  exists b,
    snd (post_api_businesses now db userId body) = Json 201 b
    /\ Business.approved b = Some false
    /\ Business.claimed b = Some false
    /\ Business.manuallyAdded b = Some false
    /\ Business.subscriptionTier b = Some "free"
    /\ Business.bookingEnabled b = Some false
    /\ Business.userId b = Some userId
    /\ exists u,
         In (b, Some u)
            (storage.getBusinessesByUserId
               (fst (post_api_businesses now db userId body)) userId).
Proof.
  intros (Ha & Hc & Hm & Ht & He) Hu Hparse.
  destruct (storage.getUser db userId) as [u|] eqn:Eu; [|contradiction].
  destruct (post_api_businesses_created now db userId body u Eu Hparse)
    as (b & E & Hid & Ha' & Hc' & Hm' & Ht' & He').
  rewrite Ha in Ha'. rewrite Hc in Hc'. rewrite Hm in Hm'. rewrite Ht in Ht'.
  rewrite He in He'. simpl in *.
  exists b. rewrite E. simpl. repeat split; try assumption.
  exists u. unfold storage.getBusinessesByUserId.
  apply in_map_iff. exists b. split.
  - unfold storage.join_user. rewrite Hid. unfold storage.getUser in *.
    simpl. now rewrite Eu.
  - apply filter_In. simpl. split.
    + apply in_or_app. right. now left.
    + rewrite Hid. apply String.eqb_refl.
Qed.

(** C5, witness: the sample registration on the fresh database. *)
Lemma registration_takes_column_defaults_witness :
  exists b,
    snd (post_api_businesses 10 Sample.fresh "owner" Sample.registration)
    = Json 201 b
    /\ Business.approved b = Some false
    /\ Business.claimed b = Some false
    /\ Business.manuallyAdded b = Some false
    /\ Business.subscriptionTier b = Some "free"
    /\ Business.bookingEnabled b = Some false
    /\ Business.userId b = Some "owner"
    /\ exists u,
         In (b, Some u)
            (storage.getBusinessesByUserId
               (fst (post_api_businesses 10 Sample.fresh "owner"
                       Sample.registration)) "owner").
Proof.
  apply (registration_takes_column_defaults 10 Sample.fresh "owner"
           Sample.registration).
  - repeat split.
  - discriminate.
  - discriminate.
Defined.

(** C5, counterexample. A body that sets [approved], [bookingEnabled] and
    the tier is stored as sent: the new business is approved, on the premium
    tier and booking-enabled. And with or without such fields the new
    business has [claimed] false, not true. *)
Lemma registration_stores_supplied_status :
  (exists b,
     snd (post_api_businesses 10 Sample.fresh "owner" Sample.pushy_registration)
     = Json 201 b
     /\ Business.approved b = Some true
     /\ Business.subscriptionTier b = Some "premium"
     /\ Business.bookingEnabled b = Some true
     /\ Business.claimed b = Some false)
  /\
  (exists b,
     snd (post_api_businesses 10 Sample.fresh "owner" Sample.registration)
     = Json 201 b
     /\ Business.claimed b = Some false).
Proof.
  split; eexists; (split; [vm_compute; reflexivity | repeat split]).
Qed.

End BusinessLifeCycle.

(** ** Booking *)

Section Bookings.


(** The admission check [createBooking] does perform, through the foreign
    key: a booking of a session that does not exist is rejected and stores
    no row. *)
Lemma createBooking_needs_session (pg : Postgres) (now : Z) (db : Db)
    (data : InsertBooking.t) :
  has_fitnessSession db (InsertBooking.sessionId data) = false ->
  snd (storage.createBooking pg now db data) = None
  /\ bookings (fst (storage.createBooking pg now db data)) = bookings db.
Proof.
  intros Hno. unfold storage.createBooking. rewrite Hno, andb_false_r.
  destruct (match numeric_in pg _ with Some q => _ | None => None end);
    now split.
Qed.

(** Conversely these are all it asks for: whatever the approval of the
    session and whatever the approval, tier and booking flag of its
    business, a booking that names an existing session is stored. *)
Lemma createBooking_admits (pg : Postgres) (now : Z) (db : Db)
    (data : InsertBooking.t) (q : Q) (total : numeric) :
  numeric_in pg (InsertBooking.totalAmount data) = Some q ->
  to_numeric_10_2 q = Some total ->
  has_user db (InsertBooking.userId data) = true ->
  has_fitnessSession db (InsertBooking.sessionId data) = true ->
  exists k,
    snd (storage.createBooking pg now db data) = Some k
    /\ Booking.sessionId k = InsertBooking.sessionId data
    /\ Booking.totalAmount k = total
    /\ bookings (fst (storage.createBooking pg now db data))
       = bookings db ++ [k].
Proof.
  intros Hr Hq Hu Hs. unfold storage.createBooking.
  rewrite Hr, Hq, Hu, Hs. simpl. eexists. repeat split.
Qed.





(** C9 (as amended). [updateBookingStatus] writes the given status, any
    string, on the booking with the given id, whatever status it had: every
    such row carries the new status afterwards, the returned row is one of
    them, and no row is added or removed. *)
Theorem updateBookingStatus_writes_any_status (now : Z) (db : Db) (id : Z)
    (status : string) (k : Booking.t) :
  In k (bookings db) ->
  Booking.id k = id ->
  In (Booking.with_status k status now)
     (bookings (fst (storage.updateBookingStatus now db id status)))
  /\ (exists k', snd (storage.updateBookingStatus now db id status) = Some k'
                 /\ Booking.id k' = id
                 /\ Booking.status k' = status)
  /\ length (bookings (fst (storage.updateBookingStatus now db id status)))
     = length (bookings db).
Proof.
  intros Hin Hid. unfold storage.updateBookingStatus. simpl.
  set (f := fun k0 => if Booking.id k0 =? id
                      then Booking.with_status k0 status now else k0).
  assert (Hk : In (Booking.with_status k status now) (map f (bookings db))).
  { apply in_map_iff. exists k. split; [|assumption].
    unfold f. now rewrite Hid, Z.eqb_refl. }
  split; [exact Hk | split; [|apply length_map]].
  destruct (find (fun k0 => Booking.id k0 =? id) (map f (bookings db)))
    as [k'|] eqn:E.
  - exists k'. split; [reflexivity |].
    destruct (find_some _ _ E) as [Hin' Hid'].
    apply Z.eqb_eq in Hid'. split; [assumption |].
    apply in_map_iff in Hin'. destruct Hin' as (x & <- & _).
    unfold f in *. destruct (Booking.id x =? id) eqn:Ex; [reflexivity |].
    apply Z.eqb_neq in Ex. contradiction.
  - exfalso. apply (find_none _ _ E) in Hk. simpl in Hk.
    rewrite Hid, Z.eqb_refl in Hk. discriminate.
Qed.

(** C9, witness: the cancelled booking of the sample database is set back
    to confirmed. *)
Lemma updateBookingStatus_writes_any_status_witness :
  In (Booking.with_status Sample.cancelled_booking "confirmed" 60)
     (bookings (fst (storage.updateBookingStatus 60 Sample.db 1 "confirmed")))
  /\ (exists k', snd (storage.updateBookingStatus 60 Sample.db 1 "confirmed")
                 = Some k'
                 /\ Booking.id k' = 1
                 /\ Booking.status k' = "confirmed")
  /\ length (bookings (fst (storage.updateBookingStatus 60 Sample.db 1 "confirmed")))
     = length (bookings Sample.db).
Proof.
  apply (updateBookingStatus_writes_any_status 60 Sample.db 1 "confirmed"
           Sample.cancelled_booking).
  - left. reflexivity.
  - reflexivity.
Defined.

(** C9, counterexample: a cancelled booking is moved back to confirmed,
    and to a status outside the three known ones; both calls return the
    changed row. *)
Lemma updateBookingStatus_leaves_cancelled :
  Booking.status Sample.cancelled_booking = "cancelled"
  /\ option_map Booking.status
       (snd (storage.updateBookingStatus 60 Sample.db 1 "confirmed"))
     = Some "confirmed"
  /\ map Booking.status
       (bookings (fst (storage.updateBookingStatus 60 Sample.db 1 "confirmed")))
     = ["confirmed"]
  /\ map Booking.status
       (bookings (fst (storage.updateBookingStatus 60 Sample.db 1 "refunded")))
     = ["refunded"].
Proof. repeat split; vm_compute; reflexivity. Qed.

End Bookings.

(** ** Claiming a business *)

Section Claims.

(** The check the claim route performs: a business flagged as claimed, or
    with an owner, is refused with status 400 and nothing is stored. *)
Lemma post_api_businesses_claim_refuses_claimed (now : Z) (db : Db)
    (userId : string) (businessId : Z) (claimMessage : field string)
    (verificationDocuments : field (list string)) (b : Business.t)
    (u : option User.t) :
  storage.getBusinessById db businessId = Some (b, u) ->
  Business.claimed b = Some true
  \/ (exists o, Business.userId b = Some o /\ o <> "") ->
  post_api_businesses_claim now db userId businessId claimMessage
    verificationDocuments
  = (db, Message 400 "Business is already claimed").
Proof.
  intros Hb H. unfold post_api_businesses_claim. rewrite Hb.
  destruct H as [-> | (o & -> & Ho)]; simpl; [reflexivity |].
  apply String.eqb_neq in Ho. rewrite Ho. simpl.
  now rewrite orb_true_r.
Qed.

(** Every claim the route creates is pending, and was let through on the
    [claimed] flag and the owner column alone. *)
Lemma post_api_businesses_claim_created (now : Z) (db db' : Db)
    (userId : string) (businessId : Z) (claimMessage : field string)
    (verificationDocuments : field (list string)) (c : BusinessClaim.t) :
  post_api_businesses_claim now db userId businessId claimMessage
    verificationDocuments = (db', Json 201 c) ->
  BusinessClaim.status c = Some "pending"
  /\ BusinessClaim.businessId c = businessId
  /\ BusinessClaim.userId c = userId
  /\ businessClaims db' = businessClaims db ++ [c]
  /\ exists b u,
       storage.getBusinessById db businessId = Some (b, u)
       /\ truthy_bool (Business.claimed b) = false
       /\ truthy_string (Business.userId b) = false.
Proof.
  unfold post_api_businesses_claim.
  destruct (storage.getBusinessById db businessId) as [[b u]|];
    [|discriminate].
  destruct (truthy_bool (Business.claimed b)) eqn:Ec; simpl; [discriminate |].
  destruct (truthy_string (Business.userId b)) eqn:Eu; [discriminate |].
  unfold storage.createBusinessClaim. simpl.
  destruct (has_business db businessId && has_user db userId)%bool;
    [|discriminate].
  intros [= <- <-]. simpl. repeat split. now exists b, u.
Qed.

(** C6, evaluated where the code departs from the claim. The sample
    business [gym] is unclaimed and has no owner but is not flagged as
    manually added, and the list of claimable businesses leaves it out; the
    claim route nevertheless files a pending claim on it. *)
Theorem post_api_businesses_claim_ignores_manuallyAdded :
  Business.claimed Sample.gym = Some false
  /\ Business.userId Sample.gym = None
  /\ Business.manuallyAdded Sample.gym = Some false
  /\ map fst (storage.getUnclaimedBusinesses Sample.db) = [Sample.pool]
  /\ snd (post_api_businesses_claim 50 Sample.db "alice" 2 (Val "It is mine")
            Absent)
     = Json 201 Sample.claim_on_gym
  /\ businessClaims
       (fst (post_api_businesses_claim 50 Sample.db "alice" 2
               (Val "It is mine") Absent))
     = [Sample.pending_claim; Sample.claim_on_gym]
  /\ BusinessClaim.businessId Sample.claim_on_gym = Business.id Sample.gym.
Proof. repeat split; vm_compute; reflexivity. Qed.

(** C7 (as amended). [updateBusinessClaimStatus] writes the given status
    (and [updatedAt]) on the claim with the given id and nothing else: the
    business table and the users are as before, no claim gets an
    [approvedAt] stamp, and each claim keeps its business and its claimant. *)
Theorem updateBusinessClaimStatus_writes_only_the_status (now : Z) (db : Db)
    (id : Z) (status : string) :
  businesses (fst (storage.updateBusinessClaimStatus now db id status))
  = businesses db
  /\ users (fst (storage.updateBusinessClaimStatus now db id status))
     = users db
  /\ map (fun c => (BusinessClaim.id c, BusinessClaim.businessId c,
                    BusinessClaim.userId c, BusinessClaim.approvedAt c))
         (businessClaims (fst (storage.updateBusinessClaimStatus now db id status)))
     = map (fun c => (BusinessClaim.id c, BusinessClaim.businessId c,
                      BusinessClaim.userId c, BusinessClaim.approvedAt c))
           (businessClaims db)
  /\ map BusinessClaim.status
         (businessClaims (fst (storage.updateBusinessClaimStatus now db id status)))
     = map (fun c => if BusinessClaim.id c =? id then Some status
                     else BusinessClaim.status c)
           (businessClaims db).
Proof.
  unfold storage.updateBusinessClaimStatus. simpl.
  split; [reflexivity | split; [reflexivity |]].
  rewrite !map_map. split; apply map_ext; intros c;
    destruct (BusinessClaim.id c =? id); reflexivity.
Qed.

(** C7, counterexample: after the pending claim on [pool] is set to
    approved, the claim is approved without an [approvedAt] stamp while the
    business is still unclaimed and without owner. *)
Lemma claim_approved_business_still_unclaimed :
  map (fun c => (BusinessClaim.businessId c, BusinessClaim.status c,
                 BusinessClaim.approvedAt c))
      (businessClaims
         (fst (storage.updateBusinessClaimStatus 60 Sample.db 1 "approved")))
  = [(3, Some "approved", None)]
  /\ storage.getBusinessById
       (fst (storage.updateBusinessClaimStatus 60 Sample.db 1 "approved")) 3
     = Some (Sample.pool, None)
  /\ Business.claimed Sample.pool = Some false
  /\ Business.userId Sample.pool = None.
Proof. repeat split; vm_compute; reflexivity. Qed.

End Claims.

(** ** Creating a session *)

Section Sessions.

(** The check the session route performs: a caller who owns no business at
    all is refused with status 403 and nothing is stored. *)
Lemma post_api_sessions_needs_a_business (now : Z) (db : Db)
    (userId : string) (body : InsertFitnessSession.body) :
  storage.getBusinessesByUserId db userId = [] ->
  post_api_sessions now db userId body
  = (db, Message 403 "No approved business found").
Proof. intros H. unfold post_api_sessions. now rewrite H. Qed.

(** A created session was let through on the caller owning some business;
    its approval and the business the session names were not looked at. *)
Lemma post_api_sessions_created (now : Z) (db db' : Db) (userId : string)
    (body : InsertFitnessSession.body) (s : FitnessSession.t) :
  post_api_sessions now db userId body = (db', Json 201 s) ->
  storage.getBusinessesByUserId db userId <> []
  /\ InsertFitnessSession.b_businessId body = Val (FitnessSession.businessId s)
  /\ has_business db (FitnessSession.businessId s) = true
  /\ fitnessSessions db' = fitnessSessions db ++ [s].
Proof.
  unfold post_api_sessions.
  destruct (storage.getBusinessesByUserId db userId) as [|x l]; simpl;
    [discriminate |].
  destruct (insertFitnessSessionSchema_parse body) as [data|] eqn:Ep;
    [|discriminate].
  assert (Hb : InsertFitnessSession.b_businessId body
               = Val (InsertFitnessSession.businessId data)).
  { unfold insertFitnessSessionSchema_parse in Ep.
    destruct (InsertFitnessSession.b_businessId body); simpl in Ep;
      try discriminate.
    repeat match type of Ep with
           | match required ?f with _ => _ end = _ =>
               destruct (required f); [|discriminate]
           end.
    destruct (InsertFitnessSession.b_gender body); try discriminate;
      destruct (Qle_bool 0 _); try discriminate; now injection Ep as <-. }
  unfold storage.createFitnessSession.
  destruct (to_numeric_10_2 _) as [price|]; [|discriminate].
  destruct (has_business db _) eqn:Eb; simpl; [|discriminate].
  destruct (has_sessionType db _); [|discriminate].
  intros [= <- <-]. simpl. repeat split; try assumption. discriminate.
Qed.

(** C8, evaluated where the code departs from the claim. In the sample
    database the caller owns one business, which is not approved. The route
    creates the session on it, and creates as well a session placed on a
    business that belongs to nobody. *)
Theorem post_api_sessions_accepts_unapproved_owner :
  map fst (storage.getBusinessesByUserId Sample.db "owner") = [Sample.studio]
  /\ Business.approved Sample.studio = Some false
  /\ snd (post_api_sessions 50 Sample.db "owner" Sample.new_session)
     = Json 201 (Sample.pilates 1)
  /\ fitnessSessions (fst (post_api_sessions 50 Sample.db "owner"
                             Sample.new_session))
     = [Sample.hatha; Sample.vinyasa; Sample.pilates 1]
  /\ snd (post_api_sessions 50 Sample.db "owner" Sample.foreign_session)
     = Json 201 (Sample.pilates 2)
  /\ Business.userId Sample.gym = None.
Proof. repeat split; vm_compute; reflexivity. Qed.

End Sessions.

(** ** Users *)

Section Users.
Import storage.

Lemma getUser_none_not_in (db : Db) (id : string) :
  getUser db id = None -> ~ In id (map User.id (users db)).
Proof.
  unfold getUser. intros H Hin. apply in_map_iff in Hin.
  destruct Hin as (u & <- & Hu).
  apply (find_none _ _ H) in Hu. simpl in Hu.
  now rewrite String.eqb_refl in Hu.
Qed.

Lemma map_id_upsert_set (now : Z) (d : UpsertUser.t) (id : string)
    (us : list User.t) :
  map User.id (map (fun u => if (User.id u =? id)%string
                             then upsert_set now d u else u) us)
  = map User.id us.
Proof.
  rewrite map_map. apply map_ext. intros u.
  now destruct (User.id u =? id)%string.
Qed.

(** X1. An upsert never leaves two users with the same id: where the id exists
    the row is rewritten in place, where it does not one row is added. *)
Theorem upsertUser_keeps_ids_unique (now : Z) (db : Db) (d : UpsertUser.t) :
  NoDup (map User.id (users db)) ->
  NoDup (map User.id (users (fst (upsertUser now db d)))).
Proof.
  intros H. unfold upsertUser.
  destruct (getUser db (UpsertUser.id d)) as [old|] eqn:E.
  - destruct (email_taken db _ _); simpl; [assumption |].
    now rewrite map_id_upsert_set.
  - destruct (email_taken db _ _); simpl; [assumption |].
    rewrite map_app. simpl.
    apply NoDup_app; [assumption | |].
    + constructor; [intros [] | constructor].
    + intros x Hx [<-|[]]. now apply (getUser_none_not_in _ _ E).
Qed.

Lemma find_map_update {A} (key : A -> bool) (f : A -> A) (l : list A) :
  (forall a, key (f a) = key a) ->
  find key (map (fun a => if key a then f a else a) l)
  = option_map f (find key l).
Proof.
  intros Hk. induction l as [|a l IH]; [reflexivity |].
  simpl. destruct (key a) eqn:E.
  - now rewrite Hk, E.
  - now rewrite E.
Qed.

Lemma find_map_other {A} (key other : A -> bool) (f : A -> A) (l : list A) :
  (forall a, other (f a) = other a) ->
  (forall a, other a = true -> key a = false) ->
  find other (map (fun a => if key a then f a else a) l) = find other l.
Proof.
  intros Ho Hd. induction l as [|a l IH]; [reflexivity |].
  simpl. destruct (key a) eqn:E.
  - rewrite Ho. destruct (other a) eqn:Eo; [|exact IH].
    rewrite (Hd a Eo) in E. discriminate.
  - destruct (other a); [reflexivity | exact IH].
Qed.

Lemma find_app_none {A} (p : A -> bool) (l1 l2 : list A) :
  find p l1 = None -> find p (l1 ++ l2) = find p l2.
Proof.
  induction l1 as [|a l1 IH]; [reflexivity |]. simpl.
  destruct (p a); [discriminate | exact IH].
Qed.

Lemma find_app_some {A} (p : A -> bool) (l1 l2 : list A) (a : A) :
  find p l1 = Some a -> find p (l1 ++ l2) = Some a.
Proof.
  induction l1 as [|b l1 IH]; [discriminate |]. simpl.
  destruct (p b); [trivial | exact IH].
Qed.

(** X2. What a successful upsert returns is what [getUser] then finds under the
    id; it carries the e-mail and the role that were supplied, keeps the
    role of an existing user when none is supplied (a new user becomes a
    plain [user]), and every other user reads as before. *)
Theorem upsertUser_then_getUser (now : Z) (db : Db) (d : UpsertUser.t)
    (u : User.t) :
  snd (upsertUser now db d) = Some u ->
  User.id u = UpsertUser.id d
  /\ getUser (fst (upsertUser now db d)) (UpsertUser.id d) = Some u
  /\ (forall other, other <> UpsertUser.id d ->
        getUser (fst (upsertUser now db d)) other = getUser db other)
  /\ (forall e, UpsertUser.email d = Val e -> User.email u = Some e)
  /\ (forall r, UpsertUser.role d = Some r -> User.role u = r)
  /\ (UpsertUser.role d = None ->
      User.role u = match getUser db (UpsertUser.id d) with
                    | Some old => User.role old
                    | None => "user"
                    end).
Proof.
  unfold upsertUser.
  destruct (getUser db (UpsertUser.id d)) as [old|] eqn:E.
  - destruct (email_taken db _ _); simpl; [discriminate |].
    unfold getUser in *. simpl.
    rewrite (find_map_update (fun u0 => (User.id u0 =? UpsertUser.id d)%string)
               (upsert_set now d)) by reflexivity.
    rewrite E. simpl. intros [= <-]. simpl.
    apply find_some in E. destruct E as [_ E]. apply String.eqb_eq in E.
    repeat split.
    + exact E.
    + intros other Ho.
      apply (find_map_other
               (fun u0 => (User.id u0 =? UpsertUser.id d)%string)
               (fun u0 => (User.id u0 =? other)%string)); [reflexivity |].
      intros a Ha. apply String.eqb_eq in Ha. apply String.eqb_neq.
      now rewrite Ha.
    + now intros e ->.
    + now intros r ->.
    + now intros ->.
  - destruct (email_taken db _ _); simpl; [discriminate |].
    intros [= <-]. unfold getUser in *. simpl.
    repeat split.
    + rewrite (find_app_none _ _ _ E). simpl. now rewrite String.eqb_refl.
    + intros other Ho.
      destruct (find (fun u0 => (User.id u0 =? other)%string) (users db))
        as [x|] eqn:Ex.
      * now apply find_app_some.
      * rewrite (find_app_none _ _ _ Ex). simpl.
        apply String.eqb_neq in Ho. rewrite String.eqb_sym in Ho.
        now rewrite Ho.
    + now intros e ->.
    + now intros r ->.
    + now intros ->.
Qed.

Lemma email_taken_rewritten (now : Z) (d : UpsertUser.t) (db : Db)
    (e : option string) :
  email_taken
    (set_users db
       (map (fun u => if (User.id u =? UpsertUser.id d)%string
                      then upsert_set now d u else u) (users db)))
    (UpsertUser.id d) e
  = email_taken db (UpsertUser.id d) e.
Proof.
  unfold email_taken. destruct e as [e|]; [|reflexivity]. simpl.
  induction (users db) as [|u us IH]; [reflexivity |]. simpl.
  rewrite IH. f_equal.
  destruct (User.id u =? UpsertUser.id d)%string eqn:E; simpl;
    now rewrite E.
Qed.

Lemma email_taken_added (db : Db) (row : User.t) (e : option string) :
  email_taken (set_users db (users db ++ [row])) (User.id row) e
  = email_taken db (User.id row) e.
Proof.
  unfold email_taken. destruct e as [e|]; [|reflexivity]. simpl.
  rewrite existsb_app. simpl. rewrite String.eqb_refl. simpl.
  now rewrite !orb_false_r.
Qed.

(** After a successful upsert of [d] every row of that id carries what [d]
    sets, so that setting it again changes the time only. *)
Lemma upsertUser_rows_set (now : Z) (db : Db) (d : UpsertUser.t) (u : User.t) :
  snd (upsertUser now db d) = Some u ->
  forall x, In x (users (fst (upsertUser now db d))) ->
    (User.id x =? UpsertUser.id d)%string = true ->
    forall now', upsert_set now' d x = User.with_updatedAt x now'.
Proof.
  assert (Hset : forall x now', upsert_set now' d (upsert_set now d x)
                                = User.with_updatedAt (upsert_set now d x) now').
  { intros x now'. unfold upsert_set, User.with_updatedAt. simpl.
    destruct (UpsertUser.email d), (UpsertUser.role d),
      (UpsertUser.stripeCustomerId d); reflexivity. }
  unfold upsertUser.
  destruct (getUser db (UpsertUser.id d)) as [old|] eqn:E.
  - destruct (email_taken db _ _); cbn [fst snd]; [discriminate |].
    intros _ x Hin Hid now'. cbn [users set_users] in Hin.
    apply in_map_iff in Hin. destruct Hin as (x0 & <- & _).
    destruct (User.id x0 =? UpsertUser.id d)%string eqn:E0.
    + apply Hset.
    + rewrite E0 in Hid. discriminate.
  - destruct (email_taken db _ _); cbn [fst snd]; [discriminate |].
    intros _ x Hin Hid now'. cbn [users set_users] in Hin.
    apply in_app_or in Hin. destruct Hin as [Hin|[<-|[]]].
    + unfold getUser in E. apply (find_none _ _ E) in Hin. simpl in Hin.
      rewrite Hin in Hid. discriminate.
    + unfold upsert_set, User.with_updatedAt. simpl.
      destruct (UpsertUser.email d), (UpsertUser.role d),
        (UpsertUser.stripeCustomerId d); reflexivity.
Qed.

(** The e-mail of the row a successful upsert returns is free among the rows
    of the other ids afterwards as it was before. *)
Lemma upsertUser_email_free (now : Z) (db : Db) (d : UpsertUser.t) (u : User.t) :
  snd (upsertUser now db d) = Some u ->
  getUser (fst (upsertUser now db d)) (UpsertUser.id d) = Some u
  /\ email_taken (fst (upsertUser now db d)) (UpsertUser.id d) (User.email u)
     = false.
Proof.
  unfold upsertUser.
  destruct (getUser db (UpsertUser.id d)) as [old|] eqn:E.
  - destruct (email_taken db _ _) eqn:Et; cbn [fst snd]; [discriminate |].
    intros Hu. unfold getUser in *. cbn [users set_users]. split.
    + exact Hu.
    + rewrite email_taken_rewritten.
      rewrite (find_map_update
                 (fun u0 => (User.id u0 =? UpsertUser.id d)%string)
                 (upsert_set now d)) in Hu by reflexivity.
      rewrite E in Hu. injection Hu as <-. exact Et.
  - destruct (email_taken db _ _) eqn:Et; cbn [fst snd]; [discriminate |].
    intros [= <-]. unfold getUser in *. cbn [users set_users]. split.
    + rewrite (find_app_none _ _ _ E). simpl. now rewrite String.eqb_refl.
    + match goal with
      | |- email_taken (set_users db (users db ++ [?r])) _ _ = false =>
          pose proof (email_taken_added db r (User.email r)) as Ha
      end.
      exact (eq_trans Ha Et).
Qed.

(** X3. Upserting the same data again writes nothing but [updatedAt]: no row
    is added, and every row, the returned one among them, is as the first
    upsert left it, with the later time in [updatedAt] of the row of that
    id. The second upsert takes the conflict branch, which sets the
    properties of the data and [updatedAt]; the time of creation that the
    first upsert may have stamped is not written again. *)
Theorem upsertUser_again_refreshes_updatedAt (now1 now2 : Z) (db : Db)
    (d : UpsertUser.t) (u : User.t) :
  snd (upsertUser now1 db d) = Some u ->
  upsertUser now2 (fst (upsertUser now1 db d)) d
  = (set_users (fst (upsertUser now1 db d))
       (map (fun x => if (User.id x =? UpsertUser.id d)%string
                      then User.with_updatedAt x now2 else x)
            (users (fst (upsertUser now1 db d)))),
     Some (User.with_updatedAt u now2)).
Proof.
  intros Hu.
  pose proof (upsertUser_rows_set now1 db d u Hu) as Hrows.
  destruct (upsertUser_email_free now1 db d u Hu) as [Hget Hfree].
  set (db1 := fst (upsertUser now1 db d)) in *.
  assert (Hid : (User.id u =? UpsertUser.id d)%string = true).
  { unfold getUser in Hget. now apply find_some in Hget. }
  assert (Hin : In u (users db1)).
  { unfold getUser in Hget. now apply find_some in Hget. }
  assert (Hmap : map (fun x => if (User.id x =? UpsertUser.id d)%string
                               then upsert_set now2 d x else x) (users db1)
                 = map (fun x => if (User.id x =? UpsertUser.id d)%string
                                 then User.with_updatedAt x now2 else x)
                       (users db1)).
  { apply map_ext_in. intros x Hx.
    destruct (User.id x =? UpsertUser.id d)%string eqn:Ex; [|reflexivity].
    now apply Hrows. }
  unfold upsertUser at 1. rewrite Hget.
  rewrite (Hrows u Hin Hid now2).
  change (User.email (User.with_updatedAt u now2)) with (User.email u).
  rewrite Hfree, Hmap. f_equal.
  rewrite (find_map_update (fun x => (User.id x =? UpsertUser.id d)%string)
             (fun x => User.with_updatedAt x now2)) by reflexivity.
  unfold getUser in Hget. now rewrite Hget.
Qed.

Lemma sample_user_ids_distinct : NoDup (map User.id (users Sample.db)).
Proof.
  simpl. repeat constructor; simpl;
    intros H; repeat (destruct H as [H|H]; [discriminate H |]); exact H.
Qed.

(** X1, witness: the admin of the sample database logs in again. *)
Lemma upsertUser_keeps_ids_unique_witness :
  NoDup (map User.id (users Sample.db))
  /\ NoDup (map User.id
              (users (fst (upsertUser 70 Sample.db Sample.admin_login)))).
Proof.
  split; [exact sample_user_ids_distinct |].
  exact (upsertUser_keeps_ids_unique 70 Sample.db Sample.admin_login
           sample_user_ids_distinct).
Defined.

(** X3, witness: the admin logs in at time 70 and again at time 80. *)
Lemma upsertUser_again_refreshes_updatedAt_witness :
  snd (upsertUser 70 Sample.db Sample.admin_login)
  = Some Sample.admin_after_login
  /\ snd (upsertUser 80 (fst (upsertUser 70 Sample.db Sample.admin_login))
            Sample.admin_login)
     = Some (User.with_updatedAt Sample.admin_after_login 80).
Proof.
  assert (H : snd (upsertUser 70 Sample.db Sample.admin_login)
              = Some Sample.admin_after_login) by reflexivity.
  split; [exact H |].
  exact (f_equal snd (upsertUser_again_refreshes_updatedAt 70 80 Sample.db
                        Sample.admin_login Sample.admin_after_login H)).
Defined.

(** X2, witness: the admin logs in again without a role and stays admin. *)
Lemma upsertUser_then_getUser_witness :
  snd (upsertUser 70 Sample.db Sample.admin_login)
  = Some Sample.admin_after_login
  /\ getUser (fst (upsertUser 70 Sample.db Sample.admin_login)) "admin"
     = Some Sample.admin_after_login
  /\ User.role Sample.admin_after_login = "admin".
Proof.
  assert (H : snd (upsertUser 70 Sample.db Sample.admin_login)
              = Some Sample.admin_after_login) by reflexivity.
  split; [exact H | split].
  - exact (proj1 (proj2 (upsertUser_then_getUser 70 Sample.db
                           Sample.admin_login Sample.admin_after_login H))).
  - reflexivity.
Defined.

End Users.

(** ** Approval, continued *)

Section Approval.
Import storage.

(** X4. Setting the approval flag of a business twice to the same value leaves
    the state a single call at the later time leaves. *)
Theorem updateBusinessApproval_twice (now1 now2 : Z) (db : Db) (id : Z)
    (approved : bool) :
  updateBusinessApproval now2
    (fst (updateBusinessApproval now1 db id approved)) id approved
  = updateBusinessApproval now2 db id approved.
Proof.
  unfold updateBusinessApproval. simpl.
  assert (H : map (fun b => if Business.id b =? id
                            then Business.with_approved b approved now2 else b)
                (map (fun b => if Business.id b =? id
                               then Business.with_approved b approved now1
                               else b) (businesses db))
              = map (fun b => if Business.id b =? id
                              then Business.with_approved b approved now2
                              else b) (businesses db)).
  { rewrite map_map. apply map_ext. intros b.
    destruct (Business.id b =? id) eqn:E; simpl; now rewrite E. }
  rewrite H. reflexivity.
Qed.

(** X5. The approval queue after the flag of business [id] has been written:
    with [true] no business of that id is pending any more, with [false]
    each one is; the other businesses are pending exactly when they were. *)
Theorem getPendingBusinesses_after_approval (now : Z) (db : Db) (id : Z)
    (approved : bool) (b : Business.t) :
  In b (map fst (getPendingBusinesses
                   (fst (updateBusinessApproval now db id approved))))
  <->
  (exists b0, In b0 (businesses db) /\ Business.id b0 = id
              /\ approved = false
              /\ b = Business.with_approved b0 false now)
  \/ (In b (businesses db) /\ Business.id b <> id
      /\ Business.approved b = Some false).
Proof.
  unfold getPendingBusinesses, updateBusinessApproval. simpl.
  rewrite map_map. simpl. rewrite map_id, filter_In, in_map_iff. split.
  - intros [(b0 & <- & Hin) Hp].
    destruct (Business.id b0 =? id) eqn:E.
    + left. exists b0. apply Z.eqb_eq in E. simpl in Hp.
      destruct approved; [discriminate | now repeat split].
    + right. apply Z.eqb_neq in E. repeat split; try assumption.
      now destruct (Business.approved b0) as [[]|].
  - intros [(b0 & Hin & Hid & -> & ->) | (Hin & Hid & Hp)].
    + split; [|reflexivity]. exists b0. split; [|assumption].
      apply Z.eqb_eq in Hid. now rewrite Hid.
    + split; [|now rewrite Hp]. exists b. split; [|assumption].
      apply Z.eqb_neq in Hid. now rewrite Hid.
Qed.

(** X6. Every admin route answers a caller who is not an admin (or not a known
    user) with status 403, and the routes that write leave the database as
    it was. *)
Theorem admin_routes_refuse_others (now : Z) (db : Db) (userId : string)
    (id : Z) (approved : bool) :
  not_admin db userId = true ->
  get_api_admin_stats db userId = Message 403 "Admin access required"
  /\ get_api_admin_businesses_pending db userId
     = Message 403 "Admin access required"
  /\ put_api_admin_businesses_approve now db userId id approved
     = (db, Message 403 "Admin access required")
  /\ get_api_admin_sessions_pending db userId
     = Message 403 "Admin access required"
  /\ put_api_admin_sessions_approve now db userId id approved
     = (db, Message 403 "Admin access required")
  /\ get_api_admin_trainers_pending db userId
     = Message 403 "Admin access required"
  /\ put_api_admin_trainers_approve db userId id approved
     = (db, Message 403 "Admin access required").
Proof.
  intros H.
  unfold get_api_admin_stats, get_api_admin_businesses_pending,
    get_api_admin_sessions_pending, put_api_admin_sessions_approve,
    get_api_admin_trainers_pending, put_api_admin_trainers_approve.
  rewrite H. repeat split.
  unfold put_api_admin_businesses_approve. unfold not_admin in H.
  destruct (getUser db userId) as [u|]; [|reflexivity].
  now destruct (User.role u =? "admin")%string.
Qed.

(** X6, witness: alice, a plain user of the sample database. *)
Lemma admin_routes_refuse_others_witness :
  not_admin Sample.db "alice" = true
  /\ put_api_admin_businesses_approve 70 Sample.db "alice" 1 true
     = (Sample.db, Message 403 "Admin access required")
  /\ put_api_admin_sessions_approve 70 Sample.db "alice" 1 true
     = (Sample.db, Message 403 "Admin access required").
Proof.
  assert (H : not_admin Sample.db "alice" = true) by reflexivity.
  pose proof (admin_routes_refuse_others 70 Sample.db "alice" 1 true H) as G.
  split; [exact H | split].
  - exact (proj1 (proj2 (proj2 G))).
  - exact (proj1 (proj2 (proj2 (proj2 (proj2 G))))).
Defined.

End Approval.

(** ** The subscription route, continued *)

Section Subscription.
Import storage.

(** Every way the subscription route can end. *)
Lemma post_api_businesses_upgrade_outcome (env : Env) (stripe : Stripe)
    (now : Z) (db : Db) (userId : string) (businessId : Z) (tier : string) :
  let r := post_api_businesses_upgrade env stripe now db userId businessId
             tier in
  businesses_id_seq (fst r) = businesses_id_seq db
  /\ ((status_of (snd r) <> 200%nat /\ businesses (fst r) = businesses db)
      \/ (status_of (snd r) = 200%nat
          /\ exists en e s,
               businesses (fst r)
               = map (fun b => if Business.id b =? businessId
                               then Business.with_subscription b tier en e s now
                               else b) (businesses db))).
Proof.
  unfold post_api_businesses_upgrade. simpl.
  destruct (getBusinessById db businessId) as [[b [owner|]]|];
    [|split; [reflexivity | left; split; [discriminate | reflexivity]]
     |split; [reflexivity | left; split; [discriminate | reflexivity]]].
  destruct (User.id owner =? userId)%string; simpl;
    [|split; [reflexivity | left; split; [discriminate | reflexivity]]].
  destruct (String.eqb_spec tier "free") as [->|_].
  { split; [reflexivity |]. right. split; [reflexivity |].
    now exists false, None, None. }
  destruct (if (tier =? "basic")%string then _ else _) as [priceId|];
    [|split; [reflexivity | left; split; [discriminate | reflexivity]]].
  destruct (priceId =? "")%string;
    [split; [reflexivity | left; split; [discriminate | reflexivity]]|].
  assert (Hsub :
    forall d c,
      businesses d = businesses db ->
      businesses_id_seq d = businesses_id_seq db ->
      let r := match subscriptions_create stripe c priceId with
               | None => (d, Message 500 "Failed to upgrade subscription")
               | Some (subscriptionId, current_period_end) =>
                   let (db2, updated) :=
                     updateBusinessSubscription now d businessId tier true
                       (Some (current_period_end * 1000))
                       (Some subscriptionId) in
                   (db2, Json 200 (Upgraded updated subscriptionId))
               end in
      businesses_id_seq (fst r) = businesses_id_seq db
      /\ ((status_of (snd r) <> 200%nat /\ businesses (fst r) = businesses db)
          \/ (status_of (snd r) = 200%nat
              /\ exists en e s,
                   businesses (fst r)
                   = map (fun b => if Business.id b =? businessId
                                   then Business.with_subscription b tier en e s now
                                   else b) (businesses db)))).
  { intros d c Hb Hs.
    destruct (subscriptions_create stripe c priceId) as [[sid pend]|]; simpl.
    - split; [assumption |]. right. split; [reflexivity |]. rewrite Hb.
      now exists true, (Some (pend * 1000)), (Some sid).
    - split; [assumption |]. left. split; [discriminate | assumption]. }
  assert (Hnew :
    let r := match
               match customers_create stripe userId with
               | Some c => Some (updateUserStripeCustomerId now db userId c, c)
               | None => None
               end
             with
             | None => (db, Message 500 "Failed to upgrade subscription")
             | Some (db1, customerId) =>
                 match subscriptions_create stripe customerId priceId with
                 | None => (db1, Message 500 "Failed to upgrade subscription")
                 | Some (subscriptionId, current_period_end) =>
                     let (db2, updated) :=
                       updateBusinessSubscription now db1 businessId tier true
                         (Some (current_period_end * 1000))
                         (Some subscriptionId) in
                     (db2, Json 200 (Upgraded updated subscriptionId))
                 end
             end in
    businesses_id_seq (fst r) = businesses_id_seq db
    /\ ((status_of (snd r) <> 200%nat /\ businesses (fst r) = businesses db)
        \/ (status_of (snd r) = 200%nat
            /\ exists en e s,
                 businesses (fst r)
                 = map (fun b => if Business.id b =? businessId
                                 then Business.with_subscription b tier en e s now
                                 else b) (businesses db)))).
  { destruct (customers_create stripe userId) as [c|].
    - now apply Hsub.
    - split; [reflexivity |]. left. split; [discriminate | reflexivity]. }
  destruct (match getUser db userId with
            | Some u => User.stripeCustomerId u
            | None => None
            end) as [c|]; [|exact Hnew].
  destruct (c =? "")%string; [exact Hnew |].
  now apply Hsub.
Qed.

(** X7. An upgrade that is not answered with status 200 has changed no
    business: a refused caller, an unknown tier, missing price
    configuration or a failing payment provider leave the tier, the booking
    flag and the expiry of every business as they were. *)
Theorem failed_upgrade_changes_no_business (env : Env) (stripe : Stripe)
    (now : Z) (db : Db) (userId : string) (businessId : Z) (tier : string) :
  status_of (snd (post_api_businesses_upgrade env stripe now db userId
                    businessId tier)) <> 200%nat ->
  businesses (fst (post_api_businesses_upgrade env stripe now db userId
                     businessId tier)) = businesses db.
Proof.
  intros H.
  destruct (post_api_businesses_upgrade_outcome env stripe now db userId
              businessId tier) as [_ [[_ E]|[E _]]]; [exact E | contradiction].
Qed.

Lemma getBusinessById_owner (db : Db) (id : Z) (b : Business.t)
    (owner : User.t) :
  getBusinessById db id = Some (b, Some owner) ->
  find (fun x => Business.id x =? id) (businesses db) = Some b
  /\ getUser db (User.id owner) = Some owner.
Proof.
  unfold getBusinessById, join_user.
  destruct (find _ (businesses db)) as [x|]; [|discriminate]. simpl.
  intros [= -> H]. split; [reflexivity |].
  destruct (Business.userId b) as [uid|]; [|discriminate].
  unfold getUser in *. destruct (find_some _ _ H) as [_ E].
  apply String.eqb_eq in E. now rewrite E.
Qed.

(** X8. A paid upgrade by the owner, with the plan price configured and the
    payment provider answering, is answered with status 200 and switches
    booking on at once: the business gets the tier, [bookingEnabled] true,
    the provider's period end (in milliseconds) as expiry and the
    subscription id, while its approval flag stays as it was. *)
Theorem paid_upgrade_enables_booking (env : Env) (stripe : Stripe) (now : Z)
    (db : Db) (userId : string) (businessId : Z) (tier priceId sid : string)
    (pend : Z) (b : Business.t) (owner : User.t) :
  getBusinessById db businessId = Some (b, Some owner) ->
  User.id owner = userId ->
  (tier = "basic" /\ STRIPE_BASIC_PRICE_ID env = Some priceId)
  \/ (tier = "premium" /\ STRIPE_PREMIUM_PRICE_ID env = Some priceId) ->
  priceId <> "" ->
  customers_create stripe userId <> None ->
  (forall customer, subscriptions_create stripe customer priceId
                    = Some (sid, pend)) ->
  let b' := Business.with_subscription b tier true (Some (pend * 1000))
              (Some sid) now in
  snd (post_api_businesses_upgrade env stripe now db userId businessId tier)
  = Json 200 (Upgraded (Some b') sid)
  /\ In b' (businesses (fst (post_api_businesses_upgrade env stripe now db
                               userId businessId tier)))
  /\ Business.bookingEnabled b' = Some true
  /\ Business.subscriptionTier b' = Some tier
  /\ Business.approved b' = Business.approved b.
Proof.
  intros Hb Hown Htier Hprice Hcust Hsub b'.
  destruct (getBusinessById_owner _ _ _ _ Hb) as [Hfind Hu].
  assert (Hfind' : forall d, businesses d = businesses db ->
            find (fun x => Business.id x =? businessId)
              (map (fun x => if Business.id x =? businessId
                             then Business.with_subscription x tier true
                                    (Some (pend * 1000)) (Some sid) now
                             else x) (businesses d)) = Some b').
  { intros d ->.
    rewrite (find_map_update (fun x => Business.id x =? businessId)
               (fun x => Business.with_subscription x tier true
                           (Some (pend * 1000)) (Some sid) now))
      by reflexivity.
    now rewrite Hfind. }
  assert (Hin' : forall d, businesses d = businesses db ->
            In b' (map (fun x => if Business.id x =? businessId
                                 then Business.with_subscription x tier true
                                        (Some (pend * 1000)) (Some sid) now
                                 else x) (businesses d))).
  { intros d Hd. exact (proj1 (find_some _ _ (Hfind' d Hd))). }
  unfold post_api_businesses_upgrade. rewrite Hb, Hown, String.eqb_refl.
  simpl negb. cbv iota.
  assert (Hnf : (tier =? "free")%string = false).
  { destruct Htier as [[-> _]|[-> _]]; reflexivity. }
  rewrite Hnf.
  assert (Hp : (if (tier =? "basic")%string
                then Some (env_or_empty (STRIPE_BASIC_PRICE_ID env))
                else if (tier =? "premium")%string
                     then Some (env_or_empty (STRIPE_PREMIUM_PRICE_ID env))
                     else None) = Some priceId).
  { destruct Htier as [[-> ->]|[-> ->]]; reflexivity. }
  rewrite Hp. apply String.eqb_neq in Hprice. rewrite Hprice.
  rewrite <- Hown, Hu. rewrite Hown.
  destruct (customers_create stripe userId) as [c|]; [|contradiction].
  unfold updateBusinessSubscription.
  destruct (User.stripeCustomerId owner) as [c0|].
  - destruct (c0 =? "")%string; rewrite Hsub; cbn [fst snd];
      (split; [now rewrite Hfind' | split; [now apply Hin' | now repeat split]]).
  - rewrite Hsub; cbn [fst snd].
    split; [now rewrite Hfind' | split; [now apply Hin' | now repeat split]].
Qed.

(** X9. A customer reference the payment provider has issued is stored with
    the user before the subscription is requested, and stays stored when
    that request fails: the route then answers 500 and no business has
    changed, but the user keeps the reference. *)
Theorem customer_reference_outlives_failed_upgrade (env : Env)
    (stripe : Stripe) (now : Z) (db : Db) (userId : string) (businessId : Z)
    (tier priceId c : string) (b : Business.t) (owner : User.t) :
  getBusinessById db businessId = Some (b, Some owner) ->
  User.id owner = userId ->
  (tier = "basic" /\ STRIPE_BASIC_PRICE_ID env = Some priceId)
  \/ (tier = "premium" /\ STRIPE_PREMIUM_PRICE_ID env = Some priceId) ->
  priceId <> "" ->
  User.stripeCustomerId owner = None ->
  customers_create stripe userId = Some c ->
  subscriptions_create stripe c priceId = None ->
  snd (post_api_businesses_upgrade env stripe now db userId businessId tier)
  = Message 500 "Failed to upgrade subscription"
  /\ businesses (fst (post_api_businesses_upgrade env stripe now db userId
                        businessId tier)) = businesses db
  /\ getUser (fst (post_api_businesses_upgrade env stripe now db userId
                     businessId tier)) userId
     = Some (User.with_stripeCustomerId owner c now).
Proof.
  intros Hb Hown Htier Hprice Hnone Hcust Hsub.
  destruct (getBusinessById_owner _ _ _ _ Hb) as [Hfind Hu].
  unfold post_api_businesses_upgrade. rewrite Hb, Hown, String.eqb_refl.
  simpl negb. cbv iota.
  assert (Hnf : (tier =? "free")%string = false).
  { destruct Htier as [[-> _]|[-> _]]; reflexivity. }
  rewrite Hnf.
  assert (Hp : (if (tier =? "basic")%string
                then Some (env_or_empty (STRIPE_BASIC_PRICE_ID env))
                else if (tier =? "premium")%string
                     then Some (env_or_empty (STRIPE_PREMIUM_PRICE_ID env))
                     else None) = Some priceId).
  { destruct Htier as [[-> ->]|[-> ->]]; reflexivity. }
  rewrite Hp. apply String.eqb_neq in Hprice. rewrite Hprice.
  rewrite <- Hown, Hu, Hnone. rewrite Hown, Hcust, Hsub. cbn [fst snd].
  split; [reflexivity | split; [reflexivity |]].
  unfold getUser, updateUserStripeCustomerId in *. cbn [users set_users].
  rewrite (find_map_update (fun u => (User.id u =? userId)%string)
             (fun u => User.with_stripeCustomerId u c now)) by reflexivity.
  rewrite <- Hown, Hu. reflexivity.
Qed.

(** X10. Where the user already has a customer reference, the route does not
    turn to the provider for another: the users are left as they are, and
    the outcome is the same whatever [customers.create] would answer. *)
Theorem known_customer_is_reused (env : Env) (stripe : Stripe)
    (create' : string -> option string) (now : Z) (db : Db)
    (userId : string) (businessId : Z) (tier c : string) (u : User.t) :
  getUser db userId = Some u ->
  User.stripeCustomerId u = Some c ->
  c <> "" ->
  users (fst (post_api_businesses_upgrade env stripe now db userId businessId
                tier)) = users db
  /\ post_api_businesses_upgrade env
       (mkStripe create' (subscriptions_create stripe)) now db userId
       businessId tier
     = post_api_businesses_upgrade env stripe now db userId businessId tier.
Proof.
  intros Hu Hc Hne. apply String.eqb_neq in Hne.
  unfold post_api_businesses_upgrade. rewrite Hu, Hc, Hne. cbn [fst snd].
  destruct (getBusinessById db businessId) as [[b [owner|]]|];
    [|now split|now split].
  destruct (negb _); [now split |].
  destruct (tier =? "free")%string; [now split |].
  destruct (if (tier =? "basic")%string then _ else _) as [priceId|];
    [|now split].
  destruct (priceId =? "")%string; [now split |].
  cbn [subscriptions_create].
  destruct (subscriptions_create stripe c priceId) as [[sid pend]|];
    now split.
Qed.

(** X7, witness: an upgrade to an unknown tier, answered with 400. *)
Lemma failed_upgrade_changes_no_business_witness :
  status_of (snd (post_api_businesses_upgrade Sample.env Sample.stripe 20
                    Sample.registered "owner" 1 "gold")) = 400%nat
  /\ businesses (fst (post_api_businesses_upgrade Sample.env Sample.stripe 20
                        Sample.registered "owner" 1 "gold"))
     = businesses Sample.registered.
Proof.
  split; [reflexivity |].
  apply failed_upgrade_changes_no_business.
  vm_compute. discriminate.
Defined.

(** X8, witness: the unapproved sample business takes the basic plan. *)
Lemma paid_upgrade_enables_booking_witness :
  getBusinessById Sample.registered 1
  = Some (Sample.registered_studio, Some Sample.owner)
  /\ snd (post_api_businesses_upgrade Sample.env Sample.stripe 20
            Sample.registered "owner" 1 "basic")
     = Json 200 (Upgraded (Some Sample.upgraded_studio) "sub_1")
  /\ Business.approved Sample.upgraded_studio = Some false.
Proof.
  assert (Hb : getBusinessById Sample.registered 1
               = Some (Sample.registered_studio, Some Sample.owner))
    by reflexivity.
  split; [exact Hb | split; [|reflexivity]].
  refine (proj1 (paid_upgrade_enables_booking Sample.env Sample.stripe 20
                   Sample.registered "owner" 1 "basic" "price_basic" "sub_1"
                   1700000000 Sample.registered_studio Sample.owner
                   Hb eq_refl _ _ _ _)).
  - left. split; reflexivity.
  - discriminate.
  - discriminate.
  - reflexivity.
Defined.

(** X9, witness: the provider issues a customer and then refuses the subscription. *)
Lemma customer_reference_outlives_failed_upgrade_witness :
  snd (post_api_businesses_upgrade Sample.env Sample.refusing_stripe 20
         Sample.registered "owner" 1 "basic")
  = Message 500 "Failed to upgrade subscription"
  /\ getUser (fst (post_api_businesses_upgrade Sample.env
                     Sample.refusing_stripe 20 Sample.registered "owner" 1
                     "basic")) "owner"
     = Some (User.with_stripeCustomerId Sample.owner "cus_1" 20).
Proof.
  assert (Hb : getBusinessById Sample.registered 1
               = Some (Sample.registered_studio, Some Sample.owner))
    by reflexivity.
  pose proof (customer_reference_outlives_failed_upgrade Sample.env
                Sample.refusing_stripe 20 Sample.registered "owner" 1 "basic"
                "price_basic" "cus_1" Sample.registered_studio Sample.owner
                Hb eq_refl
                (or_introl (conj eq_refl eq_refl))
                (fun E => match String.eqb_neq "price_basic" "" with
                          | conj f _ => f eq_refl E
                          end)
                eq_refl eq_refl eq_refl) as G.
  split; [exact (proj1 G) | exact (proj2 (proj2 G))].
Defined.

(** X10, witness: a second upgrade of the sample business. *)
Lemma known_customer_is_reused_witness :
  getUser Sample.upgraded_unapproved "owner"
  = Some (User.with_stripeCustomerId Sample.owner "cus_1" 20)
  /\ users (fst (post_api_businesses_upgrade Sample.env Sample.stripe 30
                   Sample.upgraded_unapproved "owner" 1 "premium"))
     = users Sample.upgraded_unapproved.
Proof.
  assert (Hu : getUser Sample.upgraded_unapproved "owner"
               = Some (User.with_stripeCustomerId Sample.owner "cus_1" 20))
    by reflexivity.
  split; [exact Hu |].
  refine (proj1 (known_customer_is_reused Sample.env Sample.stripe
                   (fun _ => None) 30 Sample.upgraded_unapproved "owner" 1
                   "premium" "cus_1" _ Hu eq_refl _)).
  discriminate.
Defined.

End Subscription.

(** ** The primary key of the business table *)

Section BusinessKeys.
Import storage.






End BusinessKeys.

(** ** Owners *)

Section Owners.
Import storage.

Lemma has_user_ids (db db' : Db) (uid : string) :
  map User.id (users db') = map User.id (users db) ->
  has_user db' uid = has_user db uid.
Proof.
  unfold has_user. intros H.
  assert (G : forall l, existsb (fun u => (User.id u =? uid)%string) l
                        = existsb (fun i => (i =? uid)%string) (map User.id l)).
  { induction l as [|x l IH]; [reflexivity |]. simpl. now rewrite IH. }
  now rewrite !G, H.
Qed.

Lemma post_api_businesses_upgrade_users (env : Env) (stripe : Stripe)
    (now : Z) (db : Db) (userId : string) (businessId : Z) (tier : string) :
  map User.id (users (fst (post_api_businesses_upgrade env stripe now db
                             userId businessId tier)))
  = map User.id (users db).
Proof.
  assert (Hset : forall c,
            map User.id (users (updateUserStripeCustomerId now db userId c))
            = map User.id (users db)).
  { intros c. unfold updateUserStripeCustomerId. simpl. rewrite map_map.
    apply map_ext. intros u. now destruct (User.id u =? userId)%string. }
  unfold post_api_businesses_upgrade. simpl.
  destruct (getBusinessById db businessId) as [[b [owner|]]|];
    [|reflexivity|reflexivity].
  destruct (User.id owner =? userId)%string; simpl; [|reflexivity].
  destruct (tier =? "free")%string; [reflexivity |].
  destruct (if (tier =? "basic")%string then _ else _) as [priceId|];
    [|reflexivity].
  destruct (priceId =? "")%string; [reflexivity |].
  assert (Hnew :
    map User.id
      (users (fst
         match
           match customers_create stripe userId with
           | Some c => Some (updateUserStripeCustomerId now db userId c, c)
           | None => None
           end
         with
         | None => (db, Message 500 "Failed to upgrade subscription")
         | Some (db1, customerId) =>
             match subscriptions_create stripe customerId priceId with
             | None => (db1, Message 500 "Failed to upgrade subscription")
             | Some (subscriptionId, current_period_end) =>
                 let (db2, updated) :=
                   updateBusinessSubscription now db1 businessId tier true
                     (Some (current_period_end * 1000))
                     (Some subscriptionId) in
                 (db2, Json 200 (Upgraded updated subscriptionId))
             end
         end)) = map User.id (users db)).
  { destruct (customers_create stripe userId) as [c|]; [|reflexivity].
    destruct (subscriptions_create stripe c priceId) as [[sid pend]|];
      simpl; apply Hset. }
  destruct (match getUser db userId with
            | Some u => User.stripeCustomerId u
            | None => None
            end) as [c|]; [|exact Hnew].
  destruct (c =? "")%string; [exact Hnew |].
  now destruct (subscriptions_create stripe c priceId) as [[sid pend]|].
Qed.

Lemma has_user_getUser_some (db : Db) (uid : string) :
  has_user db uid = true -> exists u, getUser db uid = Some u.
Proof.
  unfold has_user, getUser. intros H.
  destruct (find _ (users db)) as [u|] eqn:E; [now exists u |].
  apply existsb_exists in H. destruct H as (x & Hx & Hid).
  apply (find_none _ _ E) in Hx. simpl in Hx. congruence.
Qed.

Lemma reachable_businesses_owned (db : Db) :
  reachable db ->
  forall b, In b (businesses db) ->
    exists uid, Business.userId b = Some uid /\ has_user db uid = true.
Proof.
  induction 1 as [db H0 | now db uid body _ IH Hbody
                 | now db uid bid a _ IH
                 | env stripe now db uid bid tier _ IH].
  - intros b Hin. rewrite H0 in Hin. contradiction.
  - intros b Hin.
    assert (Hu : users (fst (post_api_businesses now db uid body)) = users db).
    { unfold post_api_businesses. destruct (getUser db uid); [|reflexivity].
      destruct (insertBusinessSchema_parse _); [|reflexivity].
      unfold createBusiness. now destruct (match _ with Some _ => _ | None => _ end). }
    assert (Hh : forall x, has_user (fst (post_api_businesses now db uid body)) x
                           = has_user db x).
    { intros x. apply has_user_ids. now rewrite Hu. }
    destruct (post_api_businesses_table now db uid body)
      as [E|(x & E & Hr & Hid & _)]; rewrite E in Hin.
    + destruct (IH b Hin) as (o & Ho & Hx). exists o. now rewrite Hh.
    + apply in_app_or in Hin. destruct Hin as [Hin|[<-|[]]].
      * destruct (IH b Hin) as (o & Ho & Hx). exists o. now rewrite Hh.
      * exists uid. split; [assumption |]. rewrite Hh.
        revert Hr. unfold post_api_businesses.
        destruct (getUser db uid) as [u|] eqn:Eu; [|discriminate].
        intros _. now apply (has_user_getUser _ _ u).
  - intros b Hin.
    assert (Hu : users (fst (put_api_admin_businesses_approve now db uid bid a))
                 = users db).
    { unfold put_api_admin_businesses_approve.
      destruct (getUser db uid) as [u|]; [|reflexivity].
      destruct (User.role u =? "admin")%string; [|reflexivity].
      unfold updateBusinessApproval.
      match goal with
      | |- context [getBusinessById ?d ?i] =>
          destruct (getBusinessById d i) as [[? [?|]]|]
      end; reflexivity. }
    assert (Hh : forall x, has_user (fst (put_api_admin_businesses_approve now
                                            db uid bid a)) x = has_user db x).
    { intros x. apply has_user_ids. now rewrite Hu. }
    destruct (put_api_admin_businesses_approve_table now db uid bid a)
      as [E|E]; rewrite E in Hin.
    + destruct (IH b Hin) as (o & Ho & Hx). exists o. now rewrite Hh.
    + apply in_map_iff in Hin. destruct Hin as (x & <- & Hx).
      destruct (IH x Hx) as (o & Ho & Hxo). exists o. rewrite Hh.
      split; [|assumption]. now destruct (Business.id x =? bid).
  - intros b Hin.
    assert (Hh : forall x, has_user (fst (post_api_businesses_upgrade env
                                            stripe now db uid bid tier)) x
                           = has_user db x).
    { intros x. apply has_user_ids. apply post_api_businesses_upgrade_users. }
    destruct (post_api_businesses_upgrade_outcome env stripe now db uid bid
                tier) as [_ [[_ E]|[_ (en & e & s & E)]]]; rewrite E in Hin.
    + destruct (IH b Hin) as (o & Ho & Hx). exists o. now rewrite Hh.
    + apply in_map_iff in Hin. destruct Hin as (x & <- & Hx).
      destruct (IH x Hx) as (o & Ho & Hxo). exists o. rewrite Hh.
      split; [|assumption]. now destruct (Business.id x =? bid).
Qed.

(** X12. Every business that registration, approval and the subscription route
    can produce has an owner, and the owner is a stored user: the join the
    queries make for the business carries that user, which is the one whose
    e-mail the approval route reads after writing, and the business is
    among those listed for its owner. *)
Theorem reachable_businesses_have_owners (db : Db) (b : Business.t) :
  reachable db ->
  In b (businesses db) ->
  exists owner,
    Business.userId b = Some (User.id owner)
    /\ getUser db (User.id owner) = Some owner
    /\ join_user db b = (b, Some owner)
    /\ In (b, Some owner) (getBusinessesByUserId db (User.id owner)).
Proof.
  intros Hr Hin.
  destruct (reachable_businesses_owned db Hr b Hin) as (uid & Hu & Hh).
  destruct (has_user_getUser_some _ _ Hh) as (u & Hg). exists u.
  assert (Hid : User.id u = uid).
  { unfold getUser in Hg. apply find_some in Hg. now apply String.eqb_eq. }
  assert (Hj : join_user db b = (b, Some u)).
  { unfold join_user. now rewrite Hu, Hg. }
  rewrite Hid. repeat split; try assumption.
  rewrite <- Hj. unfold getBusinessesByUserId. apply in_map.
  apply filter_In. split; [assumption |].
  rewrite Hu. apply String.eqb_refl.
Qed.

(** X12, witness: the sample business after its upgrade, whose owner has been
    given a customer reference by then. *)
Lemma reachable_businesses_have_owners_witness :
  reachable Sample.upgraded_unapproved
  /\ In Sample.upgraded_studio (businesses Sample.upgraded_unapproved)
  /\ exists owner,
       Business.userId Sample.upgraded_studio = Some (User.id owner)
       /\ getUser Sample.upgraded_unapproved (User.id owner) = Some owner
       /\ join_user Sample.upgraded_unapproved Sample.upgraded_studio
          = (Sample.upgraded_studio, Some owner)
       /\ In (Sample.upgraded_studio, Some owner)
             (getBusinessesByUserId Sample.upgraded_unapproved
                (User.id owner)).
Proof.
  assert (Hr : reachable Sample.upgraded_unapproved).
  { unfold Sample.upgraded_unapproved. apply reach_upgrade.
    unfold Sample.registered. apply reach_register.
    - apply reach_init. reflexivity.
    - discriminate. }
  assert (Hin : In Sample.upgraded_studio
                   (businesses Sample.upgraded_unapproved))
    by (left; reflexivity).
  split; [exact Hr | split; [exact Hin |]].
  exact (reachable_businesses_have_owners Sample.upgraded_unapproved
           Sample.upgraded_studio Hr Hin).
Defined.

End Owners.

(** ** Prices *)

Section Prices.

Lemma to_numeric_10_2_nonneg (q : Q) (p : numeric) :
  Qle_bool 0 q = true -> to_numeric_10_2 q = Some p -> 0 <= p < 10 ^ 10.
Proof.
  unfold to_numeric_10_2, round_half_away. intros Hq.
  assert (H0 : Qle_bool 0 (q * 100) = true).
  { apply Qle_bool_iff. apply Qle_bool_iff in Hq.
    apply Qmult_le_0_compat; [assumption | discriminate]. }
  rewrite H0.
  assert (Hf : 0 <= Qfloor (q * 100 + (1 # 2))).
  { change 0 with (Qfloor 0). apply Qfloor_resp_le.
    apply Qle_bool_iff in H0.
    apply Qle_trans with (q * 100)%Q; [assumption |].
    rewrite <- (Qplus_0_r (q * 100)) at 1.
    apply Qplus_le_r. discriminate. }
  set (x := Qfloor (q * 100 + (1 # 2))) in *.
  destruct (Z.abs x <? 10 ^ 10) eqn:E; [|discriminate].
  intros [= <-]. apply Z.ltb_lt in E.
  change (10 ^ 10) with 10000000000 in *. lia.
Qed.

(** X13. No session comes out of POST /api/sessions with a negative price: the
    stored price of a created session is between 0.00 and 99999999.99. A
    request with a negative price is answered with status 500 and stores
    nothing. *)
Theorem created_session_price_in_range (now : Z) (db : Db) (userId : string)
    (body : InsertFitnessSession.body) :
  (forall db' s, post_api_sessions now db userId body = (db', Json 201 s) ->
     0 <= FitnessSession.price s < 10 ^ 10)
  /\ (forall q, InsertFitnessSession.b_price body = Val q -> (q < 0)%Q ->
        status_of (snd (post_api_sessions now db userId body)) <> 201%nat
        /\ fitnessSessions (fst (post_api_sessions now db userId body))
           = fitnessSessions db).
Proof.
  unfold post_api_sessions. split.
  - intros db' s.
    destruct (length _ =? 0)%nat; [discriminate |].
    destruct (insertFitnessSessionSchema_parse body) as [data|] eqn:Ep;
      [|discriminate].
    assert (Hq : Qle_bool 0 (InsertFitnessSession.price data) = true).
    { unfold insertFitnessSessionSchema_parse in Ep.
      repeat match type of Ep with
             | match required ?f with _ => _ end = _ =>
                 destruct (required f); [|discriminate]
             end.
      destruct (InsertFitnessSession.b_gender body); try discriminate;
        match type of Ep with
        | (if Qle_bool 0 ?x then _ else _) = _ =>
            destruct (Qle_bool 0 x) eqn:E; [|discriminate]
        end; now injection Ep as <-. }
    unfold storage.createFitnessSession.
    destruct (to_numeric_10_2 _) as [p|] eqn:En; [|discriminate].
    destruct (_ && _)%bool; [|discriminate].
    intros [= <- <-]. simpl. now apply (to_numeric_10_2_nonneg _ _ Hq).
  - intros q Hb Hneg.
    destruct (length _ =? 0)%nat; [split; [discriminate | reflexivity] |].
    assert (Hp : insertFitnessSessionSchema_parse body = None).
    { unfold insertFitnessSessionSchema_parse. rewrite Hb.
      assert (Hf : Qle_bool 0 q = false).
      { destruct (Qle_bool 0 q) eqn:E; [|reflexivity].
        apply Qle_bool_iff in E. exfalso. now apply (Qlt_not_le _ _ Hneg). }
      cbn [required].
      repeat match goal with
             | |- match required ?f with _ => _ end = _ =>
                 destruct (required f); [|reflexivity]
             end.
      rewrite Hf. now destruct (InsertFitnessSession.b_gender body). }
    rewrite Hp. split; [discriminate | reflexivity].
Qed.

End Prices.

(** ** Sessions between creation, approval and search *)

Section SessionVisibility.
Import storage.

Lemma approved_in_conditions (f : filters.t) (r : FitnessSessionWithDetails.t) :
  and_ (conditions f) r = true -> approved_is_true r = true.
Proof.
  unfold and_, conditions. simpl. intros H.
  apply andb_true_iff in H. tauto.
Qed.

Lemma searchFitnessSessions_no_filters (db : Db) :
  searchFitnessSessions db no_filters
  = map (join_session db)
        (filter (fun s => match FitnessSession.approved s with
                          | Some true => true
                          | _ => false
                          end) (fitnessSessions db)).
Proof.
  unfold searchFitnessSessions, no_filters, conditions. simpl.
  rewrite filter_map_swap. f_equal. apply filter_ext. intros s.
  unfold and_, approved_is_true. simpl. now rewrite andb_true_r.
Qed.

(** X14. Filters only narrow a search: whatever is found under some filters is
    found without any, that is, among the approved sessions; and a session
    waiting in the approval queue is in no search result. *)
Theorem search_within_approved_sessions (db : Db) (f : filters.t)
    (r : FitnessSessionWithDetails.t) :
  searchFitnessSessions db no_filters
  = map (join_session db)
        (filter (fun s => match FitnessSession.approved s with
                          | Some true => true
                          | _ => false
                          end) (fitnessSessions db))
  /\ (In r (searchFitnessSessions db f) ->
      In r (searchFitnessSessions db no_filters)
      /\ ~ In r (getPendingFitnessSessions db)).
Proof.
  split.
  - apply searchFitnessSessions_no_filters.
  - unfold searchFitnessSessions. rewrite !filter_In.
    intros [Hin Hc]. apply approved_in_conditions in Hc. split.
    + split; [assumption |]. unfold and_, no_filters, conditions. simpl.
      now rewrite Hc.
    + unfold getPendingFitnessSessions. rewrite in_map_iff.
      intros (s & <- & Hs). apply filter_In in Hs. destruct Hs as [_ Hs].
      unfold approved_is_true in Hc. simpl in Hc.
      destruct (FitnessSession.approved s) as [[]|]; discriminate.
Qed.

(** X15. What the admin's decision on a session does to the search: after an
    approval every session of that id is found by the search without
    filters; after a refusal no search, under any filter, returns a session
    of that id. *)
Theorem session_approval_decides_visibility (now : Z) (db : Db)
    (userId : string) (sessionId : Z) (approved : bool) :
  not_admin db userId = false ->
  let db' := fst (put_api_admin_sessions_approve now db userId sessionId
                    approved) in
  (approved = true ->
   forall s, In s (fitnessSessions db) -> FitnessSession.id s = sessionId ->
     In (join_session db' (FitnessSession.with_approved s true now))
        (searchFitnessSessions db' no_filters))
  /\ (approved = false ->
      forall f r, In r (searchFitnessSessions db' f) ->
        FitnessSession.id (FitnessSessionWithDetails.session r) <> sessionId).
Proof.
  intros Hadm. unfold put_api_admin_sessions_approve. rewrite Hadm.
  unfold updateFitnessSessionApproval. cbn [fst snd]. split.
  - intros -> s Hin Hid.
    rewrite searchFitnessSessions_no_filters.
    apply in_map. apply filter_In. cbn [fitnessSessions set_fitnessSessions].
    split; [|reflexivity].
    apply in_map_iff. exists s. split; [|assumption].
    apply Z.eqb_eq in Hid. now rewrite Hid.
  - intros -> f r Hin Hid.
    unfold searchFitnessSessions in Hin. apply filter_In in Hin.
    destruct Hin as [Hin Hc]. apply approved_in_conditions in Hc.
    apply in_map_iff in Hin. destruct Hin as (s & <- & Hs).
    cbn [fitnessSessions set_fitnessSessions] in Hs.
    apply in_map_iff in Hs. destruct Hs as (s0 & <- & _).
    unfold approved_is_true in Hc. simpl in Hc, Hid.
    destruct (FitnessSession.id s0 =? sessionId) eqn:E.
    + discriminate.
    + apply Z.eqb_neq in E. contradiction.
Qed.

(** X16. A session created without an [approved] property in the body starts
    unapproved: it is in the approval queue, and no search returns it. *)
Theorem new_session_waits_for_approval (now : Z) (db db' : Db)
    (userId : string) (body : InsertFitnessSession.body)
    (s : FitnessSession.t) :
  InsertFitnessSession.b_approved body = Absent ->
  post_api_sessions now db userId body = (db', Json 201 s) ->
  FitnessSession.approved s = Some false
  /\ In (join_session db' s) (getPendingFitnessSessions db')
  /\ forall f r, In r (searchFitnessSessions db' f) ->
                 FitnessSessionWithDetails.session r <> s.
Proof.
  intros Habs H.
  assert (Ha : FitnessSession.approved s = Some false).
  { revert H. unfold post_api_sessions.
    destruct (length _ =? 0)%nat; [discriminate |].
    destruct (insertFitnessSessionSchema_parse body) as [data|] eqn:Ep;
      [|discriminate].
    assert (Hd : InsertFitnessSession.approved data = Absent).
    { unfold insertFitnessSessionSchema_parse in Ep.
      repeat match type of Ep with
             | match required ?f with _ => _ end = _ =>
                 destruct (required f); [|discriminate]
             end.
      destruct (InsertFitnessSession.b_gender body); try discriminate;
        destruct (Qle_bool 0 _); try discriminate;
        injection Ep as <-; exact Habs. }
    unfold createFitnessSession.
    destruct (to_numeric_10_2 _); [|discriminate].
    destruct (_ && _)%bool; [|discriminate].
    intros [= <- <-]. simpl. now rewrite Hd. }
  destruct (post_api_sessions_created _ _ _ _ _ _ H) as (_ & _ & _ & Hs).
  split; [exact Ha | split].
  - unfold getPendingFitnessSessions. apply in_map. apply filter_In.
    split; [|now rewrite Ha]. rewrite Hs. apply in_or_app. right. now left.
  - intros f r Hin <-. unfold searchFitnessSessions in Hin.
    apply filter_In in Hin. destruct Hin as [_ Hc].
    apply approved_in_conditions in Hc. unfold approved_is_true in Hc.
    rewrite Ha in Hc. discriminate.
Qed.

(** X17. The sessions of a business are shown to its owner only: the route
    answers with the sessions of the business, approved or not, exactly
    when the caller owns a business of that id, and with status 403
    otherwise. *)
Theorem get_api_sessions_business_owner_only (db : Db) (userId : string)
    (businessId : Z) :
  ((exists b, In b (businesses db) /\ Business.id b = businessId
              /\ Business.userId b = Some userId) ->
   get_api_sessions_business db userId businessId
   = Json 200 (getFitnessSessionsByBusinessId db businessId)
   /\ forall s, In s (fitnessSessions db) ->
                FitnessSession.businessId s = businessId ->
                In (join_session db s)
                   (getFitnessSessionsByBusinessId db businessId))
  /\ (~ (exists b, In b (businesses db) /\ Business.id b = businessId
                   /\ Business.userId b = Some userId) ->
      get_api_sessions_business db userId businessId
      = Message 403 "Access denied").
Proof.
  assert (Hown : existsb (fun b => Business.id (fst b) =? businessId)
                   (getBusinessesByUserId db userId) = true
                 <-> exists b, In b (businesses db) /\ Business.id b = businessId
                               /\ Business.userId b = Some userId).
  { rewrite existsb_exists. unfold getBusinessesByUserId. split.
    - intros (x & Hx & Hid). apply in_map_iff in Hx.
      destruct Hx as (b & <- & Hb). apply filter_In in Hb.
      destruct Hb as [Hin Hu]. exists b. simpl in Hid.
      apply Z.eqb_eq in Hid. repeat split; try assumption.
      destruct (Business.userId b) as [u|]; [|discriminate].
      apply String.eqb_eq in Hu. now subst.
    - intros (b & Hin & Hid & Hu). exists (join_user db b). split.
      + apply in_map. apply filter_In. split; [assumption |].
        rewrite Hu. apply String.eqb_refl.
      + simpl. now apply Z.eqb_eq. }
  unfold get_api_sessions_business. split.
  - intros H. apply Hown in H. rewrite H. simpl. split; [reflexivity |].
    intros s Hin Hb. unfold getFitnessSessionsByBusinessId.
    apply in_map. apply filter_In. split; [assumption | now apply Z.eqb_eq].
  - intros H. destruct (existsb _ _) eqn:E; [|reflexivity].
    exfalso. apply H. now apply Hown.
Qed.

(** X15, witness: the admin approves the sample session [hatha]. *)
Lemma session_approval_decides_visibility_witness :
  not_admin Sample.db "admin" = false
  /\ In (join_session
           (fst (put_api_admin_sessions_approve 70 Sample.db "admin" 1 true))
           (FitnessSession.with_approved Sample.hatha true 70))
        (searchFitnessSessions
           (fst (put_api_admin_sessions_approve 70 Sample.db "admin" 1 true))
           no_filters).
Proof.
  assert (H : not_admin Sample.db "admin" = false) by reflexivity.
  split; [exact H |].
  exact (proj1 (session_approval_decides_visibility 70 Sample.db "admin" 1
                  true H)
           eq_refl Sample.hatha (or_introl eq_refl) eq_refl).
Defined.

(** X16, witness: the session the sample owner creates. *)
Lemma new_session_waits_for_approval_witness :
  post_api_sessions 50 Sample.db "owner" Sample.new_session
  = (fst (post_api_sessions 50 Sample.db "owner" Sample.new_session),
     Json 201 (Sample.pilates 1))
  /\ FitnessSession.approved (Sample.pilates 1) = Some false
  /\ In (join_session
           (fst (post_api_sessions 50 Sample.db "owner" Sample.new_session))
           (Sample.pilates 1))
        (getPendingFitnessSessions
           (fst (post_api_sessions 50 Sample.db "owner" Sample.new_session))).
Proof.
  assert (H : post_api_sessions 50 Sample.db "owner" Sample.new_session
              = (fst (post_api_sessions 50 Sample.db "owner"
                        Sample.new_session),
                 Json 201 (Sample.pilates 1)))
    by (vm_compute; reflexivity).
  pose proof (new_session_waits_for_approval 50 Sample.db _ "owner"
                Sample.new_session (Sample.pilates 1) eq_refl H) as G.
  split; [exact H | split; [exact (proj1 G) | exact (proj1 (proj2 G))]].
Defined.

End SessionVisibility.

(** ** Bookings over HTTP, and reading bookings back *)

Section BookingLists.
Import storage.

(** X18. POST /api/bookings creates no booking: whatever JSON body is sent,
    the answer is status 500 and the database is as it was. The schema asks
    for a [Date] object under [sessionDate], which no property of a parsed
    JSON body is; handed such an object, with the amount as a string, the
    same schema accepts the booking. *)
Theorem post_api_bookings_refuses_every_body :
  (forall pg now db userId body,
     post_api_bookings pg now db userId body
     = (db, Message 500 "Failed to create booking"))
  /\ (forall userId sessionId sessionDate totalAmount,
        insertBookingSchema_parse
          (InsertBooking.mkInput (Some (Parsed (JString userId)))
             (Some (Parsed (JNumber (inject_Z sessionId))))
             (Some (DateObject sessionDate)) None None
             (Some (Parsed (JString totalAmount))) None)
        = Some (InsertBooking.mk userId sessionId sessionDate None Absent
                  totalAmount Absent)).
Proof.
  split.
  - intros pg now db userId body.
    unfold post_api_bookings, insertBookingSchema_parse,
      InsertBooking.spread_userId.
    cbn [InsertBooking.i_userId InsertBooking.i_sessionId
         InsertBooking.i_sessionDate z_string].
    destruct (z_integer _); [|reflexivity].
    now destruct (InsertBooking.b_sessionDate body).
  - intros userId sessionId sessionDate totalAmount.
    unfold insertBookingSchema_parse.
    cbn [InsertBooking.i_userId InsertBooking.i_sessionId
         InsertBooking.i_sessionDate InsertBooking.i_status
         InsertBooking.i_paymentIntentId InsertBooking.i_totalAmount
         InsertBooking.i_specialRequirements z_string z_integer z_date
         z_string_optional z_string_nullish].
    rewrite Qfloor_Z.
    assert (H : Qeq_bool (inject_Z sessionId) (inject_Z sessionId) = true)
      by (apply Qeq_bool_iff; reflexivity).
    now rewrite H.
Qed.

(** X19. In the bookings a user is shown, each booking is the user's own, and
    the user placed under the session's business is again that user, the
    customer: the query joins only the booking's user and puts it in both
    places, so the owner of the business is not in the answer. *)
Theorem booking_details_carry_the_customer (db : Db) (userId : string)
    (d : BookingWithDetails.t) :
  In d (getBookingsByUserId db userId) ->
  Booking.userId (BookingWithDetails.booking d) = userId
  /\ BookingWithDetails.user d = getUser db userId
  /\ BookingWithDetails.session_business_user d = getUser db userId.
Proof.
  unfold getBookingsByUserId. intros H. apply in_map_iff in H.
  destruct H as (k & <- & Hk). apply filter_In in Hk.
  destruct Hk as [_ Hu]. apply String.eqb_eq in Hu. simpl.
  now rewrite Hu.
Qed.

(** X19, witness: alice's booking in the sample database, on a session of the owner's studio. *)
Lemma booking_details_carry_the_customer_witness :
  In (join_booking Sample.db Sample.cancelled_booking)
     (getBookingsByUserId Sample.db "alice")
  /\ BookingWithDetails.session_business
       (join_booking Sample.db Sample.cancelled_booking)
     = Some Sample.studio
  /\ BookingWithDetails.session_business_user
       (join_booking Sample.db Sample.cancelled_booking)
     = getUser Sample.db "alice".
Proof.
  assert (H : In (join_booking Sample.db Sample.cancelled_booking)
                 (getBookingsByUserId Sample.db "alice"))
    by (left; reflexivity).
  split; [exact H | split; [reflexivity |]].
  exact (proj2 (proj2 (booking_details_carry_the_customer Sample.db "alice"
                         _ H))).
Defined.

End BookingLists.

(** ** Claims in the review queue *)

Section ClaimQueue.
Import storage.

(** X20. Filing a claim puts it in the queue of pending claims and touches no
    business: the target stays unclaimed and the list of claimable
    businesses is what it was, so the same claim can be filed again and is
    accepted again. *)
Theorem filed_claim_is_pending (now now' : Z) (db db' : Db) (userId : string)
    (businessId : Z) (claimMessage : field string)
    (verificationDocuments : field (list string)) (c : BusinessClaim.t) :
  post_api_businesses_claim now db userId businessId claimMessage
    verificationDocuments = (db', Json 201 c) ->
  In (join_claim db' c) (getPendingBusinessClaims db')
  /\ businesses db' = businesses db
  /\ getUnclaimedBusinesses db' = getUnclaimedBusinesses db
  /\ status_of (snd (post_api_businesses_claim now' db' userId businessId
                       claimMessage verificationDocuments)) = 201%nat.
Proof.
  intros H.
  assert (Hdb : db' = set_businessClaims db (businessClaims db ++ [c])
                        (business_claims_id_seq db + 1)
                /\ (has_business db businessId && has_user db userId)%bool = true).
  { revert H. unfold post_api_businesses_claim.
    destruct (getBusinessById db businessId) as [[b u]|]; [|discriminate].
    destruct (_ || _)%bool; [discriminate |].
    unfold createBusinessClaim. simpl.
    destruct (_ && _)%bool; [|discriminate]. now intros [= <- <-]. }
  destruct Hdb as [Hdb Hfk].
  destruct (post_api_businesses_claim_created _ _ _ _ _ _ _ _ H)
    as (Hst & _ & _ & Hcs & b & u & Hb & Hc & Hu).
  split; [|split; [|split]].
  - unfold getPendingBusinessClaims. apply in_map. apply filter_In. split.
    + rewrite Hcs. apply in_or_app. right. now left.
    + now rewrite Hst.
  - now subst db'.
  - now subst db'.
  - subst db'. unfold post_api_businesses_claim.
    change (getBusinessById (set_businessClaims db _ _) businessId)
      with (getBusinessById db businessId).
    rewrite Hb, Hc, Hu. simpl orb. cbv iota.
    unfold createBusinessClaim.
    cbn [InsertBusinessClaim.businessId InsertBusinessClaim.userId].
    change (has_business (set_businessClaims db _ _) businessId)
      with (has_business db businessId).
    change (has_user (set_businessClaims db _ _) userId)
      with (has_user db userId).
    rewrite Hfk. reflexivity.
Qed.

(** X21. Once a claim has been given a status other than [pending], no claim of
    that id is in the review queue, while the claims of other ids are in
    the queue exactly as before. *)
Theorem decided_claim_leaves_queue (now : Z) (db : Db) (id : Z)
    (status : string) (c : BusinessClaim.t) :
  status <> "pending" ->
  (In c (map BusinessClaimWithDetails.claim
           (getPendingBusinessClaims
              (fst (updateBusinessClaimStatus now db id status))))
   <-> In c (map BusinessClaimWithDetails.claim (getPendingBusinessClaims db))
       /\ BusinessClaim.id c <> id).
Proof.
  intros Hs. apply String.eqb_neq in Hs.
  unfold getPendingBusinessClaims, updateBusinessClaimStatus. simpl.
  rewrite !map_map. simpl. rewrite !map_id, !filter_In, in_map_iff. split.
  - intros [(c0 & <- & Hin) Hp].
    destruct (BusinessClaim.id c0 =? id) eqn:E.
    + simpl in Hp. rewrite Hs in Hp. discriminate.
    + apply Z.eqb_neq in E. now repeat split.
  - intros [[Hin Hp] Hid]. split; [|assumption].
    exists c. split; [|assumption].
    apply Z.eqb_neq in Hid. now rewrite Hid.
Qed.

(** X20, witness: alice's claim on the sample gym. *)
Lemma filed_claim_is_pending_witness :
  post_api_businesses_claim 50 Sample.db "alice" 2 (Val "It is mine") Absent
  = (fst (post_api_businesses_claim 50 Sample.db "alice" 2
            (Val "It is mine") Absent),
     Json 201 Sample.claim_on_gym)
  /\ In (join_claim
           (fst (post_api_businesses_claim 50 Sample.db "alice" 2
                   (Val "It is mine") Absent))
           Sample.claim_on_gym)
        (getPendingBusinessClaims
           (fst (post_api_businesses_claim 50 Sample.db "alice" 2
                   (Val "It is mine") Absent))).
Proof.
  assert (H : post_api_businesses_claim 50 Sample.db "alice" 2
                (Val "It is mine") Absent
              = (fst (post_api_businesses_claim 50 Sample.db "alice" 2
                        (Val "It is mine") Absent),
                 Json 201 Sample.claim_on_gym))
    by (vm_compute; reflexivity).
  split; [exact H |].
  exact (proj1 (filed_claim_is_pending 50 60 Sample.db _ "alice" 2
                  (Val "It is mine") Absent Sample.claim_on_gym H)).
Defined.

(** X21, witness: the pending sample claim is rejected. *)
Lemma decided_claim_leaves_queue_witness :
  In Sample.pending_claim
     (map BusinessClaimWithDetails.claim
        (getPendingBusinessClaims Sample.db))
  /\ (In Sample.pending_claim
         (map BusinessClaimWithDetails.claim
            (getPendingBusinessClaims
               (fst (updateBusinessClaimStatus 60 Sample.db 1 "rejected"))))
      <-> In Sample.pending_claim
            (map BusinessClaimWithDetails.claim
               (getPendingBusinessClaims Sample.db))
          /\ BusinessClaim.id Sample.pending_claim <> 1).
Proof.
  split; [left; reflexivity |].
  apply decided_claim_leaves_queue. discriminate.
Defined.

End ClaimQueue.

(** ** The admin's statistics *)

Section Statistics.
Import storage.

(** X22. The pending counts of the statistics are the lengths of the two
    approval queues and never exceed the totals; a registration that
    succeeds without sending an [approved] property raises the number of
    businesses and the number of pending businesses by one each. *)
Theorem getStats_counts_the_queues (now : Z) (db : Db) (userId : string)
    (body : InsertBusiness.body) :
  Stats.pendingBusinesses (getStats db) = length (getPendingBusinesses db)
  /\ Stats.pendingSessions (getStats db)
     = length (getPendingFitnessSessions db)
  /\ (Stats.pendingBusinesses (getStats db)
      <= Stats.totalBusinesses (getStats db))%nat
  /\ (Stats.pendingSessions (getStats db)
      <= Stats.totalSessions (getStats db))%nat
  /\ (InsertBusiness.b_approved body = Absent ->
      status_of (snd (post_api_businesses now db userId body)) = 201%nat ->
      let db' := fst (post_api_businesses now db userId body) in
      Stats.totalBusinesses (getStats db')
      = S (Stats.totalBusinesses (getStats db))
      /\ Stats.pendingBusinesses (getStats db')
         = S (Stats.pendingBusinesses (getStats db))).
Proof.
  unfold getStats, getPendingBusinesses, getPendingFitnessSessions. simpl.
  rewrite !length_map.
  split; [reflexivity | split; [reflexivity |]].
  split; [apply filter_length_le | split; [apply filter_length_le |]].
  intros Habs Hst. revert Hst. unfold post_api_businesses.
  destruct (getUser db userId); [|discriminate].
  destruct (insertBusinessSchema_parse _) as [data|] eqn:Ep; [|discriminate].
  assert (Hd : InsertBusiness.approved data = Absent).
  { unfold insertBusinessSchema_parse, InsertBusiness.spread_userId in Ep.
    simpl in Ep.
    destruct (required (InsertBusiness.b_name body)); [|discriminate].
    destruct (required (InsertBusiness.b_address body)); [|discriminate].
    destruct (required (InsertBusiness.b_postcode body)); [|discriminate].
    injection Ep as <-. exact Habs. }
  unfold createBusiness.
  destruct (match nullable (InsertBusiness.userId data) with
            | Some u => has_user db u
            | None => true
            end); simpl; [|discriminate].
  intros _. rewrite Hd. simpl.
  rewrite filter_app, !length_app. simpl. lia.
Qed.

End Statistics.

(** ** Personal trainers *)

Section Trainers.
Import trainerStorage.

Lemma like_wrap_contains (s p : string) :
  Like.no_meta p = true ->
  Like.like s (Like.wrap p)
  = Like.contains (list_ascii_of_string p) (list_ascii_of_string s).
Proof.
  intros H. unfold Like.like, Like.wrap. simpl.
  rewrite list_ascii_of_string_app.
  change (Like.tokens ("%"%char :: list_ascii_of_string p
                       ++ list_ascii_of_string "%"))
    with (Like.TAny :: Like.tokens (list_ascii_of_string p ++ ["%"%char])).
  rewrite (tokens_literal _ _ H). simpl Like.tokens.
  apply like_match_contains.
Qed.

Lemma searchPersonalTrainers_filter (db : Db) (f : filters.t) :
  searchPersonalTrainers db f
  = filter (fun r => forallb (fun c => c r) (conditions f))
           (map (join_user db) (personalTrainers db)).
Proof.
  unfold searchPersonalTrainers.
  destruct (conditions f) as [|c cs]; [|reflexivity]. simpl.
  induction (map (join_user db) (personalTrainers db)) as [|x l IH];
    [reflexivity |]. simpl. now rewrite <- IH.
Qed.

Lemma trainer_push_if_string_true (f : option string)
    (c : string -> condition) (r : PersonalTrainerWithUser) :
  forallb (fun k => k r) (push_if_string f c) = true
  <-> (forall s, f = Some s -> s <> "" -> c s r = true).
Proof.
  unfold push_if_string. destruct f as [s|].
  - destruct (String.eqb_spec s "") as [E|E]; simpl.
    + split; [intros _ s' [= <-] H; contradiction | reflexivity].
    + rewrite andb_true_r. split.
      * now intros H s' [= <-] _.
      * intros H. now apply H.
  - simpl. split; [discriminate | reflexivity].
Qed.

(** X23. What the trainer search selects. A trainer is returned exactly when it
    is approved (unless the search is made with [approved: false]) and
    meets every filter that is set: the search text, free of pattern
    characters, occurs in the first name, the last name or the bio in any
    letter case; the specialty is one of the trainer's; the location text
    occurs in the trainer's location in the same letter case; and the
    hourly rate is known and at most [maxRate]. A [maxRate] of zero is no
    bound at all. *)
Theorem searchPersonalTrainers_selects (db : Db) (f : filters.t)
    (r : PersonalTrainerWithUser) :
  plain_filter (filters.search f) = true ->
  plain_filter (filters.location f) = true ->
  (In r (searchPersonalTrainers db f) <->
   In r (map (join_user db) (personalTrainers db))
   /\ (filters.approved f <> Some false ->
       PersonalTrainer.approved (fst r) = Some true)
   /\ (forall s, filters.search f = Some s -> s <> "" ->
         Like.contains_ci s (PersonalTrainer.firstName (fst r)) = true
         \/ Like.contains_ci s (PersonalTrainer.lastName (fst r)) = true
         \/ exists b, PersonalTrainer.bio (fst r) = Some b
                      /\ Like.contains_ci s b = true)
   /\ (forall s, filters.specialty f = Some s -> s <> "" ->
         In s (PersonalTrainer.specialties (fst r)))
   /\ (forall l, filters.location f = Some l -> l <> "" ->
         exists loc, PersonalTrainer.location (fst r) = Some loc
                     /\ Like.contains (list_ascii_of_string l)
                                      (list_ascii_of_string loc) = true)
   /\ (forall q, filters.maxRate f = Some q -> ~ (q == 0)%Q ->
         exists h, PersonalTrainer.hourlyRate (fst r) = Some h
                   /\ (numeric_to_Q h <= q)%Q)).
Proof.
  intros Hps Hpl.
  rewrite searchPersonalTrainers_filter, filter_In. unfold conditions.
  rewrite !forallb_app_true, !trainer_push_if_string_true.
  assert (A : forallb (fun c : condition => c r)
                match filters.approved f with
                | Some false => []
                | _ => [approved_is_true]
                end = true
              <-> (filters.approved f <> Some false ->
                   PersonalTrainer.approved (fst r) = Some true)).
  { unfold approved_is_true.
    destruct (filters.approved f) as [[]|]; simpl;
      destruct (PersonalTrainer.approved (fst r)) as [[]|]; simpl;
      split; try congruence; try (intros H; now apply H);
      try (intros H; exfalso; assert (X : Some false = Some true)
             by (apply H; discriminate); discriminate);
      intros H; exfalso;
      match type of H with
      | _ -> ?a = ?b => assert (X : a = b) by (apply H; discriminate)
      end; discriminate. }
  assert (S : (forall s, filters.search f = Some s -> s <> "" ->
                  name_or_bio_ilike s r = true)
              <-> (forall s, filters.search f = Some s -> s <> "" ->
                     Like.contains_ci s (PersonalTrainer.firstName (fst r)) = true
                     \/ Like.contains_ci s (PersonalTrainer.lastName (fst r)) = true
                     \/ exists b, PersonalTrainer.bio (fst r) = Some b
                                  /\ Like.contains_ci s b = true)).
  { split; intros H s E N; specialize (H s E N);
      rewrite E in Hps; simpl in Hps; unfold name_or_bio_ilike in *;
      rewrite !(ilike_wrap_contains _ _ Hps) in *.
    - apply orb_true_iff in H. destruct H as [H|H].
      + apply orb_true_iff in H. tauto.
      + right; right.
        destruct (PersonalTrainer.bio (fst r)) as [b|]; [|discriminate].
        exists b. split; [reflexivity |].
        now rewrite <- (ilike_wrap_contains _ _ Hps).
    - destruct H as [H|[H|(b & Hb & H)]].
      + now rewrite H.
      + rewrite H. now rewrite orb_true_r.
      + rewrite Hb, (ilike_wrap_contains _ _ Hps), H.
        now rewrite orb_true_r. }
  assert (P : (forall s, filters.specialty f = Some s -> s <> "" ->
                  specialties_contain s r = true)
              <-> (forall s, filters.specialty f = Some s -> s <> "" ->
                     In s (PersonalTrainer.specialties (fst r)))).
  { split; intros H s E N; specialize (H s E N);
      now apply (jsonb_exists_In (PersonalTrainer.specialties (fst r)) s). }
  assert (L : (forall l, filters.location f = Some l -> l <> "" ->
                  location_like l r = true)
              <-> (forall l, filters.location f = Some l -> l <> "" ->
                     exists loc, PersonalTrainer.location (fst r) = Some loc
                                 /\ Like.contains (list_ascii_of_string l)
                                      (list_ascii_of_string loc) = true)).
  { split; intros H l E N; specialize (H l E N);
      rewrite E in Hpl; simpl in Hpl; unfold location_like in *.
    - destruct (PersonalTrainer.location (fst r)) as [loc|]; [|discriminate].
      exists loc. split; [reflexivity |].
      now rewrite <- (like_wrap_contains _ _ Hpl).
    - destruct H as (loc & -> & H). now rewrite (like_wrap_contains _ _ Hpl). }
  assert (M : forallb (fun c : condition => c r)
                match filters.maxRate f with
                | Some q => if Qeq_bool q 0 then [] else [rate_le q]
                | None => []
                end = true
              <-> (forall q, filters.maxRate f = Some q -> ~ (q == 0)%Q ->
                     exists h, PersonalTrainer.hourlyRate (fst r) = Some h
                               /\ (numeric_to_Q h <= q)%Q)).
  { destruct (filters.maxRate f) as [q|]; [|simpl; split; [discriminate | reflexivity]].
    destruct (Qeq_bool q 0) eqn:Eq; simpl.
    - split; [|reflexivity]. intros _ q' [= <-] Hn.
      apply Qeq_bool_iff in Eq. contradiction.
    - rewrite andb_true_r. unfold rate_le. split.
      + intros H q' [= <-] _.
        destruct (PersonalTrainer.hourlyRate (fst r)) as [h|]; [|discriminate].
        exists h. split; [reflexivity | now apply Qle_bool_iff].
      + intros H. destruct (H q eq_refl) as (h & -> & Hle).
        * intros Hz. apply Qeq_bool_iff in Hz. congruence.
        * now apply Qle_bool_iff. }
  rewrite A, S, P, L, M. reflexivity.
Qed.

Lemma public_search_result_approved (db : Db)
    (search specialty location : option string) (maxRate : option Q)
    (r : PersonalTrainerWithUser) :
  In r (searchPersonalTrainers db
          (filters.mk search specialty location maxRate None)) ->
  PersonalTrainer.approved (fst r) = Some true.
Proof.
  intros H.
  rewrite searchPersonalTrainers_filter in H. apply filter_In in H.
  destruct H as [_ H]. unfold conditions in H. simpl in H.
  apply andb_true_iff in H. destruct H as [H _].
  unfold approved_is_true in H.
  now destruct (PersonalTrainer.approved (fst r)) as [[]|].
Qed.

(** X24. The public trainer search, GET /api/personal-trainers/search, never
    sets the [approved] filter, and so shows approved trainers only,
    whatever is asked for. *)
Theorem public_trainer_search_shows_approved_only (db : Db)
    (search specialty location : option string) (maxRate : option Q)
    (l : list PersonalTrainerWithUser) (r : PersonalTrainerWithUser) :
  get_api_personal_trainers_search db search specialty location maxRate
  = Json 200 l ->
  In r l ->
  PersonalTrainer.approved (fst r) = Some true.
Proof.
  unfold get_api_personal_trainers_search. intros [= <-] H.
  now apply (public_search_result_approved db search specialty location
               maxRate).
Qed.

(** X25. A trainer profile is stored under the caller's id, whatever [userId]
    the body carries; but the body must carry one, since the body is
    validated before the caller's id is put in. A profile created without
    an [approved] property is unapproved. *)
Theorem trainer_profile_belongs_to_caller (tdb : TrainerDb)
    (userId : string) (body : InsertPersonalTrainer.body) :
  (forall tdb' t,
     post_api_personal_trainers tdb userId body = (tdb', Json 201 t) ->
     PersonalTrainer.userId t = userId
     /\ (exists sent, InsertPersonalTrainer.b_userId body = Val sent)
     /\ has_user (base tdb) userId = true
     /\ personalTrainers (base tdb') = personalTrainers (base tdb) ++ [t]
     /\ (InsertPersonalTrainer.b_approved body = Absent ->
         PersonalTrainer.approved t = Some false))
  /\ ((forall sent, InsertPersonalTrainer.b_userId body <> Val sent) ->
      post_api_personal_trainers tdb userId body
      = (tdb, Message 500 "Failed to create trainer profile")).
Proof.
  unfold post_api_personal_trainers, insertPersonalTrainerSchema_parse.
  split.
  - intros tdb' t.
    destruct (InsertPersonalTrainer.b_userId body) as [| |sent]; simpl;
      try discriminate.
    destruct (required (InsertPersonalTrainer.b_firstName body));
      [|discriminate].
    destruct (required (InsertPersonalTrainer.b_lastName body));
      [|discriminate].
    destruct (required (InsertPersonalTrainer.b_specialties body));
      [|discriminate].
    destruct (required (InsertPersonalTrainer.b_hourlyRate body));
      [|discriminate].
    destruct (Qle_bool 0 _); [|discriminate].
    unfold createPersonalTrainer, InsertPersonalTrainer.spread_userId. simpl.
    destruct (to_numeric_10_2 _); [|discriminate].
    destruct (has_user (base tdb) userId) eqn:Eu; [|discriminate].
    intros [= <- <-]. simpl. repeat split.
    + now exists sent.
    + now intros ->.
  - intros H.
    destruct (InsertPersonalTrainer.b_userId body) as [| |sent]; simpl;
      try reflexivity.
    now contradiction (H sent).
Qed.

(** X26. What the admin's decision on a trainer does to the public search:
    after an approval every trainer of that id is found by the search
    without filters; after a refusal no public search returns a trainer of
    that id. *)
Theorem trainer_approval_decides_visibility (db : Db) (userId : string)
    (trainerId : Z) (approved : bool) :
  not_admin db userId = false ->
  let db' := fst (put_api_admin_trainers_approve db userId trainerId
                    approved) in
  (approved = true ->
   forall t, In t (personalTrainers db) -> PersonalTrainer.id t = trainerId ->
     In (join_user db' (PersonalTrainer.with_approved t true))
        (searchPersonalTrainers db' (filters.mk None None None None None)))
  /\ (approved = false ->
      forall search specialty location maxRate r,
        In r (searchPersonalTrainers db'
                (filters.mk search specialty location maxRate None)) ->
        PersonalTrainer.id (fst r) <> trainerId).
Proof.
  intros Hadm. unfold put_api_admin_trainers_approve. rewrite Hadm.
  unfold updatePersonalTrainerApproval. cbn [fst snd]. split.
  - intros -> t Hin Hid. rewrite searchPersonalTrainers_filter.
    apply filter_In. split; [|reflexivity].
    apply in_map. cbn [personalTrainers set_personalTrainers].
    apply in_map_iff. exists t. split; [|assumption].
    apply Z.eqb_eq in Hid. now rewrite Hid.
  - intros -> search specialty location maxRate r Hin Hid.
    pose proof (public_search_result_approved _ _ _ _ _ _ Hin) as Ha.
    rewrite searchPersonalTrainers_filter in Hin. apply filter_In in Hin.
    destruct Hin as [Hin _]. apply in_map_iff in Hin.
    destruct Hin as (t & <- & Ht).
    cbn [personalTrainers set_personalTrainers] in Ht.
    apply in_map_iff in Ht. destruct Ht as (t0 & <- & _).
    simpl in Ha, Hid.
    destruct (PersonalTrainer.id t0 =? trainerId) eqn:E.
    + discriminate.
    + apply Z.eqb_neq in E. contradiction.
Qed.

(** X27. A trainer profile can be read by its id whether it is approved or
    not. Where the path parameter of GET /api/personal-trainers/:id is read
    as a number of the database's integer range, the answer is 404 exactly
    when no trainer has that id, and otherwise a trainer of that id, on
    which the approved flag is not looked at. Where the parameter is read
    as [NaN] or as a number beyond that range, the answer is 500. *)
Theorem get_api_personal_trainers_id_ignores_approval (db : Db) (id : Z) :
  get_api_personal_trainers_id db None
  = Message 500 "Failed to fetch trainer"
  /\ (int4 id = false ->
      get_api_personal_trainers_id db (Some id)
      = Message 500 "Failed to fetch trainer")
  /\ (int4 id = true ->
      (get_api_personal_trainers_id db (Some id)
       = Message 404 "Trainer not found"
       <-> forall t, In t (personalTrainers db) -> PersonalTrainer.id t <> id)
      /\ (forall t, In t (personalTrainers db) ->
            PersonalTrainer.id t = id ->
            exists r, get_api_personal_trainers_id db (Some id) = Json 200 r
                      /\ In (fst r) (personalTrainers db)
                      /\ PersonalTrainer.id (fst r) = id)).
Proof.
  split; [reflexivity | split].
  - intros H. unfold get_api_personal_trainers_id. now rewrite H.
  - intros H. unfold get_api_personal_trainers_id, getPersonalTrainerById.
    rewrite H.
    destruct (find (fun t => PersonalTrainer.id t =? id)
                (personalTrainers db)) as [x|] eqn:E; simpl.
    + destruct (find_some _ _ E) as [Hin Hid]. apply Z.eqb_eq in Hid. split.
      * split; [discriminate |]. intros H0. now contradiction (H0 x Hin).
      * intros t _ _. exists (join_user db x). now repeat split.
    + split.
      * split; [|reflexivity]. intros _ t Hin Hid.
        apply (find_none _ _ E) in Hin. simpl in Hin.
        apply Z.eqb_neq in Hin. contradiction.
      * intros t Hin Hid. apply (find_none _ _ E) in Hin. simpl in Hin.
        apply Z.eqb_neq in Hin. contradiction.
Qed.

(** X23, witness: a search for [ali] in [Lond] finds the approved sample trainer. *)
Lemma searchPersonalTrainers_selects_witness :
  plain_filter (filters.search Sample.trainer_search) = true
  /\ plain_filter (filters.location Sample.trainer_search) = true
  /\ In (join_user Sample.db Sample.approved_trainer)
        (searchPersonalTrainers Sample.db Sample.trainer_search)
  /\ PersonalTrainer.approved Sample.approved_trainer = Some true.
Proof.
  assert (Hs : plain_filter (filters.search Sample.trainer_search) = true)
    by reflexivity.
  assert (Hl : plain_filter (filters.location Sample.trainer_search) = true)
    by reflexivity.
  assert (Hin : In (join_user Sample.db Sample.approved_trainer)
                   (searchPersonalTrainers Sample.db Sample.trainer_search))
    by (vm_compute; left; reflexivity).
  split; [exact Hs | split; [exact Hl | split; [exact Hin |]]].
  pose proof (proj1 (searchPersonalTrainers_selects Sample.db
                       Sample.trainer_search _ Hs Hl) Hin) as G.
  destruct G as (_ & Ha & _). apply Ha. discriminate.
Defined.

(** X24, witness: a public search by specialty in the sample database. *)
Lemma public_trainer_search_shows_approved_only_witness :
  In (join_user Sample.db Sample.approved_trainer)
     (searchPersonalTrainers Sample.db
        (filters.mk None (Some "boxing") None None None))
  /\ PersonalTrainer.approved Sample.approved_trainer = Some true.
Proof.
  assert (H : In (join_user Sample.db Sample.approved_trainer)
                 (searchPersonalTrainers Sample.db
                    (filters.mk None (Some "boxing") None None None)))
    by (vm_compute; left; reflexivity).
  split; [exact H |].
  exact (public_trainer_search_shows_approved_only Sample.db None
           (Some "boxing") None None _ _ eq_refl H).
Defined.

(** X26, witness: the admin approves the waiting sample trainer. *)
Lemma trainer_approval_decides_visibility_witness :
  not_admin Sample.db "admin" = false
  /\ In (join_user
           (fst (put_api_admin_trainers_approve Sample.db "admin" 2 true))
           (PersonalTrainer.with_approved Sample.waiting_trainer true))
        (searchPersonalTrainers
           (fst (put_api_admin_trainers_approve Sample.db "admin" 2 true))
           (filters.mk None None None None None)).
Proof.
  assert (H : not_admin Sample.db "admin" = false) by reflexivity.
  split; [exact H |].
  exact (proj1 (trainer_approval_decides_visibility Sample.db "admin" 2 true
                  H)
           eq_refl Sample.waiting_trainer (or_intror (or_introl eq_refl))
           eq_refl).
Defined.

End Trainers.

(** ** The check boxes of the forms *)

Section Forms.
Import client.

Lemma filter_neq_not_in (v : string) (l : list string) :
  ~ In v (filter (fun x => negb (x =? v)%string) l).
Proof.
  intros H. apply filter_In in H. destruct H as [_ H].
  now rewrite String.eqb_refl in H.
Qed.

Lemma filter_neq_in (v w : string) (l : list string) :
  w <> v ->
  (In w (filter (fun x => negb (x =? v)%string) l) <-> In w l).
Proof.
  intros H. rewrite filter_In. split; [tauto |].
  intros Hin. split; [assumption |].
  apply String.eqb_neq in H. now rewrite H.
Qed.

Lemma handleDifficultyChange_alone (sel : list string) (d : string)
    (checked : bool) :
  alone_if_present "all_levels" sel ->
  alone_if_present "all_levels" (handleDifficultyChange sel d checked).
Proof.
  unfold alone_if_present, handleDifficultyChange. intros H.
  destruct (String.eqb_spec d "all_levels") as [->|Hd].
  - destruct checked; [reflexivity | contradiction].
  - destruct checked.
    + intros Hin. apply in_app_or in Hin. destruct Hin as [Hin|[E|[]]].
      * now apply filter_neq_not_in in Hin.
      * now contradiction Hd.
    + intros Hin. apply filter_neq_in in Hin; [|congruence].
      rewrite (H Hin). cbn [filter].
      destruct (String.eqb_spec "all_levels" d) as [E|_];
        [now contradiction Hd | reflexivity].
Qed.

Lemma handleAgeGroupChange_alone (sel : list string) (a : string)
    (checked : bool) :
  alone_if_present "all_ages" sel ->
  alone_if_present "all_ages" (handleAgeGroupChange sel a checked).
Proof.
  unfold alone_if_present, handleAgeGroupChange. intros H.
  destruct (String.eqb_spec a "all_ages") as [->|Hd].
  - destruct checked; [reflexivity | contradiction].
  - destruct checked.
    + intros Hin. apply in_app_or in Hin. destruct Hin as [Hin|[E|[]]].
      * now apply filter_neq_not_in in Hin.
      * now contradiction Hd.
    + intros Hin. apply filter_neq_in in Hin; [|congruence].
      rewrite (H Hin). cbn [filter].
      destruct (String.eqb_spec "all_ages" a) as [E|_];
        [now contradiction Hd | reflexivity].
Qed.

Lemma fold_left_invariant {A B} (P : A -> Prop) (f : A -> B -> A)
    (l : list B) (a : A) :
  (forall x b, P x -> P (f x b)) -> P a -> P (fold_left f l a).
Proof.
  intros Hf. revert a. induction l as [|b l IH]; intros a Ha; [assumption |].
  simpl. apply IH. now apply Hf.
Qed.

(** X28. Whatever boxes are ticked and cleared on the session form, in whatever
    order, the catch-all choices stay exclusive: if the difficulty
    selection contains [all_levels] it contains nothing else, and likewise
    for [all_ages] among the age groups. *)
Theorem catch_all_choice_stays_alone (clicks : list (string * bool)) :
  alone_if_present "all_levels" (difficulty_clicks clicks)
  /\ alone_if_present "all_ages" (ageGroup_clicks clicks).
Proof.
  unfold difficulty_clicks, ageGroup_clicks. split.
  - apply (fold_left_invariant (alone_if_present "all_levels")).
    + intros sel c. apply handleDifficultyChange_alone.
    + intros [E|[]]. discriminate.
  - apply (fold_left_invariant (alone_if_present "all_ages")).
    + intros sel c. apply handleAgeGroupChange_alone.
    + intros [E|[]]. discriminate.
Qed.

(** X29. One click on a difficulty box does what the box says: ticking a level
    selects it, clearing it deselects it, and ticking a single level never
    leaves [all_levels] selected. *)
Theorem handleDifficultyChange_follows_the_box (sel : list string)
    (d : string) :
  In d (handleDifficultyChange sel d true)
  /\ ~ In d (handleDifficultyChange sel d false)
  /\ (d <> "all_levels" ->
      ~ In "all_levels" (handleDifficultyChange sel d true)
      /\ forall other, other <> d -> other <> "all_levels" ->
           (In other (handleDifficultyChange sel d true) <-> In other sel)).
Proof.
  unfold handleDifficultyChange.
  destruct (String.eqb_spec d "all_levels") as [->|Hd].
  - split; [now left | split; [intros [] | intros H; now contradiction H]].
  - split; [|split].
    + apply in_or_app. right. now left.
    + apply filter_neq_not_in.
    + intros _. split.
      * intros Hin. apply in_app_or in Hin. destruct Hin as [Hin|[E|[]]].
        -- now apply filter_neq_not_in in Hin.
        -- now contradiction Hd.
      * intros other Ho Hs. rewrite in_app_iff, (filter_neq_in _ _ _ Hs).
        simpl. split; [|tauto]. intros [H|[E|[]]]; [assumption |].
        now contradiction Ho.
Qed.

Lemma existsb_eqb_In (v : string) (l : list string) :
  existsb (fun x => (x =? v)%string) l = true <-> In v l.
Proof.
  rewrite existsb_exists. split.
  - intros (x & Hx & E). apply String.eqb_eq in E. now subst.
  - intros H. exists v. split; [assumption | apply String.eqb_refl].
Qed.

Lemma NoDup_filter {A} (p : A -> bool) (l : list A) :
  NoDup l -> NoDup (filter p l).
Proof.
  induction 1 as [|x l Hx Hl IH]; simpl; [constructor |].
  destruct (p x); [|assumption].
  constructor; [|assumption]. intros H. apply filter_In in H. tauto.
Qed.

Lemma handleArrayToggle_NoDup (l : list string) (v : string) :
  NoDup l -> NoDup (handleArrayToggle l v).
Proof.
  intros H. unfold handleArrayToggle.
  destruct (existsb _ l) eqn:E.
  - now apply NoDup_filter.
  - apply NoDup_app; [assumption | |].
    + constructor; [intros [] | constructor].
    + intros x Hx [<-|[]]. apply existsb_eqb_In in Hx. congruence.
Qed.

(** X30. A toggle on an array field of the business form flips the membership
    of the value and of no other. Starting from the empty field no value is
    ever listed twice, and toggling a value twice in a row gives back a
    duplicate-free selection that did not contain it. The toggles of the
    trainer form behave the same. *)
Theorem array_toggle_flips_membership (l : list string) (v : string) :
  (In v (handleArrayToggle l v) <-> ~ In v l)
  /\ (forall w, w <> v -> (In w (handleArrayToggle l v) <-> In w l))
  /\ (forall values, NoDup (array_toggles values))
  /\ (~ In v l -> handleArrayToggle (handleArrayToggle l v) v = l)
  /\ toggleSpecialty l v = handleArrayToggle l v.
Proof.
  split; [|split; [|split; [|split]]].
  - unfold handleArrayToggle. destruct (existsb _ l) eqn:E.
    + apply existsb_eqb_In in E. split; [|contradiction].
      intros H. now apply filter_neq_not_in in H.
    + assert (Hn : ~ In v l).
      { intros H. apply existsb_eqb_In in H. congruence. }
      split; [now intros _ |]. intros _. apply in_or_app. right. now left.
  - intros w Hw. unfold handleArrayToggle. destruct (existsb _ l).
    + now apply filter_neq_in.
    + rewrite in_app_iff. simpl. split; [|tauto].
      intros [H|[E|[]]]; [assumption |]. now contradiction Hw.
  - intros values. unfold array_toggles.
    apply (fold_left_invariant (@NoDup string)).
    + intros x b. apply handleArrayToggle_NoDup.
    + constructor.
  - intros Hn. unfold handleArrayToggle at 2.
    assert (E : existsb (fun x => (x =? v)%string) l = false).
    { destruct (existsb _ l) eqn:E; [|reflexivity].
      apply existsb_eqb_In in E. contradiction. }
    rewrite E. unfold handleArrayToggle.
    rewrite existsb_app. simpl. rewrite String.eqb_refl, orb_true_r.
    rewrite filter_app. simpl. rewrite String.eqb_refl. simpl.
    rewrite app_nil_r.
    clear E. induction l as [|x l IH]; [reflexivity |]. simpl.
    destruct (String.eqb_spec x v) as [->|_].
    + exfalso. apply Hn. now left.
    + simpl. f_equal. apply IH. intros H. apply Hn. now right.
  - reflexivity.
Qed.

End Forms.
